(** * Checkmate: chessboard orientation and calibration sample pipeline

    A shallow embedding of Checkmate: the orientation and calibration
    core (src/chessboard.cpp, src/calibrator.cpp and the [find_best_pose]
    lambda of src/main.cpp), the frame loaders (src/frame_loader.cpp), the
    helpers of src/utils.cpp, the drawing of src/renderer.cpp, and the
    source selection, the frame loop and the last step of [main].

    - C++ [int] is a [Z] wrapped to 32 bits after every arithmetic step.
    - C++ [float] and [double] are IEEE 754 binary32 and binary64 values,
      given by the executable specification of [SpecFloat] (round to
      nearest even), so every comparison below is the machine comparison.
    - [std::vector] is [list]; unchecked [operator[]] outside the vector
      is undefined in C++ and is [None] here.
    - OpenCV routines (solvePnP, Rodrigues, projectPoints, the region
      mean, calibrateCamera) are collaborators: they are the fields of
      the class [OpenCV], and theorems hold for every instance of it.
      They are total functions here; a [cv::Exception] thrown by one of
      them ends the program and is outside the model.
    - The image routines, the file system, the display and the keyboard
      are collaborators of the same kind ([Imgproc], [FileSystem],
      [Highgui]); drawing on an image is the list of the drawing calls
      made. *)

From Stdlib Require Import ZArith List Bool Lia Permutation PeanoNat Sorted.
From Stdlib Require String.
Import String.StringSyntax.
Local Open Scope string_scope.
Local Open Scope list_scope.
From Stdlib Require Import Floats.SpecFloat.
From Stdlib Require Import Ascii Orders Mergesort DecimalString.
Import ListNotations.

Local Open Scope Z_scope.

(** ** Machine integers *)

Module Int.

Definition INT_MAX : Z := 2147483647.
Definition INT_MIN : Z := -2147483648.

(** Two's complement wrap-around to 32 bits. *)
Definition wrap (z : Z) : Z := (z + 2147483648) mod 4294967296 - 2147483648.

Definition add (a b : Z) : Z := wrap (a + b).
Definition sub (a b : Z) : Z := wrap (a - b).
Definition mul (a b : Z) : Z := wrap (a * b).

Definition in_range (z : Z) : Prop := INT_MIN <= z <= INT_MAX.

End Int.

(** ** Floating point: binary32 ([float]) and binary64 ([double]) *)

Definition float : Type := spec_float.
Definition double : Type := spec_float.

Module F32.
Definition prec : Z := 24.
Definition emax : Z := 128.
Definition add (a b : float) : float := SFadd prec emax a b.
Definition sub (a b : float) : float := SFsub prec emax a b.
Definition mul (a b : float) : float := SFmul prec emax a b.
Definition div (a b : float) : float := SFdiv prec emax a b.
Definition ltb (a b : float) : bool := SFltb a b.
(** Conversion of an [int] to [float]. *)
Definition of_int (z : Z) : float := binary_normalize prec emax z 0 false.
Definition zero : float := S754_zero false.
End F32.

Module F64.
Definition prec : Z := 53.
Definition emax : Z := 1024.
Definition add (a b : double) : double := SFadd prec emax a b.
Definition sub (a b : double) : double := SFsub prec emax a b.
Definition mul (a b : double) : double := SFmul prec emax a b.
Definition div (a b : double) : double := SFdiv prec emax a b.
Definition sqrt (a : double) : double := SFsqrt prec emax a.
Definition ltb (a b : double) : bool := SFltb a b.
Definition leb (a b : double) : bool := SFleb a b.
Definition eqb (a b : double) : bool := SFeqb a b.
(** Conversion of an integer ([int] or [size_t]) to [double]. *)
Definition of_int (z : Z) : double := binary_normalize prec emax z 0 false.
(** The widening conversion [(double)f], which is exact. *)
Definition of_float (f : float) : double :=
  match f with
  | S754_finite s m e => binary_round prec emax s m e
  | _ => f
  end.
Definition zero : double := S754_zero false.
Definition nan : double := S754_nan.
End F64.

(** The literals of the sources. *)
Definition d_1e6 : double := F64.of_int 1000000.
Definition d_1e9 : double := F64.of_int 1000000000.
Definition d_15 : double := F64.of_int 15.
Definition d_10 : double := F64.of_int 10.
Definition d_1000 : double := F64.of_int 1000.
Definition d_2 : double := F64.of_int 2.
Definition d_1 : double := F64.of_int 1.

(** ** Vectors and loops *)

(** [v[i]] for an [int] index: the index becomes a [size_t], so a negative
    one is far outside the vector. *)
Definition vec_at {A : Type} (v : list A) (i : Z) : option A :=
  if i <? 0 then None else nth_error v (Z.to_nat i).

Fixpoint list_set {A : Type} (v : list A) (n : nat) (a : A) : list A :=
  match v, n with
  | [], _ => []
  | _ :: t, O => a :: t
  | h :: t, S k => h :: list_set t k a
  end.

(** [v[i] = a]. *)
Definition vec_set {A : Type} (v : list A) (i : Z) (a : A) : option (list A) :=
  if (0 <=? i) && (i <? Z.of_nat (length v))
  then Some (list_set v (Z.to_nat i) a) else None.

(** [for (int i = 0; i < n; ++i) body] over a loop state, for a body that
    can leave the defined behaviour ([for_lt]) and for one that cannot
    ([loop_lt]); the counter stays below [n], so [++i] never wraps. *)
Fixpoint for_from {St : Type} (i : Z) (count : nat)
    (body : Z -> St -> option St) (s : St) : option St :=
  match count with
  | O => Some s
  | S k =>
      match body i s with
      | None => None
      | Some s' => for_from (i + 1) k body s'
      end
  end.

Definition for_lt {St : Type} (n : Z) (body : Z -> St -> option St) (s : St)
    : option St :=
  for_from 0 (Z.to_nat n) body s.

Fixpoint loop_from {St : Type} (i : Z) (count : nat)
    (body : Z -> St -> St) (s : St) : St :=
  match count with
  | O => s
  | S k => loop_from (i + 1) k body (body i s)
  end.

Definition loop_lt {St : Type} (n : Z) (body : Z -> St -> St) (s : St) : St :=
  loop_from 0 (Z.to_nat n) body s.

(** ** OpenCV value types *)

Record Point2f : Type := mkPoint2f { p2x : float; p2y : float }.
Record Point3f : Type := mkPoint3f { p3x : float; p3y : float; p3z : float }.
Record Size : Type := mkSize { width : Z; height : Z }.

(** [cv::Mat], as far as the sources look into one: its dimensions and its
    elements in row-major order. *)
Record Mat : Type := mkMat {
  mat_rows : Z;
  mat_cols : Z;
  mat_data : list double
}.

(** [cv::Mat()]. *)
Definition Mat_empty : Mat := mkMat 0 0 [].

(** [cv::Mat::zeros(r, c, CV_64F)]. *)
Definition Mat_zeros (r c : Z) : Mat :=
  mkMat r c (repeat F64.zero (Z.to_nat (r * c))).

(** [m.at<double>(i, j)]. *)
Definition Mat_at (m : Mat) (i j : Z) : option double :=
  if (0 <=? i) && (i <? mat_rows m) && (0 <=? j) && (j <? mat_cols m)
  then nth_error (mat_data m) (Z.to_nat (i * mat_cols m + j))
  else None.

Module P2.
Definition add (a b : Point2f) : Point2f :=
  mkPoint2f (F32.add (p2x a) (p2x b)) (F32.add (p2y a) (p2y b)).
Definition sub (a b : Point2f) : Point2f :=
  mkPoint2f (F32.sub (p2x a) (p2x b)) (F32.sub (p2y a) (p2y b)).
(** [operator/(Point2f, int)]: each coordinate is divided in [float]. *)
Definition div (a : Point2f) (b : Z) : Point2f :=
  mkPoint2f (F32.div (p2x a) (F32.of_int b)) (F32.div (p2y a) (F32.of_int b)).
(** [cv::norm(Point2f)]: [sqrt((double)x*x + (double)y*y)]. *)
Definition norm (a : Point2f) : double :=
  F64.sqrt (F64.add (F64.mul (F64.of_float (p2x a)) (F64.of_float (p2x a)))
                    (F64.mul (F64.of_float (p2y a)) (F64.of_float (p2y a)))).
End P2.

(** ** The OpenCV collaborators *)

Record PnP : Type := mkPnP { pnp_ok : bool; pnp_rvec : Mat; pnp_tvec : Mat }.

Record CalibrateCameraOut : Type := mkCalibrateCameraOut {
  cc_err : double;
  cc_camera_matrix : Mat;
  cc_dist_coeffs : Mat;
  cc_rvecs : list Mat;
  cc_tvecs : list Mat
}.

Class OpenCV : Type := {
  (** [cv::solvePnP(obj, img, K, dist, rvec, tvec, false, SOLVEPNP_ITERATIVE)]. *)
  solvePnP : list Point3f -> list Point2f -> Mat -> Mat -> PnP;
  (** [cv::Rodrigues(rvec, R)]. *)
  Rodrigues : Mat -> Mat;
  (** [cv::projectPoints(obj, rvec, tvec, K, dist, proj)]. *)
  projectPoints : list Point3f -> Mat -> Mat -> Mat -> Mat -> list Point2f;
  (** [cv::mean(gray(cv::Rect(org, cv::Size(5,5))))[0]]. *)
  roi_mean : Mat -> Point2f -> double;
  (** [cv::calibrateCamera(obj, img, size, K, dist, rvecs, tvecs)]; [K] and
      [dist] are passed by reference, so it sees their present values. *)
  calibrateCamera :
    list (list Point3f) -> list (list Point2f) -> Size -> Mat -> Mat ->
    CalibrateCameraOut
}.

(** What OpenCV documents of two of them: a rotation vector becomes a 3x3
    matrix, and every object point gets one image point. *)
Definition opencv_contract (cv : OpenCV) : Prop :=
  (forall rvec, mat_rows (Rodrigues rvec) = 3 /\ mat_cols (Rodrigues rvec) = 3
                /\ length (mat_data (Rodrigues rvec)) = 9%nat) /\
  (forall obj rvec tvec K dist,
      length (projectPoints obj rvec tvec K dist) = length obj).

(** ** Chessboard (src/chessboard.hpp, src/chessboard.cpp) *)

Record Chessboard : Type := mkChessboard {
  corners_x_ : Z;
  corners_y_ : Z;
  square_size_ : float
}.

(** The centres of the four outer squares, half a square step beyond the
    extreme grid corners.  [find_a1_index], [find_a1_candidates] and
    [find_best_pose] each spell these lines out. *)
Definition outer_square_centers (rows cols : Z) (corners : list Point2f)
    : option (list Point2f) :=
  match vec_at corners 0,
        vec_at corners (Int.sub cols 1),
        vec_at corners (Int.mul (Int.sub rows 1) cols),
        vec_at corners (Int.sub (Int.mul rows cols) 1) with
  | Some tl, Some tr, Some bl, Some br =>
      let dx := P2.div (P2.sub tr tl) (Int.sub cols 1) in
      let dy := P2.div (P2.sub bl tl) (Int.sub rows 1) in
      Some [ P2.sub (P2.sub tl (P2.div dx 2)) (P2.div dy 2);
             P2.sub (P2.add tr (P2.div dx 2)) (P2.div dy 2);
             P2.add (P2.sub bl (P2.div dx 2)) (P2.div dy 2);
             P2.add (P2.add br (P2.div dx 2)) (P2.div dy 2) ]
  | _, _, _, _ => None
  end.

(** [pt.x < 2 || pt.y < 2 || pt.x > gray.cols - 3 || pt.y > gray.rows - 3]:
    the [int] operands are converted to [float]. *)
Definition outside_image (gray : Mat) (pt : Point2f) : bool :=
  F32.ltb (p2x pt) (F32.of_int 2) || F32.ltb (p2y pt) (F32.of_int 2)
  || F32.ltb (F32.of_int (Int.sub (mat_cols gray) 3)) (p2x pt)
  || F32.ltb (F32.of_int (Int.sub (mat_rows gray) 3)) (p2y pt).

(** [cv::Rect roi(pt - cv::Point2f(2,2), cv::Size(5,5));
     cv::mean(gray(roi))[0]]. *)
Definition outer_square_brightness `{OpenCV} (gray : Mat) (pt : Point2f)
    : double :=
  roi_mean gray (P2.sub pt (mkPoint2f (F32.of_int 2) (F32.of_int 2))).

Module ChessboardImpl.

(** [Chessboard::reorder_corners]; the result is the new value of the
    in/out parameter [corners]. *)
Definition reorder_corners (cb : Chessboard) (corners : list Point2f)
    (a1_index : Z) : option (list Point2f) :=
  let step_x := if (a1_index =? 0) || (a1_index =? 2) then 1 else -1 in
  let step_y := if (a1_index =? 0) || (a1_index =? 1) then 1 else -1 in
  let start_y := if step_y =? 1 then 0 else Int.sub (corners_y_ cb) 1 in
  let start_x := if step_x =? 1 then 0 else Int.sub (corners_x_ cb) 1 in
  for_lt (corners_y_ cb) (fun y ordered =>
    for_lt (corners_x_ cb) (fun x ordered =>
      let col := Int.add start_x (Int.mul x step_x) in
      let row := Int.add start_y (Int.mul y step_y) in
      match vec_at corners (Int.add (Int.mul row (corners_x_ cb)) col) with
      | None => None
      | Some p => Some (ordered ++ [p])
      end) ordered) [].

(** [Chessboard::find_a1_index]: the darkest sampled outer square, or -1. *)
Definition find_a1_index `{OpenCV} (cb : Chessboard) (gray : Mat)
    (corners : list Point2f) : option Z :=
  let rows := corners_y_ cb in
  let cols := corners_x_ cb in
  match outer_square_centers rows cols corners with
  | None => None
  | Some outer_corners =>
      match
        for_lt 4 (fun i '(a1_index, min_val) =>
          match vec_at outer_corners i with
          | None => None
          | Some pt =>
              if outside_image gray pt then Some (a1_index, min_val)
              else
                let val := outer_square_brightness gray pt in
                if F64.ltb val min_val then Some (i, val)
                else Some (a1_index, min_val)
          end) (-1, d_1e6)
      with
      | None => None
      | Some (a1_index, _) => Some a1_index
      end
  end.

(** [Chessboard::find_a1_candidates]. *)
Definition find_a1_candidates `{OpenCV} (cb : Chessboard) (gray : Mat)
    (corners : list Point2f) : option (list Z) :=
  let rows := corners_y_ cb in
  let cols := corners_x_ cb in
  match outer_square_centers rows cols corners with
  | None => None
  | Some outer_corners =>
      match
        (* Measure brightness for each outer square *)
        for_lt 4 (fun i '(vals, min_val) =>
          match vec_at outer_corners i with
          | None => None
          | Some pt =>
              if outside_image gray pt then Some (vals, min_val)
              else
                let val := outer_square_brightness gray pt in
                match vec_set vals i val with
                | None => None
                | Some vals' =>
                    Some (vals', if F64.ltb val min_val then val else min_val)
                end
          end) (repeat d_1e6 4, d_1e6)
      with
      | None => None
      | Some (vals, min_val) =>
          (* Return all indices within 10 of the minimum value *)
          for_lt 4 (fun i candidates =>
            match vec_at vals i with
            | None => None
            | Some v =>
                if F64.ltb v (F64.add min_val d_10)
                then Some (candidates ++ [i]) else Some candidates
            end) []
      end
  end.

(** [Chessboard::generate_object_points]: [y * square_size_] converts the
    [int] to [float] and multiplies in [float]. *)
Definition generate_object_points (cb : Chessboard) : list Point3f :=
  loop_lt (corners_y_ cb) (fun y obj_pts =>
    loop_lt (corners_x_ cb) (fun x obj_pts =>
      obj_pts ++ [mkPoint3f (F32.mul (F32.of_int y) (square_size_ cb))
                            (F32.mul (F32.of_int x) (square_size_ cb))
                            F32.zero]) obj_pts) [].

End ChessboardImpl.

(** ** Calibrator (src/calibrator.hpp, src/calibrator.cpp) *)

Record Calibrator : Type := mkCalibrator {
  reproj_error_ : double;
  camera_matrix_ : Mat;
  dist_coeffs_ : Mat;
  image_points_ : list (list Point2f);
  object_points_ : list (list Point3f)
}.

Module CalibratorImpl.

(** [Calibrator::Calibrator()], with the member initialiser
    [reproj_error_ = 0.0] of the header. *)
Definition new : Calibrator :=
  {| reproj_error_ := F64.zero;
     camera_matrix_ := Mat_empty;
     dist_coeffs_ := Mat_zeros 5 1;
     image_points_ := [];
     object_points_ := [] |}.

Definition add_sample (c : Calibrator) (image_pts : list Point2f)
    (object_pts : list Point3f) : Calibrator :=
  {| reproj_error_ := reproj_error_ c;
     camera_matrix_ := camera_matrix_ c;
     dist_coeffs_ := dist_coeffs_ c;
     image_points_ := image_points_ c ++ [image_pts];
     object_points_ := object_points_ c ++ [object_pts] |}.

Definition is_empty {A : Type} (v : list A) : bool :=
  match v with [] => true | _ :: _ => false end.

(** [Calibrator::calibrate]: the returned flag and the object afterwards. *)
Definition calibrate `{OpenCV} (c : Calibrator) (image_size : Size)
    : bool * Calibrator :=
  if is_empty (image_points_ c) || is_empty (object_points_ c) then
    (false, c)
  else
    let out := calibrateCamera (object_points_ c) (image_points_ c)
                 image_size (camera_matrix_ c) (dist_coeffs_ c) in
    (true,
     {| reproj_error_ := cc_err out;
        camera_matrix_ := cc_camera_matrix out;
        dist_coeffs_ := cc_dist_coeffs out;
        image_points_ := image_points_ c;
        object_points_ := object_points_ c |}).

(** [Calibrator::save]: the keyed matrices handed to the file storage. *)
Definition save (c : Calibrator) : list (String.string * Mat) :=
  [ ("cameraMatrix", camera_matrix_ c);
    ("distCoeffs", dist_coeffs_ c) ].

Definition get_camera_matrix (c : Calibrator) : Mat := camera_matrix_ c.
Definition get_dist_coeffs (c : Calibrator) : Mat := dist_coeffs_ c.
Definition get_reproj_error (c : Calibrator) : double := reproj_error_ c.

End CalibratorImpl.

(** The public interface of [Calibrator], as calls on one object. *)
Inductive CalibratorCall : Type :=
  | CallAddSample (image_pts : list Point2f) (object_pts : list Point3f)
  | CallCalibrate (image_size : Size)
  | CallSave (filename : String.string)
  | CallGetCameraMatrix
  | CallGetDistCoeffs
  | CallGetReprojError.

(** The object after one call; the [const] members leave it as it is. *)
Definition after_call `{OpenCV} (c : Calibrator) (call : CalibratorCall)
    : Calibrator :=
  match call with
  | CallAddSample image_pts object_pts =>
      CalibratorImpl.add_sample c image_pts object_pts
  | CallCalibrate image_size => snd (CalibratorImpl.calibrate c image_size)
  | CallSave _ | CallGetCameraMatrix | CallGetDistCoeffs
  | CallGetReprojError => c
  end.

Definition after_calls `{OpenCV} (c : Calibrator) (calls : list CalibratorCall)
    : Calibrator :=
  fold_left after_call calls c.

(** Whether some [calibrate] among the calls returned [true]. *)
Fixpoint calibrate_succeeded `{OpenCV} (c : Calibrator)
    (calls : list CalibratorCall) : bool :=
  match calls with
  | [] => false
  | call :: rest =>
      match call with
      | CallCalibrate image_size =>
          fst (CalibratorImpl.calibrate c image_size)
      | _ => false
      end || calibrate_succeeded (after_call c call) rest
  end.

(** ** The pose search of src/main.cpp *)

Definition CORNERS_X : Z := 7.
Definition CORNERS_Y : Z := 7.
Definition SQUARE_SIZE : float := F32.of_int 1.

(** [Chessboard detector(CORNERS_X, CORNERS_Y, SQUARE_SIZE)]. *)
Definition detector : Chessboard := mkChessboard CORNERS_X CORNERS_Y SQUARE_SIZE.

(** One line of the [--verbose] output of [find_best_pose]. *)
Record LogLine : Type := mkLogLine {
  log_a1_index : Z;
  log_pixel_value : double;
  log_solvePnP : bool;
  log_z_outwards : bool;
  log_reprojErr : double
}.

(** What one turn of the candidate loop has computed when it reaches the
    selection test (main.cpp lines 199-226). *)
Record Candidate : Type := mkCandidate {
  cand_corners : list Point2f;
  cand_rvec : Mat;
  cand_tvec : Mat;
  cand_pnp_ok : bool;
  cand_R22 : double;
  cand_z_ok : bool;
  cand_reproj_err : double
}.

(** The out-parameters [best_*] of [find_best_pose]. *)
Record Best : Type := mkBest {
  best_reproj_err : double;
  best_a1 : Z;
  best_corners : list Point2f;
  best_rvec : Mat;
  best_tvec : Mat
}.

Record PoseSearch : Type := mkPoseSearch {
  outer_vals : list double;
  best : Best;
  verbose_log : list LogLine
}.

(** The provisional intrinsics [K] built inside [find_best_pose]. *)
Definition provisional_K (frame : Mat) : Mat :=
  mkMat 3 3
    [ d_1000; F64.zero; F64.div (F64.of_int (mat_cols frame)) d_2;
      F64.zero; d_1000; F64.div (F64.of_int (mat_rows frame)) d_2;
      F64.zero; F64.zero; d_1 ].

(** [err] after [for (size_t i = 0; i < proj_pts.size(); ++i)
    err += cv::norm(proj_pts[i] - test_corners[i]);]. *)
Definition sum_reproj_dist (proj_pts test_corners : list Point2f)
    : option double :=
  for_lt (Z.of_nat (length proj_pts)) (fun i err =>
    match vec_at proj_pts i, vec_at test_corners i with
    | Some p, Some c => Some (F64.add err (P2.norm (P2.sub p c)))
    | _, _ => None
    end) F64.zero.

(** The body of the candidate loop down to the gate on the mean error. *)
Definition evaluate_candidate `{OpenCV} (corners : list Point2f) (frame : Mat)
    (a1_index : Z) : option Candidate :=
  let K := provisional_K frame in
  let dist_coeffs := Mat_zeros 5 1 in
  match ChessboardImpl.reorder_corners detector corners a1_index with
  | None => None
  | Some test_corners =>
      let obj_pts := ChessboardImpl.generate_object_points detector in
      let pnp := solvePnP obj_pts test_corners K dist_coeffs in
      let rvec := pnp_rvec pnp in
      let tvec := pnp_tvec pnp in
      let R := Rodrigues rvec in
      match Mat_at R 2 2 with
      | None => None
      | Some R22 =>
          let z_ok := pnp_ok pnp && F64.ltb F64.zero R22 in
          if z_ok then
            let proj_pts := projectPoints obj_pts rvec tvec K dist_coeffs in
            match sum_reproj_dist proj_pts test_corners with
            | None => None
            | Some err =>
                let reproj_err :=
                  F64.div err (F64.of_int (Z.of_nat (length proj_pts))) in
                Some (mkCandidate test_corners rvec tvec (pnp_ok pnp) R22
                        (if F64.ltb d_15 reproj_err then false else z_ok)
                        reproj_err)
            end
          else
            Some (mkCandidate test_corners rvec tvec (pnp_ok pnp) R22
                    z_ok d_1e9)
      end
  end.

(** [if (z_ok && reproj_err < best_reproj_err) { best_... = ...; }]. *)
Definition take_if_better (b : Best) (a1_index : Z) (c : Candidate) : Best :=
  if cand_z_ok c && F64.ltb (cand_reproj_err c) (best_reproj_err b)
  then mkBest (cand_reproj_err c) a1_index (cand_corners c)
              (cand_rvec c) (cand_tvec c)
  else b.

(** [for (int a1_index : a1_candidates) { ... }]. *)
Fixpoint candidate_loop `{OpenCV} (verbose_debug : bool)
    (corners : list Point2f) (frame : Mat) (vals : list double)
    (a1_candidates : list Z) (st : Best * list LogLine)
    : option (Best * list LogLine) :=
  match a1_candidates with
  | [] => Some st
  | a1_index :: rest =>
      match evaluate_candidate corners frame a1_index with
      | None => None
      | Some c =>
          let logged :=
            if verbose_debug then
              match vec_at vals a1_index with
              | None => None
              | Some v =>
                  Some (snd st ++ [mkLogLine a1_index v (cand_pnp_ok c)
                                     (cand_z_ok c) (cand_reproj_err c)])
              end
            else Some (snd st) in
          match logged with
          | None => None
          | Some lg =>
              candidate_loop verbose_debug corners frame vals rest
                (take_if_better (fst st) a1_index c, lg)
          end
      end
  end.

(** The lambda [find_best_pose]; [verbose_debug] and [detector] are its
    captures. *)
Definition find_best_pose `{OpenCV} (verbose_debug : bool)
    (corners : list Point2f) (frame gray : Mat) : option PoseSearch :=
  let a1_candidates := [0; 1; 2; 3] in
  let rows := CORNERS_Y in
  let cols := CORNERS_X in
  match outer_square_centers rows cols corners with
  | None => None
  | Some outer_corners =>
      match
        for_lt 4 (fun i vals =>
          match vec_at outer_corners i with
          | None => None
          | Some pt =>
              if outside_image gray pt then Some vals
              else vec_set vals i (outer_square_brightness gray pt)
          end) (repeat d_1e6 4)
      with
      | None => None
      | Some vals =>
          match
            candidate_loop verbose_debug corners frame vals a1_candidates
              (mkBest d_1e9 (-1) [] Mat_empty Mat_empty, [])
          with
          | None => None
          | Some (b, lg) => Some (mkPoseSearch vals b lg)
          end
      end
  end.

(** The frame loop of [main] once the corners are found (lines 283-310),
    as far as it touches the calibrator and the stored corner orders. *)
Record FrameCorners : Type := mkFrameCorners {
  a1 : list Point2f;
  h8 : list Point2f
}.

Record Session : Type := mkSession {
  calibrator : Calibrator;
  all_frame_corners : list FrameCorners;
  last_valid_corners_idx : Z
}.

Definition use_detected_corners `{OpenCV} (verbose_debug : bool) (s : Session)
    (corners : list Point2f) (frame gray : Mat) : option (Session * bool) :=
  match find_best_pose verbose_debug corners frame gray with
  | None => None
  | Some found =>
      if best_a1 (best found) =? -1 then
        (* "Pose not valid" *)
        Some (s, false)
      else
        let obj_pts := ChessboardImpl.generate_object_points detector in
        let cal := CalibratorImpl.add_sample (calibrator s)
                     (best_corners (best found)) obj_pts in
        match ChessboardImpl.reorder_corners detector
                (best_corners (best found))
                (Int.sub 3 (best_a1 (best found))) with
        | None => None
        | Some h8_corners =>
            let stored := all_frame_corners s ++
                          [mkFrameCorners (best_corners (best found)) h8_corners] in
            Some (mkSession cal stored
                    (Int.sub (Int.wrap (Z.of_nat (length stored))) 1), true)
        end
  end.

(** ** Concrete collaborators and inputs for the examples *)

Module Examples.

Definition pt2 (x y : Z) : Point2f := mkPoint2f (F32.of_int x) (F32.of_int y).

(** A [rows] x [cols] grid of corners, row-major, starting at ([x0], [y0]),
    [step_x] and [step_y] pixels apart. *)
Definition grid (rows cols : nat) (x0 y0 step_x step_y : Z) : list Point2f :=
  flat_map (fun r =>
    map (fun c => pt2 (x0 + step_x * Z.of_nat c) (y0 + step_y * Z.of_nat r))
        (seq 0 cols)) (seq 0 rows).

Definition identity3 : Mat :=
  mkMat 3 3 [ d_1; F64.zero; F64.zero;
              F64.zero; d_1; F64.zero;
              F64.zero; F64.zero; d_1 ].

Definition fixed_calibration : CalibrateCameraOut :=
  mkCalibrateCameraOut (F64.of_int 3) identity3 (Mat_zeros 5 1)
    [Mat_zeros 3 1] [Mat_zeros 3 1].

(** A pose solver that always converges to a board facing the camera and
    whose pose projects the object points, in their order, onto the pixels
    [onto] (padded for longer inputs); the left half of every image is
    dark. *)
Definition cv_project_onto (onto : list Point2f) : OpenCV :=
  {| solvePnP := fun _ _ _ _ => mkPnP true (Mat_zeros 3 1) (Mat_zeros 3 1);
     Rodrigues := fun _ => identity3;
     projectPoints := fun obj _ _ _ _ =>
       firstn (length obj) (onto ++ map (fun _ => pt2 0 0) obj);
     roi_mean := fun _ org =>
       if F32.ltb (p2x org) (F32.of_int 320) then F64.of_int 30
       else F64.of_int 200;
     calibrateCamera := fun _ _ _ _ _ => fixed_calibration |}.

(** The projections fall on the grid [grid 7 7 100 100 50 50]. *)
Definition cv_project_grid : OpenCV := cv_project_onto (grid 7 7 100 100 50 50).

(** The projections fall 15 pixels to the right of that grid. *)
Definition cv_project_shifted : OpenCV :=
  cv_project_onto (grid 7 7 115 100 50 50).

Definition image_640x480 : Mat := mkMat 480 640 [].

(** 49 corners on one pixel. *)
Definition corners_one_pixel : list Point2f := repeat (pt2 100 100) 49.

(** A board that fills a 640x480 frame: every outer square centre lies
    outside the image. *)
Definition corners_filling_frame : list Point2f := grid 7 7 20 15 100 75.

End Examples.


(** ** Index arithmetic of [reorder_corners] *)

(** Walking a dimension of [n] entries forwards or backwards. *)
Definition flip (forwards : bool) (n k : nat) : nat :=
  if forwards then k else (n - 1 - k)%nat.

Definition forwards_x (a1_index : Z) : bool := (a1_index =? 0) || (a1_index =? 2).
Definition forwards_y (a1_index : Z) : bool := (a1_index =? 0) || (a1_index =? 1).

(** The input position that [reorder_corners] copies to output position
    [i] on a board of [R] rows and [C] columns. *)
Definition reorder_index (R C : nat) (a1_index : Z) (i : nat) : nat :=
  (flip (forwards_y a1_index) R (i / C) * C
   + flip (forwards_x a1_index) C (i mod C))%nat.

(** The object point of grid position ([r], [c]). *)
Definition object_point (cb : Chessboard) (r c : Z) : Point3f :=
  mkPoint3f (F32.mul (F32.of_int r) (square_size_ cb))
            (F32.mul (F32.of_int c) (square_size_ cb))
            F32.zero.

(** ** The three gates and the selection, as the specification words them *)

(** The mean distance in pixels between the projected object points and
    the corners they should fall on, over all the points. *)
Definition mean_reproj_error (proj_pts test_corners : list Point2f) : double :=
  F64.div
    (fold_left (fun err pc => F64.add err (P2.norm (P2.sub (fst pc) (snd pc))))
               (combine proj_pts test_corners) F64.zero)
    (F64.of_int (Z.of_nat (length proj_pts))).

(** The gates with the bound the code enforces: the pose solve converged,
    the entry (2,2) of the rotation matrix is positive, and the mean
    reprojection error is at most 15.0. *)
Definition passes_gates (c : Candidate) : bool :=
  cand_pnp_ok c && F64.ltb F64.zero (cand_R22 c)
  && F64.leb (cand_reproj_err c) d_15.

(** What the fields of the candidate of rotation index [k] stand for. *)
Definition candidate_of `{OpenCV} (corners : list Point2f) (frame : Mat)
    (k : Z) (c : Candidate) : Prop :=
  let obj_pts := ChessboardImpl.generate_object_points detector in
  let K := provisional_K frame in
  let pnp := solvePnP obj_pts (cand_corners c) K (Mat_zeros 5 1) in
  ChessboardImpl.reorder_corners detector corners k = Some (cand_corners c) /\
  cand_pnp_ok c = pnp_ok pnp /\
  cand_rvec c = pnp_rvec pnp /\
  cand_tvec c = pnp_tvec pnp /\
  Mat_at (Rodrigues (cand_rvec c)) 2 2 = Some (cand_R22 c) /\
  (cand_pnp_ok c && F64.ltb F64.zero (cand_R22 c) = true ->
   cand_reproj_err c
   = mean_reproj_error
       (projectPoints obj_pts (cand_rvec c) (cand_tvec c) K (Mat_zeros 5 1))
       (cand_corners c)).

(** The selection test applied to the candidates in their order. *)
Definition select (b : Best) (cands : list (Z * Candidate)) : Best :=
  fold_left (fun b kc => take_if_better b (fst kc) (snd kc)) cands b.

Definition best_of (k : Z) (c : Candidate) : Best :=
  mkBest (cand_reproj_err c) k (cand_corners c) (cand_rvec c) (cand_tvec c).

(** [best_*] as [find_best_pose] resets them before the loop. *)
Definition no_best : Best := mkBest d_1e9 (-1) [] Mat_empty Mat_empty.

Definition log_line (vals : list double) (kc : Z * Candidate) : option LogLine :=
  match vec_at vals (fst kc) with
  | None => None
  | Some v => Some (mkLogLine (fst kc) v (cand_pnp_ok (snd kc))
                      (cand_z_ok (snd kc)) (cand_reproj_err (snd kc)))
  end.

Definition log_lines (vals : list double) (cands : list (Z * Candidate))
    : list LogLine :=
  flat_map (fun kc => match log_line vals kc with
                      | Some l => [l]
                      | None => []
                      end) cands.

(** ** What [find_a1_candidates] holds after its first loop *)

(** The entry of [vals] for an outer square centre: its brightness, or the
    sentinel 1e6 when the square cannot be sampled. *)
Definition sampled_or_sentinel `{OpenCV} (gray : Mat) (pt : Point2f) : double :=
  if outside_image gray pt then d_1e6 else outer_square_brightness gray pt.

(** [min_val]: the least brightness among the sampled squares, starting
    from the sentinel. *)
Definition darkest_sampled `{OpenCV} (gray : Mat) (pts : list Point2f) : double :=
  fold_left (fun min_val pt =>
               if outside_image gray pt then min_val
               else if F64.ltb (outer_square_brightness gray pt) min_val
                    then outer_square_brightness gray pt else min_val)
            pts d_1e6.

(** ** What the loop of [find_a1_index] holds *)

(** [(a1_index, min_val)] after the loop has visited the outer squares
    [ips], each with its index. *)
Definition darkest_scan `{OpenCV} (gray : Mat) (st : Z * double)
    (ips : list (Z * Point2f)) : Z * double :=
  fold_left (fun st ip =>
               if outside_image gray (snd ip) then st
               else if F64.ltb (outer_square_brightness gray (snd ip)) (snd st)
                    then (fst ip, outer_square_brightness gray (snd ip))
                    else st)
            ips st.

(** ** Utils (src/utils.cpp), Chessboard::find_corners and the image
    collaborators they use *)

Class Imgproc : Type := {
  (** [cv::Laplacian(gray, lap, CV_64F); cv::meanStdDev(lap, mean, stddev);]
      and then [stddev[0]]. *)
  laplacian_stddev : Mat -> double;
  (** [cv::cvtColor(frame, gray, cv::COLOR_BGR2GRAY)]. *)
  cvtColor_BGR2GRAY : Mat -> Mat;
  (** [frame.channels()]. *)
  channels : Mat -> Z;
  (** [cv::findChessboardCorners(frame, size, corners)]: the flag and the
      new value of [corners]. *)
  findChessboardCorners : Mat -> Size -> bool * list Point2f;
  (** [cv::cornerSubPix(gray, corners, Size(11,11), Size(-1,-1), criteria)]. *)
  cornerSubPix : Mat -> list Point2f -> list Point2f
}.

(** What OpenCV documents of the detector: a found pattern has one corner
    per inner corner of the board, and refinement moves corners without
    adding or removing any. *)
Definition imgproc_contract (ip : Imgproc) : Prop :=
  (forall frame size corners,
      findChessboardCorners frame size = (true, corners) ->
      Z.of_nat (length corners) = width size * height size) /\
  (forall gray corners, length (cornerSubPix gray corners) = length corners).

Definition BLUR_THRESHOLD : double := F64.of_int 100.
Definition BLUR_THRESHOLD_CAMERA : double := F64.of_int 70.

Module Utils.

(** [Utils::is_blurred]. *)
Definition is_blurred `{Imgproc} (gray : Mat) (use_camera : bool) : bool :=
  let stddev := laplacian_stddev gray in
  let threshold := if use_camera then BLUR_THRESHOLD_CAMERA else BLUR_THRESHOLD in
  F64.ltb (F64.mul stddev stddev) threshold.

(** [Utils::filename_timestamp], for the text [timestamp] that
    [std::format("{:%Y%m%d_%H%M%S}", local)] gives at the time of the
    call: [std::format("{}_{}.{}", prefix, timestamp, ext)]. *)
Definition filename_timestamp (timestamp prefix ext : String.string)
    : String.string :=
  String.append prefix
    (String.append "_" (String.append timestamp (String.append "." ext))).

(** [std::to_string] of an [int]. *)
Definition to_string (z : Z) : String.string :=
  NilZero.string_of_int (Z.to_int z).

(** [Utils::enumerate_camera_devices] as built off Windows; [opens i] is
    [cv::VideoCapture cap(i); cap.isOpened()].  The result is the index
    vector and the new value of [device_names]. *)
Definition enumerate_camera_devices (opens : Z -> bool)
    : list Z * list String.string :=
  loop_lt 10 (fun i '(indices, device_names) =>
    if opens i then
      (indices ++ [i], device_names ++ [String.append "Device " (to_string i)])
    else (indices, device_names)) ([], []).

End Utils.

(** ** The time stamp of [Utils::filename_timestamp] *)

(** The local wall-clock reading of the [zoned_time], to the second. *)
Record LocalTime : Type := mkLocalTime {
  lt_year : Z;
  lt_month : Z;
  lt_day : Z;
  lt_hour : Z;
  lt_minute : Z;
  lt_second : Z
}.

(** The last decimal digit of [d]. *)
Definition digit (d : Z) : ascii := ascii_of_N (Z.to_N (48 + d mod 10)).

(** [%m], [%d], [%H], [%M] and [%S]: two digits, with a leading zero. *)
Definition two_digits (n : Z) : String.string :=
  String.String (digit (n / 10)) (String.String (digit n) String.EmptyString).

(** [%Y] for the years 0 to 9999: four digits, with leading zeros. *)
Definition four_digits (n : Z) : String.string :=
  String.String (digit (n / 1000))
    (String.String (digit (n / 100)) (two_digits n)).

(** [std::format("{:%Y%m%d_%H%M%S}", local)]. *)
Definition format_local_time (local : LocalTime) : String.string :=
  String.append (four_digits (lt_year local))
    (String.append (two_digits (lt_month local))
       (String.append (two_digits (lt_day local))
          (String.append "_"
             (String.append (two_digits (lt_hour local))
                (String.append (two_digits (lt_minute local))
                   (two_digits (lt_second local))))))).

(** The readings a clock shows. *)
Definition wall_clock (local : LocalTime) : Prop :=
  0 <= lt_year local <= 9999 /\ 1 <= lt_month local <= 12 /\
  1 <= lt_day local <= 31 /\ 0 <= lt_hour local <= 23 /\
  0 <= lt_minute local <= 59 /\ 0 <= lt_second local <= 59.

(** [Chessboard::find_corners]: the flag and the new value of [corners]. *)
Definition find_corners `{Imgproc} (cb : Chessboard) (frame : Mat)
    : bool * list Point2f :=
  let '(found, corners) :=
    findChessboardCorners frame (mkSize (corners_x_ cb) (corners_y_ cb)) in
  if found then
    let gray := if channels frame =? 3 then cvtColor_BGR2GRAY frame else frame in
    (found, cornerSubPix gray corners)
  else (found, corners).

(** ** ImageSequenceLoader (src/frame_loader.hpp, src/frame_loader.cpp) *)

Record DirEntry : Type := mkDirEntry {
  entry_path : String.string;
  entry_is_regular_file : bool
}.

Class FileSystem : Type := {
  (** The entries [std::filesystem::directory_iterator(directory)] goes
      through, in its order. *)
  directory_iterator : String.string -> list DirEntry;
  (** [cv::imread(filename)]. *)
  imread : String.string -> Mat
}.

(** [m.empty()], for a matrix known by its dimensions. *)
Definition Mat_is_empty (m : Mat) : bool :=
  (mat_rows m =? 0) || (mat_cols m =? 0).

(** [std::string]'s [operator<] compares bytes as unsigned values, as
    [String.leb] does; [std::sort] with it has one possible result, which
    is the one of any sorting algorithm. *)
Module StringOrder <: Orders.TotalLeBool.
Definition t : Type := String.string.
Definition leb : t -> t -> bool := String.leb.
Lemma leb_total : forall a1 a2, leb a1 a2 = true \/ leb a2 a1 = true.
Proof. exact String.leb_total. Qed.
End StringOrder.

Module StringSort := Mergesort.Sort StringOrder.

Record ImageSequenceLoader : Type := mkImageSequenceLoader {
  filenames_ : list String.string;
  current_idx_ : nat;
  frame_size_ : Size
}.

Module ImageSequenceLoaderImpl.

(** The constructor, from the entries of the directory. *)
Definition of_entries (read : String.string -> Mat) (entries : list DirEntry)
    : ImageSequenceLoader :=
  let collected :=
    fold_left (fun filenames entry =>
                 if entry_is_regular_file entry
                 then filenames ++ [entry_path entry] else filenames)
              entries [] in
  let filenames := StringSort.sort collected in
  let frame_size :=
    match filenames with
    | [] => mkSize 0 0
    | first :: _ =>
        let img := read first in
        if negb (Mat_is_empty img) then mkSize (mat_cols img) (mat_rows img)
        else mkSize 0 0
    end in
  mkImageSequenceLoader filenames 0 frame_size.

(** [ImageSequenceLoader::ImageSequenceLoader(directory)]. *)
Definition new `{FileSystem} (directory : String.string) : ImageSequenceLoader :=
  of_entries imread (directory_iterator directory).

(** [next_frame]: the flag, the new value of [frame] and the loader
    afterwards.  [filenames_[current_idx_]] exists exactly when
    [current_idx_ < filenames_.size()]. *)
Definition next_frame `{FileSystem} (l : ImageSequenceLoader) (frame : Mat)
    : bool * Mat * ImageSequenceLoader :=
  match nth_error (filenames_ l) (current_idx_ l) with
  | None => (false, frame, l)
  | Some filename =>
      let frame' := imread filename in
      (negb (Mat_is_empty frame'), frame',
       mkImageSequenceLoader (filenames_ l) (S (current_idx_ l)) (frame_size_ l))
  end.

Definition is_opened (l : ImageSequenceLoader) : bool :=
  negb (CalibratorImpl.is_empty (filenames_ l)).

Definition get_frame_size (l : ImageSequenceLoader) : Size := frame_size_ l.

Definition get_num_frames (l : ImageSequenceLoader) : Z :=
  Int.wrap (Z.of_nat (length (filenames_ l))).

(** The flags of [n] calls of [next_frame] in a row, and the loader after
    them. *)
Fixpoint next_frames `{FileSystem} (n : nat) (l : ImageSequenceLoader)
    (frame : Mat) : list bool * ImageSequenceLoader :=
  match n with
  | O => ([], l)
  | S k =>
      let '(ok, frame', l') := next_frame l frame in
      let '(oks, l'') := next_frames k l' frame' in
      (ok :: oks, l'')
  end.

End ImageSequenceLoaderImpl.

(** Whether [next_frame] reports a frame for this file. *)
Definition decodes `{FileSystem} (filename : String.string) : bool :=
  negb (Mat_is_empty (imread filename)).

(** ** Concrete image and file collaborators for the examples *)

Module MoreExamples.

(** Every frame shows the board [Examples.grid 7 7 100 100 50 50] with a
    Laplacian deviation of [stddev]. *)
Definition img_with_stddev (stddev : Z) : Imgproc :=
  {| laplacian_stddev := fun _ => F64.of_int stddev;
     cvtColor_BGR2GRAY := fun frame => frame;
     channels := fun _ => 3;
     findChessboardCorners := fun _ _ => (true, Examples.grid 7 7 100 100 50 50);
     cornerSubPix := fun _ corners => corners |}.

(** A directory with two images, one text file and one subdirectory; the
    images are 640x480, everything else does not decode. *)
Definition fs_two_images : FileSystem :=
  {| directory_iterator := fun _ =>
       [ mkDirEntry "res/frames/b.png" true;
         mkDirEntry "res/frames/sub" false;
         mkDirEntry "res/frames/notes.txt" true;
         mkDirEntry "res/frames/a.png" true ];
     imread := fun filename =>
       if String.eqb filename "res/frames/a.png"
          || String.eqb filename "res/frames/b.png"
       then mkMat 480 640 [] else Mat_empty |}.

End MoreExamples.

(** ** The command line (src/main.cpp, lines 30-36 and 89) *)

(** [verbose_debug] after the loop over [argv[1]] to [argv[argc - 1]]. *)
Definition parse_verbose (argv : list String.string) : bool :=
  existsb (fun arg => String.eqb arg "--verbose" || String.eqb arg "-v")
          (tl argv).

(** [argc > 1 ? argv[1] : "res/frames"]. *)
Definition frames_dir_of (argv : list String.string) : String.string :=
  match nth_error argv 1 with
  | Some arg => arg
  | None => "res/frames"
  end.

(** ** Choice of the input source (src/main.cpp, lines 38-105) *)

(** What [main] runs on: the still frames on disk, or a camera device. *)
Inductive Source : Type :=
  | StillFrames
  | Camera (device_id : Z).

(** [available_devices] and [device_names] as lines 39-49 fill them. *)
Definition enumerate_sources (opens : Z -> bool)
    : option (list Z * list String.string) :=
  let '(cam_ids, cam_names) := Utils.enumerate_camera_devices opens in
  for_lt (Z.of_nat (length cam_ids)) (fun i '(available_devices, device_names) =>
    match vec_at cam_ids i, vec_at cam_names i with
    | Some id, Some name =>
        Some (available_devices ++ [id], device_names ++ [name])
    | _, _ => None
    end) ([-1], ["Still frames from disk"]).

(** [device_choice] after lines 63-81.  [stoi input] is [std::stoi(input)],
    [None] when it throws. *)
Definition choose_device (stoi : String.string -> option Z)
    (input : String.string) (available_devices : list Z) : Z :=
  if String.eqb input "" then 0
  else
    match stoi input with
    | Some user_id =>
        if (0 <=? user_id)
           && (user_id <? Int.wrap (Z.of_nat (length available_devices)))
        then user_id else 0
    | None => 0
    end.

(** Lines 38-105 down to the choice between the two loaders.  The inner
    [None] is the exit [return -1] of line 53. *)
Definition select_source (opens : Z -> bool)
    (stoi : String.string -> option Z) (input : String.string)
    : option (option Source) :=
  match enumerate_sources opens with
  | None => None
  | Some (available_devices, device_names) =>
      if CalibratorImpl.is_empty available_devices then Some None
      else
        let device_choice := choose_device stoi input available_devices in
        match vec_at available_devices device_choice with
        | None => None
        | Some device_id =>
            if device_id =? -1 then Some (Some StillFrames)
            else Some (Some (Camera device_id))
        end
  end.

(** ** Renderer (src/renderer.cpp) *)

Definition CUBE_SCALE : float := F32.of_int 1.

(** The literal [0.5f]. *)
Definition f_half : float := binary_normalize F32.prec F32.emax 1 (-1) false.

Module P3.
Definition add (a b : Point3f) : Point3f :=
  mkPoint3f (F32.add (p3x a) (p3x b)) (F32.add (p3y a) (p3y b))
            (F32.add (p3z a) (p3z b)).
End P3.

(** [cv::Scalar(b, g, r)]. *)
Record Scalar : Type := mkScalar { sc_b : Z; sc_g : Z; sc_r : Z }.

(** The drawing calls a function makes on its image, in their order:
    [cv::line(image, pt1, pt2, color, thickness)],
    [cv::putText(image, text, org, FONT_HERSHEY_SIMPLEX, fontScale, color,
    thickness, ...)] with [org] a projected point or a pixel, and
    [cv::circle(image, center, radius, color, thickness)]. *)
Inductive DrawCmd : Type :=
  | Line (pt1 pt2 : Point2f) (color : Scalar) (thickness : Z)
  | PutText (text : String.string) (org : Point2f) (fontScale : double)
      (color : Scalar) (thickness : Z)
  | PutTextAt (text : String.string) (x y : Z) (fontScale : double)
      (color : Scalar) (thickness : Z)
  | Circle (center : Point2f) (radius : Z) (color : Scalar) (thickness : Z).

(** The conversion of an [int] to [char]. *)
Definition char_of_int (z : Z) : ascii := ascii_of_N (Z.to_N (z mod 256)).

Module Renderer.

(** [Renderer::draw_axes]. *)
Definition draw_axes `{OpenCV} (K dist rvec tvec : Mat) (offset : Point3f)
    : option (list DrawCmd) :=
  let axes :=
    map (fun a => P3.add a offset)
      [ mkPoint3f F32.zero F32.zero F32.zero;
        mkPoint3f F32.zero (F32.of_int 4) F32.zero;
        mkPoint3f (F32.of_int 4) F32.zero F32.zero;
        mkPoint3f F32.zero F32.zero (SFopp (F32.of_int 4)) ] in
  let proj := projectPoints axes rvec tvec K dist in
  match vec_at proj 0, vec_at proj 1, vec_at proj 2, vec_at proj 3 with
  | Some p0, Some p1, Some p2, Some p3 =>
      Some [ Line p0 p1 (mkScalar 0 0 255) 2;
             Line p0 p2 (mkScalar 0 255 0) 2;
             Line p0 p3 (mkScalar 255 0 0) 2 ]
  | _, _, _, _ => None
  end.

(** The eight corners [cube_pts] of [draw_cube]. *)
Definition cube_pts (base : Point3f) : list Point3f :=
  let x := p3x base in
  let y := p3y base in
  let z := p3z base in
  [ mkPoint3f x y z;
    mkPoint3f x (F32.add y CUBE_SCALE) z;
    mkPoint3f (F32.add x CUBE_SCALE) y z;
    mkPoint3f x y (F32.sub z CUBE_SCALE);
    mkPoint3f (F32.add x CUBE_SCALE) (F32.add y CUBE_SCALE) z;
    mkPoint3f x (F32.add y CUBE_SCALE) (F32.sub z CUBE_SCALE);
    mkPoint3f (F32.add x CUBE_SCALE) y (F32.sub z CUBE_SCALE);
    mkPoint3f (F32.add x CUBE_SCALE) (F32.add y CUBE_SCALE)
              (F32.sub z CUBE_SCALE) ].

(** The calls [draw(i, j)] of [draw_cube], in their order. *)
Definition cube_edges : list (Z * Z) :=
  [ (0, 1); (1, 4); (4, 2); (2, 0);
    (3, 5); (5, 7); (7, 6); (6, 3);
    (0, 3); (1, 5); (2, 6); (4, 7) ].

(** [Renderer::draw_cube]. *)
Definition draw_cube `{OpenCV} (K dist rvec tvec : Mat) (base : Point3f)
    (color : Scalar) : option (list DrawCmd) :=
  let proj := projectPoints (cube_pts base) rvec tvec K dist in
  let draw (drawn : option (list DrawCmd)) (ij : Z * Z) :=
    match drawn, vec_at proj (fst ij), vec_at proj (snd ij) with
    | Some cmds, Some p, Some q => Some (cmds ++ [Line p q color 2])
    | _, _, _ => None
    end in
  fold_left draw cube_edges (Some []).

(** [Renderer::draw_labels].  With [rows] or [cols] at [INT_MAX] the
    counter of [y <= rows] overflows. *)
Definition draw_labels `{OpenCV} (rows cols : Z) (square_size : float)
    (K dist rvec tvec : Mat) (offset : Point3f) : option (list DrawCmd) :=
  if (rows =? Int.INT_MAX) || (cols =? Int.INT_MAX) then None
  else
    match
      (* Draw row labels (A, B, ...) *)
      for_lt (rows + 1) (fun y drawn =>
        let pt3d :=
          [ P3.add offset
              (mkPoint3f (F32.mul (SFopp f_half) square_size)
                         (F32.mul (F32.add (F32.of_int y) f_half) square_size)
                         F32.zero) ] in
        match vec_at (projectPoints pt3d rvec tvec K dist) 0 with
        | None => None
        | Some p =>
            Some (drawn ++ [PutText (String.String (char_of_int (Int.add 65 y))
                                       String.EmptyString)
                              p d_1 (mkScalar 0 0 0) 2])
        end) []
    with
    | None => None
    | Some drawn =>
        (* Draw column labels (1, 2, ...) *)
        for_lt (cols + 1) (fun x drawn =>
          let pt3d :=
            [ P3.add offset
                (mkPoint3f (F32.mul (F32.add (F32.of_int x) f_half) square_size)
                           (F32.mul (SFopp f_half) square_size)
                           F32.zero) ] in
          match vec_at (projectPoints pt3d rvec tvec K dist) 0 with
          | None => None
          | Some p =>
              Some (drawn ++ [PutText (Utils.to_string (Int.add x 1))
                                p d_1 (mkScalar 0 0 0) 2])
          end) drawn
    end.

End Renderer.

(** The lambda [draw_overlays] of [main]. *)
Definition draw_overlays `{OpenCV} (K dist rvec tvec : Mat)
    (square_size : float) : option (list DrawCmd) :=
  let outer_corner_offset :=
    mkPoint3f (SFopp square_size) (SFopp square_size) F32.zero in
  match Renderer.draw_axes K dist rvec tvec outer_corner_offset with
  | None => None
  | Some axes =>
      match Renderer.draw_labels CORNERS_Y CORNERS_X square_size
              K dist rvec tvec outer_corner_offset with
      | None => None
      | Some labels => Some (axes ++ labels)
      end
  end.

(** *** The cube of [draw_cube] by displacements *)

(** A corner of the cube, by the axes along which it is displaced from
    [base]: [CUBE_SCALE] forwards in x and y, backwards in z. *)
Definition cube_corner (base : Point3f) (o : bool * bool * bool) : Point3f :=
  let '(ox, oy, oz) := o in
  mkPoint3f (if ox then F32.add (p3x base) CUBE_SCALE else p3x base)
            (if oy then F32.add (p3y base) CUBE_SCALE else p3y base)
            (if oz then F32.sub (p3z base) CUBE_SCALE else p3z base).

(** Two corners are the ends of an edge of the cube when they are
    displaced alike along all axes but one. *)
Definition one_axis_apart (a b : bool * bool * bool) : bool :=
  let '(ax, ay, az) := a in
  let '(bx, by_, bz) := b in
  match xorb ax bx, xorb ay by_, xorb az bz with
  | true, false, false | false, true, false | false, false, true => true
  | _, _, _ => false
  end.

Definition same_corner (a b : bool * bool * bool) : bool :=
  let '(ax, ay, az) := a in
  let '(bx, by_, bz) := b in
  Bool.eqb ax bx && Bool.eqb ay by_ && Bool.eqb az bz.

(** Whether the segment [e] joins the corners [a] and [b], in one
    direction or the other. *)
Definition joins (e : (bool * bool * bool) * (bool * bool * bool))
    (a b : bool * bool * bool) : bool :=
  (same_corner (fst e) a && same_corner (snd e) b)
  || (same_corner (fst e) b && same_corner (snd e) a).

(** The displacements of the entries of [cube_pts], in their order. *)
Definition cube_displacements : list (bool * bool * bool) :=
  [ (false, false, false); (false, true, false); (true, false, false);
    (false, false, true); (true, true, false); (false, true, true);
    (true, false, true); (true, true, true) ].

(** The capital letters. *)
Definition capital_letters : list String.string :=
  [ "A"; "B"; "C"; "D"; "E"; "F"; "G"; "H"; "I"; "J"; "K"; "L"; "M";
    "N"; "O"; "P"; "Q"; "R"; "S"; "T"; "U"; "V"; "W"; "X"; "Y"; "Z" ].

Definition text_of (cmd : DrawCmd) : String.string :=
  match cmd with
  | PutText text _ _ _ _ | PutTextAt text _ _ _ _ _ => text
  | Line _ _ _ _ | Circle _ _ _ _ => ""
  end.

(** ** FrameLoader and CameraFrameLoader (src/frame_loader.hpp,
    src/frame_loader.cpp) *)

(** The abstract base class [FrameLoader]; [next_frame] gives the flag,
    the new value of [frame] and the loader afterwards. *)
Class FrameLoader (L : Type) : Type := {
  next_frame : L -> Mat -> bool * Mat * L;
  is_opened : L -> bool;
  get_frame_size : L -> Size;
  get_num_frames : L -> Z
}.

(** A [CameraFrameLoader] once constructed: whether [cap_] is open, the
    frames [cap_ >> frame] delivers from now on (an empty frame when the
    device has none left), and [frame_size_]. *)
Record CameraFrameLoader : Type := mkCameraFrameLoader {
  cap_isOpened : bool;
  cap_frames : list Mat;
  cam_frame_size_ : Size
}.

Module CameraFrameLoaderImpl.

Definition next_frame (l : CameraFrameLoader) (frame : Mat)
    : bool * Mat * CameraFrameLoader :=
  if negb (cap_isOpened l) then (false, frame, l)
  else
    match cap_frames l with
    | [] => (false, Mat_empty, l)
    | captured :: rest =>
        (negb (Mat_is_empty captured), captured,
         mkCameraFrameLoader (cap_isOpened l) rest (cam_frame_size_ l))
    end.

Definition is_opened (l : CameraFrameLoader) : bool := cap_isOpened l.
Definition get_frame_size (l : CameraFrameLoader) : Size := cam_frame_size_ l.
Definition get_num_frames (l : CameraFrameLoader) : Z := -1.

End CameraFrameLoaderImpl.

#[export] Instance CameraFrameLoader_loader : FrameLoader CameraFrameLoader := {
  next_frame := CameraFrameLoaderImpl.next_frame;
  is_opened := CameraFrameLoaderImpl.is_opened;
  get_frame_size := CameraFrameLoaderImpl.get_frame_size;
  get_num_frames := CameraFrameLoaderImpl.get_num_frames
}.

#[export] Instance ImageSequenceLoader_loader {fs : FileSystem}
    : FrameLoader ImageSequenceLoader := {
  next_frame := ImageSequenceLoaderImpl.next_frame;
  is_opened := ImageSequenceLoaderImpl.is_opened;
  get_frame_size := ImageSequenceLoaderImpl.get_frame_size;
  get_num_frames := ImageSequenceLoaderImpl.get_num_frames
}.

(** ** The frame loop and the last step of [main] (src/main.cpp,
    lines 107-417) *)

Definition KEY_ESCAPE : Z := 27.
Definition REQUIRED_FRAMES : Z := 12.

(** The literal [0.8]. *)
Definition d_0_8 : double := F64.div (F64.of_int 8) (F64.of_int 10).

(** The display: the image after drawing calls on it, and the keyboard. *)
Class Highgui : Type := {
  (** The image after the drawing calls [cmds], made in their order. *)
  render : Mat -> list DrawCmd -> Mat;
  (** [cv::drawChessboardCorners(frame, cv::Size(CORNERS_X, CORNERS_Y),
      best_corners, true)]. *)
  drawChessboardCorners : Mat -> list Point2f -> Mat;
  (** What the [n]-th call of [cv::waitKey] of the run returns. *)
  waitKey : nat -> Z
}.

(** The lambda [make_camera_matrix]. *)
Definition make_camera_matrix (width height : Z) : Mat :=
  mkMat 3 3
    [ d_1000; F64.zero; F64.div (F64.of_int width) d_2;
      F64.zero; d_1000; F64.div (F64.of_int height) d_2;
      F64.zero; F64.zero; d_1 ].

(** The lambda [draw_error], called with the position [{30,30}]. *)
Definition draw_error `{Highgui} (frame : Mat) (msg : String.string)
    (color : Scalar) : Mat :=
  render frame [PutTextAt msg 30 30 d_0_8 color 2].

(** The variables of [main] that the frame loop changes. *)
Record MainState (L : Type) : Type := mkMainState {
  loader : L;
  frame : Mat;
  session : Session;
  last_valid_frame : Mat;
  frame_count : Z;
  waitKey_calls : nat
}.

Arguments mkMainState {L} _ _ _ _ _ _.
Arguments loader {L} _.
Arguments frame {L} _.
Arguments session {L} _.
Arguments last_valid_frame {L} _.
Arguments frame_count {L} _.
Arguments waitKey_calls {L} _.

(** A loop that goes on, or that its condition or a [break] has ended. *)
Inductive Loop (St : Type) : Type :=
  | Running (st : St)
  | Exited (st : St).

Arguments Running {St} _.
Arguments Exited {St} _.

Definition loop_state {St : Type} (r : Loop St) : St :=
  match r with Running st | Exited st => st end.

(** Lines 107-113 and 247. *)
Definition initial_state {L : Type} (l : L) : MainState L :=
  mkMainState l Mat_empty (mkSession CalibratorImpl.new [] (-1)) Mat_empty 0 0.

Section FrameLoop.

Context {cv : OpenCV} {ip : Imgproc} {hg : Highgui}.
Context {L : Type} {fl : FrameLoader L}.
Variables use_camera verbose_debug : bool.

(** Lines 249-330, for the frame that [next_frame] has just delivered:
    the session, [last_valid_frame], [accepted] and the frame as it is
    shown. *)
Definition process_frame (st : MainState L) (frame : Mat)
    : option (Session * Mat * bool * Mat) :=
  let clean_frame := frame in
  let frame :=
    if use_camera && (frame_count st <? REQUIRED_FRAMES) then
      let frames_left := Int.sub REQUIRED_FRAMES (frame_count st) in
      render frame
        [PutTextAt (String.append "Frames left: " (Utils.to_string frames_left))
           30 60 d_0_8 (mkScalar 255 255 0) 2]
    else frame in
  let gray := cvtColor_BGR2GRAY frame in
  if Utils.is_blurred gray use_camera then
    Some (session st, last_valid_frame st, false,
          draw_error frame "Frame is blurred" (mkScalar 0 0 255))
  else
    let '(found, corners) := find_corners detector frame in
    if negb found then
      Some (session st, last_valid_frame st, false,
            draw_error frame "Chessboard not found" (mkScalar 0 255 255))
    else
      match find_best_pose verbose_debug corners frame gray,
            use_detected_corners verbose_debug (session st) corners frame gray
      with
      | Some search, Some (session', accepted) =>
          if accepted then
            let frame :=
              drawChessboardCorners frame (best_corners (best search)) in
            let K := make_camera_matrix (mat_cols frame) (mat_rows frame) in
            let dist_coeffs := Mat_zeros 5 1 in
            match draw_overlays K dist_coeffs (best_rvec (best search))
                    (best_tvec (best search)) SQUARE_SIZE with
            | None => None
            | Some overlays =>
                Some (session', clean_frame, true, render frame overlays)
            end
          else
            Some (session', last_valid_frame st, false,
                  draw_error frame "Pose not valid" (mkScalar 0 165 255))
      | _, _ => None
      end.

(** One evaluation of the loop condition of line 248 and, when it holds,
    one turn of the body.  [cv::imshow], the window focus and the console
    output change none of these variables and are left out. *)
Definition frame_loop_step (st : MainState L)
    : option (Loop (MainState L)) :=
  let limit :=
    if use_camera then REQUIRED_FRAMES else get_num_frames (loader st) in
  if negb (frame_count st <? limit) then Some (Exited st)
  else
    let '(ok, frame', loader') := next_frame (loader st) (frame st) in
    if negb ok then
      Some (Exited (mkMainState loader' frame' (session st)
                      (last_valid_frame st) (frame_count st)
                      (waitKey_calls st)))
    else
      match process_frame st frame' with
      | None => None
      | Some (session', last_valid_frame', accepted, shown) =>
          let key := waitKey (waitKey_calls st) in
          if key =? KEY_ESCAPE then
            Some (Exited (mkMainState loader' shown session' last_valid_frame'
                            (frame_count st) (S (waitKey_calls st))))
          else if negb use_camera || (use_camera && accepted) then
            let frame_count' := Int.add (frame_count st) 1 in
            let pauseKey := waitKey (S (waitKey_calls st)) in
            if pauseKey =? KEY_ESCAPE then
              Some (Exited (mkMainState loader' shown session'
                              last_valid_frame' frame_count'
                              (S (S (waitKey_calls st)))))
            else
              Some (Running (mkMainState loader' shown session'
                               last_valid_frame' frame_count'
                               (S (S (waitKey_calls st)))))
          else
            Some (Running (mkMainState loader' shown session'
                             last_valid_frame' (frame_count st)
                             (S (waitKey_calls st))))
      end.

(** The loop for at most [turns] turns: [Exited] when it has ended within
    them, [Running] with the state reached when it has not. *)
Fixpoint frame_loop (turns : nat) (st : MainState L)
    : option (Loop (MainState L)) :=
  match turns with
  | O => Some (Running st)
  | S k =>
      match frame_loop_step st with
      | Some (Running st') => frame_loop k st'
      | ended => ended
      end
  end.

End FrameLoop.

(** ** The calls of [next_frame] along a run *)

(** One call [loader->next_frame(frame)] of the loop condition: the loader
    it was made on, the flag and the frame it gave, and whether the turn
    that followed accepted that frame. *)
Record Turn (L : Type) : Type := mkTurn {
  turn_loader : L;
  turn_delivered : bool;
  turn_frame : Mat;
  turn_accepted : bool
}.

Arguments mkTurn {L} _ _ _ _.
Arguments turn_loader {L} _.
Arguments turn_delivered {L} _.
Arguments turn_frame {L} _.
Arguments turn_accepted {L} _.

Section FrameLoopTurns.

Context {cv : OpenCV} {ip : Imgproc} {hg : Highgui}.
Context {L : Type} {fl : FrameLoader L}.
Variables use_camera verbose_debug : bool.

(** The calls made during the first [turns] turns of the loop, in their
    order: one for every evaluation of the condition that gets past
    [frame_count < ...]. *)
Fixpoint frame_loop_turns (turns : nat) (st : MainState L) : list (Turn L) :=
  match turns with
  | O => []
  | S k =>
      let limit :=
        if use_camera then REQUIRED_FRAMES else get_num_frames (loader st) in
      if negb (frame_count st <? limit) then []
      else
        let '(ok, frame', _) := next_frame (loader st) (frame st) in
        let accepted :=
          if ok then
            match process_frame use_camera verbose_debug st frame' with
            | Some (_, _, accepted, _) => accepted
            | None => false
            end
          else false in
        mkTurn (loader st) ok frame' accepted
        :: match frame_loop_step use_camera verbose_debug st with
           | Some (Running st') => frame_loop_turns k st'
           | _ => []
           end
  end.

End FrameLoopTurns.

(** What [main] writes to disk after the loop. *)
Record Outputs : Type := mkOutputs {
  calibration_file : option (String.string * list (String.string * Mat));
  final_frame_file : option (String.string * Mat)
}.

(** Lines 358-404: the calibrator afterwards and the files written.
    [calibration_time] and [final_frame_time] are the clock readings of the
    two calls of [Utils::filename_timestamp]. *)
Definition finish {cv : OpenCV} {hg : Highgui} {L : Type} {fl : FrameLoader L}
    (calibration_time final_frame_time : String.string) (st : MainState L)
    : option (Calibrator * Outputs) :=
  let '(calibrated, cal) :=
    CalibratorImpl.calibrate (calibrator (session st))
      (get_frame_size (loader st)) in
  if calibrated then
    let calibration_filename :=
      Utils.filename_timestamp calibration_time "calibration" "yml" in
    let saved := Some (calibration_filename, CalibratorImpl.save cal) in
    if negb (last_valid_corners_idx (session st) =? -1) then
      let obj_pts := ChessboardImpl.generate_object_points detector in
      match vec_at (all_frame_corners (session st))
              (last_valid_corners_idx (session st)) with
      | None => None
      | Some vis_corners =>
          let K := CalibratorImpl.get_camera_matrix cal in
          let dist := CalibratorImpl.get_dist_coeffs cal in
          let pnp := solvePnP obj_pts (a1 vis_corners) K dist in
          if pnp_ok pnp then
            let rvec := pnp_rvec pnp in
            let tvec := pnp_tvec pnp in
            let e1_3d :=
              mkPoint3f (SFopp SQUARE_SIZE)
                        (F32.mul (F32.of_int 3) SQUARE_SIZE) F32.zero in
            let e8_3d :=
              P3.add e1_3d
                (mkPoint3f (F32.mul (F32.of_int 7) SQUARE_SIZE)
                           F32.zero F32.zero) in
            let origin3d :=
              [mkPoint3f (SFopp SQUARE_SIZE) (SFopp SQUARE_SIZE) F32.zero] in
            match draw_overlays K dist rvec tvec SQUARE_SIZE,
                  Renderer.draw_cube K dist rvec tvec e1_3d
                    (mkScalar 255 255 255),
                  Renderer.draw_cube K dist rvec tvec e8_3d (mkScalar 0 0 0),
                  vec_at (projectPoints origin3d rvec tvec K dist) 0 with
            | Some overlays, Some white_cube, Some black_cube, Some origin2d =>
                let out_frame :=
                  render (last_valid_frame st)
                    (overlays ++ white_cube ++ black_cube
                     ++ [ Circle origin2d 10 (mkScalar 0 0 255) (-1);
                          PutTextAt "Chessboard base" 30 30 d_1
                            (mkScalar 255 255 255) 2 ]) in
                let filename :=
                  Utils.filename_timestamp final_frame_time "final_frame" "png"
                in
                Some (cal, mkOutputs saved (Some (filename, out_frame)))
            | _, _, _, _ => None
            end
          else Some (cal, mkOutputs saved None)
      end
    else Some (cal, mkOutputs saved None)
  else Some (cal, mkOutputs None None).

(** ** What the frame loop keeps true *)

(** The samples of the calibrator and the stored corner orders go
    together: one entry of [all_frame_corners] per sample, its A1 order
    being the sample's image points; every sample has 49 image points and
    49 object points; [last_valid_corners_idx] is the position of the last
    sample. *)
Definition samples_consistent (s : Session) : Prop :=
  map a1 (all_frame_corners s) = image_points_ (calibrator s) /\
  length (object_points_ (calibrator s))
  = length (image_points_ (calibrator s)) /\
  Forall (fun pts => length pts = 49%nat) (image_points_ (calibrator s)) /\
  Forall (fun pts => length pts = 49%nat) (object_points_ (calibrator s)) /\
  last_valid_corners_idx s
  = Z.of_nat (length (image_points_ (calibrator s))) - 1.

(** The number of samples the calibrator holds. *)
Definition samples {L : Type} (st : MainState L) : Z :=
  Z.of_nat (length (image_points_ (calibrator (session st)))).

(** [slack] is 0 while the loop runs; a [break] on the first key leaves
    the frame it follows uncounted, which [slack = 1] allows for. *)
Definition loop_invariant {L : Type} (use_camera : bool) (slack : Z)
    (st : MainState L) : Prop :=
  samples_consistent (session st) /\
  0 <= frame_count st <= Int.INT_MAX /\
  samples st <= frame_count st + slack /\
  samples st <= Int.INT_MAX /\
  (use_camera = true ->
   frame_count st <= samples st /\ samples st <= REQUIRED_FRAMES).

Definition slack_of {St : Type} (r : Loop St) : Z :=
  match r with Running _ => 0 | Exited _ => 1 end.

(** ** What the last step of [main] writes *)

(** For the state [st] the loop has left: without a sample nothing is
    written and the calibrator stays as it is; with samples the
    calibration file holds what [cv::calibrateCamera] gave for them, and
    the final frame is written exactly when [cv::solvePnP] succeeds on
    the image points of the last sample, as [last_valid_frame] under 45
    drawing calls. *)
Definition finish_outcome {cv : OpenCV} {hg : Highgui} {L : Type}
    {fl : FrameLoader L} (calibration_time final_frame_time : String.string)
    (st : MainState L) (cal : Calibrator) (out : Outputs) : Prop :=
  let c := calibrator (session st) in
  let solved :=
    calibrateCamera (object_points_ c) (image_points_ c)
      (get_frame_size (loader st)) (camera_matrix_ c) (dist_coeffs_ c) in
  let pnp :=
    solvePnP (ChessboardImpl.generate_object_points detector)
      (last (image_points_ c) []) (cc_camera_matrix solved)
      (cc_dist_coeffs solved) in
  match image_points_ c with
  | [] => cal = c /\ out = mkOutputs None None
  | _ :: _ =>
      image_points_ cal = image_points_ c /\
      calibration_file out
      = Some (Utils.filename_timestamp calibration_time "calibration" "yml",
              [ ("cameraMatrix", cc_camera_matrix solved);
                ("distCoeffs", cc_dist_coeffs solved) ]) /\
      if pnp_ok pnp then
        exists cmds,
          length cmds = 45%nat /\
          final_frame_file out
          = Some (Utils.filename_timestamp final_frame_time "final_frame" "png",
                  render (last_valid_frame st) cmds)
      else final_frame_file out = None
  end.

(** ** Concrete display and loaders for the examples *)

Module MainExamples.

(** Every frame is sharp and shows the board
    [Examples.grid 7 7 100 100 50 50]; a pattern of another size is not
    found. *)
Definition sharp_board : Imgproc :=
  {| laplacian_stddev := fun _ => F64.of_int 20;
     cvtColor_BGR2GRAY := fun frame => frame;
     channels := fun _ => 3;
     findChessboardCorners := fun _ size =>
       if (width size =? 7) && (height size =? 7)
       then (true, Examples.grid 7 7 100 100 50 50) else (false, []);
     cornerSubPix := fun _ corners => corners |}.

(** A directory in which a stray file sorts before the one image. *)
Definition fs_stray_file : FileSystem :=
  {| directory_iterator := fun _ =>
       [ mkDirEntry "res/frames/frame01.png" true;
         mkDirEntry "res/frames/.gitkeep" true ];
     imread := fun filename =>
       if String.eqb filename "res/frames/frame01.png"
       then mkMat 480 640 [] else Mat_empty |}.

(** A display on which nothing shows, with nobody at the keyboard. *)
Definition silent_display : Highgui :=
  {| render := fun frame _ => frame;
     drawChessboardCorners := fun frame _ => frame;
     waitKey := fun _ => -1 |}.

(** A camera that delivers two frames and then none. *)
Definition camera_two_frames : CameraFrameLoader :=
  mkCameraFrameLoader true [Examples.image_640x480; Examples.image_640x480]
    (mkSize 640 480).

(** A camera that delivers twelve frames and then none. *)
Definition camera_twelve_frames : CameraFrameLoader :=
  mkCameraFrameLoader true (repeat Examples.image_640x480 12) (mkSize 640 480).

End MainExamples.

(** * Proofs *)

(** ** Loops that only push to the back of a vector *)

Lemma for_from_push {A : Type} (g : Z -> list A)
    (body : Z -> list A -> option (list A)) :
  forall (n a : nat) (s : list A),
    (forall k st, (a <= k < a + n)%nat ->
                  body (Z.of_nat k) st = Some (st ++ g (Z.of_nat k))) ->
    for_from (Z.of_nat a) n body s
    = Some (s ++ flat_map (fun k => g (Z.of_nat k)) (seq a n)).
Proof.
  induction n as [|n IH]; intros a s Hbody; simpl.
  - now rewrite app_nil_r.
  - rewrite Hbody by lia.
    replace (Z.of_nat a + 1) with (Z.of_nat (S a)) by lia.
    rewrite IH.
    + now rewrite <- app_assoc.
    + intros k st Hk. apply Hbody. lia.
Qed.

Lemma loop_from_push {A : Type} (g : Z -> list A)
    (body : Z -> list A -> list A) :
  forall (n a : nat) (s : list A),
    (forall k st, (a <= k < a + n)%nat ->
                  body (Z.of_nat k) st = st ++ g (Z.of_nat k)) ->
    loop_from (Z.of_nat a) n body s
    = s ++ flat_map (fun k => g (Z.of_nat k)) (seq a n).
Proof.
  induction n as [|n IH]; intros a s Hbody; simpl.
  - now rewrite app_nil_r.
  - rewrite Hbody by lia.
    replace (Z.of_nat a + 1) with (Z.of_nat (S a)) by lia.
    rewrite IH.
    + now rewrite <- app_assoc.
    + intros k st Hk. apply Hbody. lia.
Qed.

Lemma for_lt_push {A : Type} (g : Z -> list A)
    (body : Z -> list A -> option (list A)) (n : Z) (s : list A) :
  (forall k st, (k < Z.to_nat n)%nat ->
                body (Z.of_nat k) st = Some (st ++ g (Z.of_nat k))) ->
  for_lt n body s
  = Some (s ++ flat_map (fun k => g (Z.of_nat k)) (seq 0 (Z.to_nat n))).
Proof.
  intro Hbody. unfold for_lt.
  apply (for_from_push g body (Z.to_nat n) 0).
  intros k st Hk. apply Hbody. lia.
Qed.

Lemma loop_lt_push {A : Type} (g : Z -> list A)
    (body : Z -> list A -> list A) (n : Z) (s : list A) :
  (forall k st, (k < Z.to_nat n)%nat ->
                body (Z.of_nat k) st = st ++ g (Z.of_nat k)) ->
  loop_lt n body s
  = s ++ flat_map (fun k => g (Z.of_nat k)) (seq 0 (Z.to_nat n)).
Proof.
  intro Hbody. unfold loop_lt.
  apply (loop_from_push g body (Z.to_nat n) 0).
  intros k st Hk. apply Hbody. lia.
Qed.

Lemma flat_map_singleton {A B : Type} (f : A -> B) (l : list A) :
  flat_map (fun x => [f x]) l = map f l.
Proof. induction l; simpl; congruence. Qed.

Lemma seq_offset (k n : nat) : seq k n = map (fun x => (k + x)%nat) (seq 0 n).
Proof.
  revert k. induction n as [|n IH]; intro k; simpl; [reflexivity|].
  rewrite Nat.add_0_r. f_equal.
  rewrite (IH (S k)), <- seq_shift, map_map.
  apply map_ext. intro x. lia.
Qed.

Lemma div_mod_grid (C y x : nat) :
  (x < C)%nat -> ((y * C + x) / C = y /\ (y * C + x) mod C = x)%nat.
Proof.
  intro Hx. split.
  - symmetry. apply (Nat.div_unique _ _ _ x); [exact Hx | lia].
  - symmetry. apply (Nat.mod_unique _ _ y); [exact Hx | lia].
Qed.

(** Row after row of a grid is one pass over its row-major positions. *)
Lemma flat_map_grid {B : Type} (h : nat -> nat -> B) (R C : nat) :
  flat_map (fun y => map (h y) (seq 0 C)) (seq 0 R)
  = map (fun i => h (i / C) (i mod C))%nat (seq 0 (R * C)).
Proof.
  induction R as [|R IH]; [reflexivity|].
  rewrite seq_S, flat_map_app, IH. simpl flat_map. rewrite app_nil_r.
  replace (S R * C)%nat with (R * C + C)%nat by lia.
  rewrite seq_app, map_app. f_equal.
  simpl. rewrite (seq_offset (R * C) C), map_map.
  apply map_ext_in. intros x Hx. apply in_seq in Hx.
  destruct (div_mod_grid C R x) as [-> ->]; [lia | reflexivity].
Qed.

Lemma nth_map_seq {B : Type} (g : nat -> B) (N k : nat) (d : B) :
  (k < N)%nat -> nth k (map g (seq 0 N)) d = g k.
Proof.
  intro Hk. rewrite (nth_indep _ d (g 0%nat)) by now rewrite length_map, length_seq.
  rewrite map_nth, seq_nth by exact Hk. reflexivity.
Qed.

Lemma nth_error_map_seq {B : Type} (g : nat -> B) (N k : nat) :
  (k < N)%nat -> nth_error (map g (seq 0 N)) k = Some (g k).
Proof.
  intro Hk. rewrite nth_error_map, nth_error_seq.
  destruct (Nat.ltb_spec k N); [reflexivity | lia].
Qed.

Lemma map_nth_seq {B : Type} (l : list B) (d : B) :
  map (fun i => nth i l d) (seq 0 (length l)) = l.
Proof.
  apply nth_error_ext. intro n.
  destruct (Nat.lt_ge_cases n (length l)) as [Hn|Hn].
  - rewrite nth_error_map_seq by exact Hn.
    symmetry. now apply nth_error_nth'.
  - transitivity (@None B); [|symmetry]; apply nth_error_None;
      [now rewrite length_map, length_seq | exact Hn].
Qed.

(** ** [reorder_corners] *)

Lemma wrap_in_range (z : Z) : Int.in_range z -> Int.wrap z = z.
Proof.
  unfold Int.in_range, Int.INT_MIN, Int.INT_MAX, Int.wrap. intro Hz.
  rewrite Z.mod_small; lia.
Qed.

(** Removes every wrap-around whose argument is within the [int] range,
    innermost first. *)
Ltac unwrap_ints :=
  repeat match goal with
         | |- context [Int.wrap ?z] =>
             lazymatch z with
             | context [Int.wrap _] => fail
             | _ => rewrite (wrap_in_range z)
                 by (unfold Int.in_range, Int.INT_MIN, Int.INT_MAX; nia)
             end
         end.

Lemma flip_lt (b : bool) (n k : nat) : (k < n)%nat -> (flip b n k < n)%nat.
Proof. unfold flip. destruct b; lia. Qed.

Lemma flip_flip (b : bool) (n k : nat) :
  (k < n)%nat -> flip b n (flip b n k) = k.
Proof. unfold flip. destruct b; lia. Qed.

Lemma reorder_index_lt (R C : nat) (a1_index : Z) (i : nat) :
  (i < R * C)%nat -> (reorder_index R C a1_index i < R * C)%nat.
Proof.
  intro Hi. unfold reorder_index.
  assert (HC : (0 < C)%nat) by nia.
  assert (Hy : (i / C < R)%nat) by (apply Nat.Div0.div_lt_upper_bound; lia).
  assert (Hx : (i mod C < C)%nat) by (apply Nat.mod_upper_bound; lia).
  pose proof (flip_lt (forwards_y a1_index) R _ Hy).
  pose proof (flip_lt (forwards_x a1_index) C _ Hx).
  nia.
Qed.

Lemma reorder_index_involutive (R C : nat) (a1_index : Z) (i : nat) :
  (i < R * C)%nat ->
  reorder_index R C a1_index (reorder_index R C a1_index i) = i.
Proof.
  intro Hi. unfold reorder_index.
  assert (HC : (0 < C)%nat) by nia.
  assert (Hy : (i / C < R)%nat) by (apply Nat.Div0.div_lt_upper_bound; lia).
  assert (Hx : (i mod C < C)%nat) by (apply Nat.mod_upper_bound; lia).
  pose proof (flip_lt (forwards_x a1_index) C _ Hx) as Hfx.
  destruct (div_mod_grid C (flip (forwards_y a1_index) R (i / C)) _ Hfx)
    as [-> ->].
  rewrite !flip_flip by assumption.
  pose proof (Nat.div_mod_eq i C). lia.
Qed.

Section Reorder.

Variable cb : Chessboard.
Variable corners : list Point2f.

Let rows := corners_y_ cb.
Let cols := corners_x_ cb.

Hypothesis rows_nonneg : 0 <= rows.
Hypothesis cols_nonneg : 0 <= cols.
Hypothesis fits_int : rows * cols <= Int.INT_MAX.
Hypothesis full_grid : Z.of_nat (length corners) = rows * cols.

(** The [int] expression [row * corners_x_ + col] of the loop body, for
    loop counters [y] and [x] in range. *)
Lemma reorder_position (a1_index : Z) (y x : nat) :
  (y < Z.to_nat rows)%nat -> (x < Z.to_nat cols)%nat ->
  let step_x := if forwards_x a1_index then 1 else -1 in
  let step_y := if forwards_y a1_index then 1 else -1 in
  let start_y := if step_y =? 1 then 0 else Int.sub rows 1 in
  let start_x := if step_x =? 1 then 0 else Int.sub cols 1 in
  Int.add (Int.mul (Int.add start_y (Int.mul (Z.of_nat y) step_y)) cols)
          (Int.add start_x (Int.mul (Z.of_nat x) step_x))
  = Z.of_nat (flip (forwards_y a1_index) (Z.to_nat rows) y * Z.to_nat cols
              + flip (forwards_x a1_index) (Z.to_nat cols) x).
Proof.
  intros Hy Hx. cbv zeta.
  assert (HR : rows = Z.of_nat (Z.to_nat rows)) by lia.
  assert (HC : cols = Z.of_nat (Z.to_nat cols)) by lia.
  revert Hy Hx fits_int HR HC.
  generalize (Z.to_nat rows) (Z.to_nat cols). intros R C Hy Hx Hfit -> ->.
  assert (Hyx : Z.of_nat y * Z.of_nat C + Z.of_nat x < Z.of_nat R * Z.of_nat C)
    by nia.
  unfold Int.INT_MAX in Hfit.
  unfold flip, Int.add, Int.sub, Int.mul.
  destruct (forwards_y a1_index), (forwards_x a1_index); simpl Z.eqb; cbv iota;
    unwrap_ints; nia.
Qed.

(** The output of [reorder_corners], position by position. *)
Lemma reorder_corners_closed (a1_index : Z) (d : Point2f) :
  ChessboardImpl.reorder_corners cb corners a1_index
  = Some (map (fun i => nth (reorder_index (Z.to_nat rows) (Z.to_nat cols)
                               a1_index i) corners d)
              (seq 0 (Z.to_nat rows * Z.to_nat cols))).
Proof.
  unfold ChessboardImpl.reorder_corners, reorder_index.
  fold rows cols. fold (forwards_x a1_index) (forwards_y a1_index).
  set (R := Z.to_nat rows). set (C := Z.to_nat cols).
  rewrite <- flat_map_grid
    with (h := fun y x => nth (flip (forwards_y a1_index) R y * C
                               + flip (forwards_x a1_index) C x) corners d).
  rewrite (for_lt_push
             (fun y => map (fun x => nth (flip (forwards_y a1_index) R (Z.to_nat y) * C
                               + flip (forwards_x a1_index) C x) corners d)
                           (seq 0 C))).
  - simpl app. fold R. f_equal. apply flat_map_ext. intro y.
    now rewrite Nat2Z.id.
  - fold R. intros y st Hy.
    rewrite (for_lt_push
               (fun x => [nth (flip (forwards_y a1_index) R y * C
                               + flip (forwards_x a1_index) C (Z.to_nat x))
                              corners d])).
    + fold C. rewrite Nat2Z.id. f_equal. f_equal.
      rewrite <- flat_map_singleton. apply flat_map_ext. intro x.
      now rewrite Nat2Z.id.
    + fold C. intros x st' Hx.
      pose proof (reorder_position a1_index y x) as Hpos.
      cbv zeta in Hpos. rewrite Hpos by (fold R C; lia). clear Hpos.
      fold R C.
      assert (Hlt : (flip (forwards_y a1_index) R y * C
                     + flip (forwards_x a1_index) C x < length corners)%nat).
      { pose proof (flip_lt (forwards_y a1_index) R y ltac:(lia)).
        pose proof (flip_lt (forwards_x a1_index) C x ltac:(lia)).
        assert (length corners = (R * C)%nat) by (subst R C; nia).
        nia. }
      unfold vec_at.
      destruct (Z.ltb_spec (Z.of_nat (flip (forwards_y a1_index) R y * C
                     + flip (forwards_x a1_index) C x)) 0); [lia|].
      rewrite !Nat2Z.id.
      now rewrite (nth_error_nth' corners d Hlt).
Qed.

End Reorder.

(** The reordering moves positions by a bijection of [0, R*C). *)
Lemma reorder_index_permutes (R C : nat) (a1_index : Z) :
  Permutation (map (reorder_index R C a1_index) (seq 0 (R * C)))
              (seq 0 (R * C)).
Proof.
  set (N := (R * C)%nat).
  set (f := fun i => if (i <? N)%nat then reorder_index R C a1_index i else i).
  assert (Hf : forall i, (i < N)%nat -> f i = reorder_index R C a1_index i).
  { intros i Hi. unfold f. destruct (Nat.ltb_spec i N); [reflexivity | lia]. }
  assert (Hbound : forall i, (i < N)%nat -> (f i < N)%nat).
  { intros i Hi. rewrite Hf by exact Hi. now apply reorder_index_lt. }
  rewrite (map_ext_in _ f).
  - apply nat_bijection_Permutation; [exact Hbound|].
    intros i j Hij.
    destruct (Nat.lt_ge_cases i N) as [Hi|Hi], (Nat.lt_ge_cases j N) as [Hj|Hj].
    + rewrite <- (reorder_index_involutive R C a1_index i Hi),
              <- (reorder_index_involutive R C a1_index j Hj).
      rewrite <- (Hf i Hi), <- (Hf j Hj). now rewrite Hij.
    + pose proof (Hbound i Hi). unfold f in Hij at 2.
      destruct (Nat.ltb_spec j N); lia.
    + pose proof (Hbound j Hj). unfold f in Hij at 1.
      destruct (Nat.ltb_spec i N); lia.
    + unfold f in Hij.
      destruct (Nat.ltb_spec i N), (Nat.ltb_spec j N); lia.
  - intros i Hi. apply in_seq in Hi. symmetry. apply Hf. lia.
Qed.

(** C8. On a board of [rows] x [cols] corners ([rows], [cols] counts whose
    [int] product exists), [reorder_corners] with any index, in particular
    0, 1, 2 and 3, turns a list of [rows*cols] corners into a list of the
    same length that is a permutation of it: no point is dropped and none
    is duplicated. *)
Theorem reorder_corners_is_permutation
    (cb : Chessboard) (corners : list Point2f) (k : Z) :
  0 <= corners_y_ cb -> 0 <= corners_x_ cb ->
  corners_y_ cb * corners_x_ cb <= Int.INT_MAX ->
  Z.of_nat (length corners) = corners_y_ cb * corners_x_ cb ->
  exists reordered,
    ChessboardImpl.reorder_corners cb corners k = Some reordered /\
    Z.of_nat (length reordered) = corners_y_ cb * corners_x_ cb /\
    Permutation corners reordered.
Proof.
  intros Hr Hc Hfit Hlen.
  set (d := mkPoint2f F32.zero F32.zero).
  rewrite (reorder_corners_closed cb corners Hr Hc Hfit Hlen k d).
  eexists. split; [reflexivity|].
  assert (HN : length corners
               = (Z.to_nat (corners_y_ cb) * Z.to_nat (corners_x_ cb))%nat) by nia.
  split.
  - rewrite length_map, length_seq. nia.
  - rewrite <- HN.
    rewrite <- (map_nth_seq corners d) at 1.
    rewrite <- (map_map (reorder_index _ _ k) (fun j => nth j corners d)).
    apply Permutation_map. symmetry. rewrite HN.
    apply reorder_index_permutes.
Qed.

(** C9. For a fixed index, reordering twice gives back the original list
    of [rows*cols] corners. *)
Theorem reorder_corners_twice
    (cb : Chessboard) (corners : list Point2f) (k : Z) :
  0 <= corners_y_ cb -> 0 <= corners_x_ cb ->
  corners_y_ cb * corners_x_ cb <= Int.INT_MAX ->
  Z.of_nat (length corners) = corners_y_ cb * corners_x_ cb ->
  exists once,
    ChessboardImpl.reorder_corners cb corners k = Some once /\
    ChessboardImpl.reorder_corners cb once k = Some corners.
Proof.
  intros Hr Hc Hfit Hlen.
  set (d := mkPoint2f F32.zero F32.zero).
  rewrite (reorder_corners_closed cb corners Hr Hc Hfit Hlen k d).
  eexists. split; [reflexivity|].
  assert (HN : length corners
               = (Z.to_nat (corners_y_ cb) * Z.to_nat (corners_x_ cb))%nat) by nia.
  rewrite (reorder_corners_closed cb _ Hr Hc Hfit) with (d := d)
    by (rewrite length_map, length_seq; nia).
  f_equal.
  transitivity (map (fun i => nth i corners d) (seq 0 (length corners)));
    [| apply map_nth_seq].
  rewrite HN. apply map_ext_in. intros i Hi. apply in_seq in Hi.
  rewrite nth_map_seq by (apply reorder_index_lt; lia).
  rewrite reorder_index_involutive by lia. reflexivity.
Qed.

Lemma reorder_corners_is_permutation_witness :
  (0 <= 2 /\ 0 <= 3 /\ 2 * 3 <= Int.INT_MAX /\
   Z.of_nat (length (Examples.grid 2 3 10 10 5 5)) = 2 * 3) /\
  exists reordered,
    ChessboardImpl.reorder_corners (mkChessboard 3 2 SQUARE_SIZE)
      (Examples.grid 2 3 10 10 5 5) 1 = Some reordered /\
    Z.of_nat (length reordered) = 2 * 3 /\
    Permutation (Examples.grid 2 3 10 10 5 5) reordered.
Proof.
  split.
  - unfold Int.INT_MAX. simpl. lia.
  - apply (reorder_corners_is_permutation (mkChessboard 3 2 SQUARE_SIZE)
             (Examples.grid 2 3 10 10 5 5) 1);
      unfold Int.INT_MAX; simpl; lia.
Defined.

Lemma reorder_corners_twice_witness :
  (0 <= 2 /\ 0 <= 3 /\ 2 * 3 <= Int.INT_MAX /\
   Z.of_nat (length (Examples.grid 2 3 10 10 5 5)) = 2 * 3) /\
  exists once,
    ChessboardImpl.reorder_corners (mkChessboard 3 2 SQUARE_SIZE)
      (Examples.grid 2 3 10 10 5 5) 2 = Some once /\
    ChessboardImpl.reorder_corners (mkChessboard 3 2 SQUARE_SIZE) once 2
    = Some (Examples.grid 2 3 10 10 5 5).
Proof.
  split.
  - unfold Int.INT_MAX. simpl. lia.
  - apply (reorder_corners_twice (mkChessboard 3 2 SQUARE_SIZE)
             (Examples.grid 2 3 10 10 5 5) 2);
      unfold Int.INT_MAX; simpl; lia.
Defined.

(** ** [generate_object_points] *)

Lemma generate_object_points_closed (cb : Chessboard) :
  ChessboardImpl.generate_object_points cb
  = map (fun i => object_point cb (Z.of_nat (i / Z.to_nat (corners_x_ cb)))
                                  (Z.of_nat (i mod Z.to_nat (corners_x_ cb))))
        (seq 0 (Z.to_nat (corners_y_ cb) * Z.to_nat (corners_x_ cb))).
Proof.
  unfold ChessboardImpl.generate_object_points.
  rewrite <- flat_map_grid
    with (h := fun y x => object_point cb (Z.of_nat y) (Z.of_nat x)).
  rewrite (loop_lt_push
             (fun y => map (fun x => object_point cb y (Z.of_nat x))
                           (seq 0 (Z.to_nat (corners_x_ cb))))).
  - reflexivity.
  - intros y st _.
    rewrite (loop_lt_push (fun x => [object_point cb (Z.of_nat y) x])).
    + now rewrite flat_map_singleton.
    + reflexivity.
Qed.

(** C3. For positive [rows] and [cols] and any square size [s],
    [generate_object_points] returns exactly [rows*cols] points, each with
    Z = 0, and the point at row-major position [r*cols + c] is
    ([r*s], [c*s], 0), the products being the [float] products of the
    source. *)
Theorem generate_object_points_grid (cb : Chessboard) :
  0 < corners_y_ cb -> 0 < corners_x_ cb ->
  let pts := ChessboardImpl.generate_object_points cb in
  Z.of_nat (length pts) = corners_y_ cb * corners_x_ cb /\
  Forall (fun p => p3z p = F32.zero) pts /\
  forall r c, 0 <= r < corners_y_ cb -> 0 <= c < corners_x_ cb ->
    nth_error pts (Z.to_nat (r * corners_x_ cb + c))
    = Some (mkPoint3f (F32.mul (F32.of_int r) (square_size_ cb))
                      (F32.mul (F32.of_int c) (square_size_ cb))
                      F32.zero).
Proof.
  intros Hr Hc pts. subst pts. rewrite generate_object_points_closed.
  split; [|split].
  - rewrite length_map, length_seq. nia.
  - apply Forall_forall. intros p Hp. apply in_map_iff in Hp.
    destruct Hp as [i [<- _]]. reflexivity.
  - intros r c Hrr Hcc.
    assert (0 <= r * corners_x_ cb) by (apply Z.mul_nonneg_nonneg; lia).
    rewrite Z2Nat.inj_add, Z2Nat.inj_mul by lia.
    assert (Z.to_nat r < Z.to_nat (corners_y_ cb))%nat by lia.
    assert (Z.to_nat c < Z.to_nat (corners_x_ cb))%nat by lia.
    rewrite nth_error_map_seq by nia.
    destruct (div_mod_grid (Z.to_nat (corners_x_ cb)) (Z.to_nat r) (Z.to_nat c))
      as [-> ->]; [lia|].
    unfold object_point. now rewrite !Z2Nat.id by lia.
Qed.

Lemma generate_object_points_grid_witness :
  (0 < 7 /\ 0 < 7) /\
  let pts := ChessboardImpl.generate_object_points detector in
  Z.of_nat (length pts) = 7 * 7 /\
  Forall (fun p => p3z p = F32.zero) pts /\
  forall r c, 0 <= r < 7 -> 0 <= c < 7 ->
    nth_error pts (Z.to_nat (r * 7 + c))
    = Some (mkPoint3f (F32.mul (F32.of_int r) SQUARE_SIZE)
                      (F32.mul (F32.of_int c) SQUARE_SIZE)
                      F32.zero).
Proof.
  split; [lia|].
  apply (generate_object_points_grid detector); reflexivity.
Defined.

(** C6, as the code has it. [generate_object_points] has no assertion and
    no failure path: for [rows <= 0] or [cols <= 0] neither loop body runs
    and the caller receives the empty vector. *)
Theorem generate_object_points_degenerate (cb : Chessboard) :
  corners_y_ cb <= 0 \/ corners_x_ cb <= 0 ->
  ChessboardImpl.generate_object_points cb = [].
Proof.
  intro H. rewrite generate_object_points_closed.
  replace (Z.to_nat (corners_y_ cb) * Z.to_nat (corners_x_ cb))%nat
    with 0%nat by nia.
  reflexivity.
Qed.

Lemma generate_object_points_degenerate_witness :
  (0 <= 0 \/ 7 <= 0) /\
  ChessboardImpl.generate_object_points (mkChessboard 7 0 SQUARE_SIZE) = [].
Proof.
  split; [left; lia|].
  apply (generate_object_points_degenerate (mkChessboard 7 0 SQUARE_SIZE)).
  left. simpl. lia.
Defined.

(** C6, counterexample: a board with zero rows is accepted silently; the
    call returns, and what it returns is the empty vector. *)
Lemma generate_object_points_accepts_zero_rows :
  ChessboardImpl.generate_object_points (mkChessboard 7 0 SQUARE_SIZE) = [].
Proof. reflexivity. Qed.

(** ** [Calibrator] *)

Section CalibratorFacts.

Context {cv : OpenCV}.

Lemma calibrate_keeps_samples (c : Calibrator) (image_size : Size) :
  image_points_ (snd (CalibratorImpl.calibrate c image_size)) = image_points_ c
  /\ object_points_ (snd (CalibratorImpl.calibrate c image_size))
     = object_points_ c.
Proof.
  unfold CalibratorImpl.calibrate.
  destruct (CalibratorImpl.is_empty (image_points_ c)
            || CalibratorImpl.is_empty (object_points_ c)); split; reflexivity.
Qed.

(** Every call leaves the stored samples in place and adds at most at
    the back. *)
Lemma after_call_extends (c : Calibrator) (call : CalibratorCall) :
  exists more_image more_object,
    image_points_ (after_call c call) = image_points_ c ++ more_image /\
    object_points_ (after_call c call) = object_points_ c ++ more_object.
Proof.
  destruct call; simpl.
  - now exists [image_pts], [object_pts].
  - exists [], []. rewrite !app_nil_r. apply calibrate_keeps_samples.
  - exists [], []. now rewrite !app_nil_r.
  - exists [], []. now rewrite !app_nil_r.
  - exists [], []. now rewrite !app_nil_r.
  - exists [], []. now rewrite !app_nil_r.
Qed.

Lemma after_calls_extends (calls : list CalibratorCall) :
  forall c, exists more_image more_object,
    image_points_ (after_calls c calls) = image_points_ c ++ more_image /\
    object_points_ (after_calls c calls) = object_points_ c ++ more_object.
Proof.
  induction calls as [|call calls IH]; intro c.
  - exists [], []. now rewrite !app_nil_r.
  - destruct (after_call_extends c call) as (mi & mo & Hi & Ho).
    destruct (IH (after_call c call)) as (mi' & mo' & Hi' & Ho').
    exists (mi ++ mi'), (mo ++ mo'). unfold after_calls in *. simpl.
    rewrite Hi', Ho', Hi, Ho, !app_assoc. split; reflexivity.
Qed.

(** The two parallel vectors always hold the same number of entries. *)
Lemma after_calls_paired (calls : list CalibratorCall) :
  forall c, length (image_points_ c) = length (object_points_ c) ->
    length (image_points_ (after_calls c calls))
    = length (object_points_ (after_calls c calls)).
Proof.
  induction calls as [|call calls IH]; intros c Hc; [exact Hc|].
  unfold after_calls. simpl. apply IH.
  destruct call; simpl; try exact Hc.
  - rewrite !length_app. simpl. lia.
  - destruct (calibrate_keeps_samples c image_size) as [-> ->]. exact Hc.
Qed.

(** C5. At any point of a session that started with a new [Calibrator],
    [calibrate] returns [false] exactly when no sample has been stored;
    it then leaves the object as it was.  Otherwise it returns [true]
    and the object holds the solver's camera matrix, distortion
    coefficients and the solver's own error value, the samples are
    untouched and the per-view extrinsics are kept nowhere. *)
Theorem calibrate_fails_iff_no_samples
    (calls : list CalibratorCall) (image_size : Size) :
  let c := after_calls CalibratorImpl.new calls in
  let r := CalibratorImpl.calibrate c image_size in
  let out := calibrateCamera (object_points_ c) (image_points_ c) image_size
               (camera_matrix_ c) (dist_coeffs_ c) in
  length (image_points_ c) = length (object_points_ c) /\
  (fst r = false <-> length (image_points_ c) = 0%nat) /\
  (fst r = false -> snd r = c) /\
  (fst r = true ->
     snd r = mkCalibrator (cc_err out) (cc_camera_matrix out)
               (cc_dist_coeffs out) (image_points_ c) (object_points_ c)).
Proof.
  intros c r out.
  assert (Hpair : length (image_points_ c) = length (object_points_ c))
    by (apply after_calls_paired; reflexivity).
  split; [exact Hpair|].
  subst r out. unfold CalibratorImpl.calibrate.
  destruct (image_points_ c) as [|i li], (object_points_ c) as [|o lo];
    simpl in *; try discriminate; repeat split; intros;
    try discriminate; try reflexivity.
Qed.

(** C7. [add_sample] appends exactly one entry to each of the two
    parallel vectors, behind the entries that were there; and no call,
    and so no sequence of calls, takes an entry away or reorders one. *)
Theorem add_sample_appends_one
    (c : Calibrator) (image_pts : list Point2f) (object_pts : list Point3f) :
  let c' := CalibratorImpl.add_sample c image_pts object_pts in
  length (image_points_ c') = S (length (image_points_ c)) /\
  length (object_points_ c') = S (length (object_points_ c)) /\
  image_points_ c' = image_points_ c ++ [image_pts] /\
  object_points_ c' = object_points_ c ++ [object_pts] /\
  forall calls, exists more_image more_object,
    image_points_ (after_calls c calls) = image_points_ c ++ more_image /\
    object_points_ (after_calls c calls) = object_points_ c ++ more_object.
Proof.
  simpl. rewrite !length_app. simpl.
  repeat split; try lia.
  intro calls. apply after_calls_extends.
Qed.

(** C10. A new [Calibrator] reports error 0.0, an empty camera matrix
    and a 5x1 vector of zeros, and keeps reporting them through any
    calls among which no [calibrate] has returned [true]: [add_sample]
    and a failed [calibrate] do not touch them. *)
Theorem new_calibrator_defaults (calls : list CalibratorCall) :
  calibrate_succeeded CalibratorImpl.new calls = false ->
  let c := after_calls CalibratorImpl.new calls in
  CalibratorImpl.get_reproj_error c = S754_zero false /\
  CalibratorImpl.get_camera_matrix c = mkMat 0 0 [] /\
  CalibratorImpl.get_dist_coeffs c
  = mkMat 5 1 [S754_zero false; S754_zero false; S754_zero false;
               S754_zero false; S754_zero false].
Proof.
  unfold CalibratorImpl.get_reproj_error, CalibratorImpl.get_camera_matrix,
    CalibratorImpl.get_dist_coeffs.
  assert (Hgen : forall c,
    calibrate_succeeded c calls = false ->
    reproj_error_ (after_calls c calls) = reproj_error_ c /\
    camera_matrix_ (after_calls c calls) = camera_matrix_ c /\
    dist_coeffs_ (after_calls c calls) = dist_coeffs_ c).
  { induction calls as [|call calls IH]; intros c Hno; [now repeat split|].
    simpl in Hno. apply orb_false_iff in Hno. destruct Hno as [Hcall Hrest].
    specialize (IH _ Hrest). unfold after_calls in *. simpl.
    destruct IH as (-> & -> & ->).
    destruct call; simpl; try (now repeat split).
    revert Hcall. unfold CalibratorImpl.calibrate.
    destruct (CalibratorImpl.is_empty (image_points_ c)
              || CalibratorImpl.is_empty (object_points_ c));
      simpl; [now repeat split | discriminate]. }
  intros Hno. cbv zeta. destruct (Hgen _ Hno) as (-> & -> & ->).
  repeat split.
Qed.

End CalibratorFacts.

Lemma new_calibrator_defaults_witness :
  let calls := [CallCalibrate (mkSize 640 480);
                CallAddSample Examples.corners_one_pixel
                  (ChessboardImpl.generate_object_points detector);
                CallGetReprojError] in
  calibrate_succeeded (H := Examples.cv_project_grid) CalibratorImpl.new calls
  = false /\
  let c := after_calls (H := Examples.cv_project_grid) CalibratorImpl.new calls in
  CalibratorImpl.get_reproj_error c = S754_zero false /\
  CalibratorImpl.get_camera_matrix c = mkMat 0 0 [] /\
  CalibratorImpl.get_dist_coeffs c
  = mkMat 5 1 [S754_zero false; S754_zero false; S754_zero false;
               S754_zero false; S754_zero false].
Proof.
  split; [reflexivity|].
  apply (new_calibrator_defaults (cv := Examples.cv_project_grid)).
  reflexivity.
Defined.

(** ** The order of floating-point values *)

Ltac compare_cases :=
  repeat match goal with
         | H : context [Z.compare ?a ?b] |- _ =>
             destruct (Z.compare_spec a b)
         | |- context [Z.compare ?a ?b] =>
             destruct (Z.compare_spec a b)
         | H : context [Pos.compare_cont Eq ?a ?b] |- _ =>
             change (Pos.compare_cont Eq a b) with (Pos.compare a b) in *;
             destruct (Pos.compare_spec a b)
         | |- context [Pos.compare_cont Eq ?a ?b] =>
             change (Pos.compare_cont Eq a b) with (Pos.compare a b) in *;
             destruct (Pos.compare_spec a b)
         end.

(** Settles a statement about [<], [<=] and [==] on floats by going
    through the kinds of values and the signs. *)
Ltac float_order :=
  unfold F64.ltb, F64.leb, F64.eqb, SFltb, SFleb, SFeqb, SFcompare in *;
  repeat match goal with
         | x : spec_float |- _ => destruct x
         | x : double |- _ => destruct x
         end;
  repeat match goal with
         | s : bool |- _ => destruct s
         end;
  simpl in *; try congruence;
  compare_cases; simpl in *; subst; try congruence; try lia.

Lemma ltb_trans (x y z : double) :
  F64.ltb x y = true -> F64.ltb y z = true -> F64.ltb x z = true.
Proof. float_order. Qed.

Lemma ltb_irrefl (x : double) : F64.ltb x x = false.
Proof. float_order. Qed.

Lemma eqb_ltb (x y z : double) :
  F64.eqb x y = true -> F64.ltb y z = true -> F64.ltb x z = true.
Proof. float_order. Qed.

Lemma leb_ltb_trans (x y z : double) :
  F64.leb x y = true -> F64.ltb y z = true -> F64.ltb x z = true.
Proof. float_order. Qed.

Lemma leb_not_ltb (x y : double) : F64.leb x y = true -> F64.ltb y x = false.
Proof. float_order. Qed.

(** Two values that are not NaN ([x] is below something, [y] is at most
    something) are comparable. *)
Lemma not_ltb_leb (x y b v : double) :
  F64.ltb x b = true -> F64.leb y v = true -> F64.ltb y x = false ->
  F64.leb x y = true.
Proof. float_order. Qed.

Lemma d_15_below_1e9 : F64.ltb d_15 d_1e9 = true.
Proof. reflexivity. Qed.

Lemma d_15_leb_refl : F64.leb d_15 d_15 = true.
Proof. reflexivity. Qed.

(** ** The selection among candidates *)

Section Selection.

(** The three facts about the selection, for candidates in any number:
    no candidate that passed the code's flag is strictly better than the
    final best; the best error never goes up; and the final best is the
    initial one or a flagged candidate that no earlier flagged
    candidate equals in error. *)
Lemma select_facts (b : Best) (cands : list (Z * Candidate)) :
  (forall kc, In kc cands -> cand_z_ok (snd kc) = true ->
     F64.ltb (cand_reproj_err (snd kc)) (best_reproj_err (select b cands))
     = false) /\
  (forall x, F64.ltb x (best_reproj_err (select b cands)) = true ->
     F64.ltb x (best_reproj_err b) = true) /\
  (select b cands = b \/
   exists pre k c post,
     cands = pre ++ (k, c) :: post /\
     select b cands = best_of k c /\
     cand_z_ok c = true /\
     F64.ltb (cand_reproj_err c) (best_reproj_err b) = true /\
     forall kc, In kc pre -> cand_z_ok (snd kc) = true ->
       F64.eqb (cand_reproj_err (snd kc)) (cand_reproj_err c) = false).
Proof.
  induction cands as [|[k c] cands IH] using rev_ind.
  - split; [|split].
    + intros kc [].
    + trivial.
    + now left.
  - destruct IH as (Hmin & Hdown & Hwho).
    unfold select in *. rewrite fold_left_app. simpl.
    set (b1 := fold_left _ cands b) in *.
    unfold take_if_better.
    destruct (cand_z_ok c) eqn:Hz;
      [destruct (F64.ltb (cand_reproj_err c) (best_reproj_err b1)) eqn:Hlt|];
      simpl.
    + (* the candidate is taken *)
      split; [|split].
      * intros kc Hin Hok. apply in_app_or in Hin. destruct Hin as [Hin|[<-|[]]].
        -- destruct (F64.ltb (cand_reproj_err (snd kc)) (cand_reproj_err c))
             eqn:Hc; [|reflexivity].
           rewrite <- (Hmin kc Hin Hok). symmetry.
           now apply (ltb_trans _ (cand_reproj_err c)).
        -- apply ltb_irrefl.
      * intros x Hx. apply Hdown. now apply (ltb_trans _ (cand_reproj_err c)).
      * right. exists cands, k, c, []. repeat split; try assumption.
        -- now apply Hdown.
        -- intros kc Hin Hok.
           destruct (F64.eqb (cand_reproj_err (snd kc)) (cand_reproj_err c))
             eqn:Heq; [|reflexivity].
           rewrite <- (Hmin kc Hin Hok). symmetry.
           now apply (eqb_ltb _ (cand_reproj_err c)).
    + (* flagged, but not strictly better *)
      split; [|split].
      * intros kc Hin Hok. apply in_app_or in Hin. destruct Hin as [Hin|[<-|[]]].
        -- now apply Hmin.
        -- exact Hlt.
      * exact Hdown.
      * destruct Hwho as [Hsame | (pre & k' & c' & post & -> & Hb & Hrest)].
        -- now left.
        -- right. exists pre, k', c', (post ++ [(k, c)]).
           rewrite <- app_assoc. simpl. now split.
    + (* not flagged *)
      split; [|split].
      * intros kc Hin Hok. apply in_app_or in Hin. destruct Hin as [Hin|[<-|[]]].
        -- now apply Hmin.
        -- simpl in Hok. congruence.
      * exact Hdown.
      * destruct Hwho as [Hsame | (pre & k' & c' & post & -> & Hb & Hrest)].
        -- now left.
        -- right. exists pre, k', c', (post ++ [(k, c)]).
           rewrite <- app_assoc. simpl. now split.
Qed.

End Selection.

(** ** One candidate *)

Lemma vec_at_middle {A : Type} (pre post : list A) (a : A) :
  vec_at (pre ++ a :: post) (Z.of_nat (length pre)) = Some a.
Proof.
  unfold vec_at. destruct (Z.ltb_spec (Z.of_nat (length pre)) 0); [lia|].
  rewrite Nat2Z.id, nth_error_app2, Nat.sub_diag by lia. reflexivity.
Qed.

Lemma sum_reproj_from (proj : list Point2f) :
  forall (pre_p pre_t test : list Point2f) (s : double),
    length pre_p = length pre_t -> (length proj <= length test)%nat ->
    for_from (Z.of_nat (length pre_p)) (length proj)
      (fun i err =>
         match vec_at (pre_p ++ proj) i, vec_at (pre_t ++ test) i with
         | Some p, Some c => Some (F64.add err (P2.norm (P2.sub p c)))
         | _, _ => None
         end) s
    = Some (fold_left
              (fun err pc => F64.add err (P2.norm (P2.sub (fst pc) (snd pc))))
              (combine proj test) s).
Proof.
  induction proj as [|p proj IH]; intros pre_p pre_t test s Hpre Hlen.
  - reflexivity.
  - destruct test as [|t test]; [simpl in Hlen; lia|].
    cbn [for_from length combine fold_left fst snd].
    rewrite vec_at_middle, Hpre, vec_at_middle, <- Hpre.
    replace (Z.of_nat (length pre_p) + 1)
      with (Z.of_nat (length (pre_p ++ [p]))) by (rewrite length_app; simpl; lia).
    replace (pre_p ++ p :: proj) with ((pre_p ++ [p]) ++ proj)
      by (now rewrite <- app_assoc).
    replace (pre_t ++ t :: test) with ((pre_t ++ [t]) ++ test)
      by (now rewrite <- app_assoc).
    apply IH.
    + rewrite !length_app. simpl. lia.
    + simpl in Hlen. lia.
Qed.

Lemma sum_reproj_dist_closed (proj test : list Point2f) :
  (length proj <= length test)%nat ->
  sum_reproj_dist proj test
  = Some (fold_left
            (fun err pc => F64.add err (P2.norm (P2.sub (fst pc) (snd pc))))
            (combine proj test) F64.zero).
Proof.
  intro Hlen. unfold sum_reproj_dist, for_lt. rewrite Nat2Z.id.
  exact (sum_reproj_from proj [] [] test F64.zero eq_refl Hlen).
Qed.

Lemma detector_points_length :
  length (ChessboardImpl.generate_object_points detector) = 49%nat.
Proof. reflexivity. Qed.

Section OneCandidate.

Context {cv : OpenCV}.
Variable corners : list Point2f.
Variable frame : Mat.

Hypothesis contract : opencv_contract cv.
Hypothesis full_grid : Z.of_nat (length corners) = CORNERS_Y * CORNERS_X.

Lemma reorder_detected (k : Z) :
  exists test_corners,
    ChessboardImpl.reorder_corners detector corners k = Some test_corners /\
    length test_corners = 49%nat.
Proof.
  assert (Hfit : corners_y_ detector * corners_x_ detector <= Int.INT_MAX)
    by (cbv; discriminate).
  rewrite (reorder_corners_closed detector corners ltac:(cbv; discriminate)
             ltac:(cbv; discriminate) Hfit full_grid k
             (mkPoint2f F32.zero F32.zero)).
  eexists. split; [reflexivity|].
  now rewrite length_map, length_seq.
Qed.

Lemma rotation_entry (rvec : Mat) :
  exists R22, Mat_at (Rodrigues rvec) 2 2 = Some R22.
Proof.
  destruct contract as [Hrod _]. destruct (Hrod rvec) as (Hr & Hc & Hd).
  unfold Mat_at. rewrite Hr, Hc. simpl.
  destruct (nth_error (mat_data (Rodrigues rvec)) 8) as [v|] eqn:Hn.
  - now exists v.
  - apply nth_error_None in Hn. lia.
Qed.

(** Every turn of the candidate loop reaches the selection test, with a
    candidate whose fields are what [candidate_of] says and whose flag
    is the conjunction of the three tests of the source. *)
Lemma evaluate_candidate_spec (k : Z) :
  exists c,
    evaluate_candidate corners frame k = Some c /\
    candidate_of corners frame k c /\
    length (cand_corners c) = 49%nat /\
    cand_z_ok c
    = cand_pnp_ok c && F64.ltb F64.zero (cand_R22 c)
      && negb (F64.ltb d_15 (cand_reproj_err c)).
Proof.
  destruct (reorder_detected k) as (test & Htest & Hlen).
  unfold evaluate_candidate, candidate_of. rewrite Htest.
  set (obj := ChessboardImpl.generate_object_points detector).
  set (K := provisional_K frame).
  set (pnp := solvePnP obj test K (Mat_zeros 5 1)).
  destruct (rotation_entry (pnp_rvec pnp)) as (R22 & HR). rewrite HR.
  destruct (pnp_ok pnp && F64.ltb F64.zero R22) eqn:Hz.
  - assert (Hproj : (length (projectPoints obj (pnp_rvec pnp) (pnp_tvec pnp)
                               K (Mat_zeros 5 1)) <= length test)%nat).
    { destruct contract as [_ Hp]. rewrite Hp. subst obj.
      rewrite detector_points_length. lia. }
    rewrite (sum_reproj_dist_closed _ _ Hproj).
    eexists. split; [reflexivity|]. cbn [cand_corners cand_rvec cand_tvec
      cand_pnp_ok cand_R22 cand_z_ok cand_reproj_err].
    fold obj K pnp. rewrite Hz.
    repeat split; try assumption; try reflexivity.
  - eexists. split; [reflexivity|]. cbn [cand_corners cand_rvec cand_tvec
      cand_pnp_ok cand_R22 cand_z_ok cand_reproj_err].
    fold obj K pnp. rewrite Hz.
    repeat split; try assumption; try reflexivity. discriminate.
Qed.

End OneCandidate.

(** ** The whole search *)

Lemma vec_at_some {A : Type} (v : list A) (i : Z) :
  0 <= i < Z.of_nat (length v) -> exists a, vec_at v i = Some a.
Proof.
  intro Hi. unfold vec_at. destruct (Z.ltb_spec i 0); [lia|].
  destruct (nth_error v (Z.to_nat i)) as [a|] eqn:Hn.
  - now exists a.
  - apply nth_error_None in Hn. lia.
Qed.

Lemma for_lt_4 {St : Type} (body : Z -> St -> option St) (s : St) :
  for_lt 4 body s
  = match body 0 s with
    | None => None
    | Some s1 =>
        match body 1 s1 with
        | None => None
        | Some s2 =>
            match body 2 s2 with
            | None => None
            | Some s3 => body 3 s3
            end
        end
    end.
Proof.
  unfold for_lt. change (Z.to_nat 4) with 4%nat. cbn [for_from].
  change (0 + 1) with 1. change (1 + 1) with 2. change (2 + 1) with 3.
  destruct (body 0 s) as [s1|]; [|reflexivity].
  destruct (body 1 s1) as [s2|]; [|reflexivity].
  destruct (body 2 s2) as [s3|]; [|reflexivity].
  now destruct (body 3 s3).
Qed.

Lemma vec_set_0 {A : Type} (a b c d v : A) :
  vec_set [a; b; c; d] 0 v = Some [v; b; c; d].
Proof. reflexivity. Qed.

Lemma vec_set_1 {A : Type} (a b c d v : A) :
  vec_set [a; b; c; d] 1 v = Some [a; v; c; d].
Proof. reflexivity. Qed.

Lemma vec_set_2 {A : Type} (a b c d v : A) :
  vec_set [a; b; c; d] 2 v = Some [a; b; v; d].
Proof. reflexivity. Qed.

Lemma vec_set_3 {A : Type} (a b c d v : A) :
  vec_set [a; b; c; d] 3 v = Some [a; b; c; v].
Proof. reflexivity. Qed.

Section Search.

Context {cv : OpenCV}.
Variable corners : list Point2f.
Variable frame : Mat.

Hypothesis contract : opencv_contract cv.
Hypothesis full_grid : Z.of_nat (length corners) = CORNERS_Y * CORNERS_X.

Lemma outer_square_centers_detected :
  exists p0 p1 p2 p3,
    outer_square_centers CORNERS_Y CORNERS_X corners = Some [p0; p1; p2; p3].
Proof.
  unfold outer_square_centers.
  change (Int.sub CORNERS_X 1) with 6.
  change (Int.sub CORNERS_Y 1) with 6.
  change (Int.mul 6 CORNERS_X) with 42.
  change (Int.sub (Int.mul CORNERS_Y CORNERS_X) 1) with 48.
  assert (Hlen : Z.of_nat (length corners) = 49) by exact full_grid.
  destruct (vec_at_some corners 0) as [tl ->]; [lia|].
  destruct (vec_at_some corners 6) as [tr ->]; [lia|].
  destruct (vec_at_some corners 42) as [bl ->]; [lia|].
  destruct (vec_at_some corners 48) as [br ->]; [lia|].
  now eexists _, _, _, _.
Qed.

(** The brightness sampling always yields four values. *)
Lemma outer_vals_sampled (gray : Mat) (p0 p1 p2 p3 : Point2f) :
  exists v0 v1 v2 v3,
    for_lt 4 (fun i vals =>
        match vec_at [p0; p1; p2; p3] i with
        | None => None
        | Some pt =>
            if outside_image gray pt then Some vals
            else vec_set vals i (outer_square_brightness gray pt)
        end) (repeat d_1e6 4)
    = Some [v0; v1; v2; v3].
Proof.
  rewrite for_lt_4. cbv beta.
  change (vec_at [p0; p1; p2; p3] 0) with (Some p0).
  change (vec_at [p0; p1; p2; p3] 1) with (Some p1).
  change (vec_at [p0; p1; p2; p3] 2) with (Some p2).
  change (vec_at [p0; p1; p2; p3] 3) with (Some p3).
  change (repeat d_1e6 4) with [d_1e6; d_1e6; d_1e6; d_1e6].
  cbv beta iota.
  destruct (outside_image gray p0), (outside_image gray p1),
           (outside_image gray p2), (outside_image gray p3);
    rewrite ?vec_set_0; cbv iota; rewrite ?vec_set_1; cbv iota;
    rewrite ?vec_set_2; cbv iota; rewrite ?vec_set_3;
    now eexists _, _, _, _.
Qed.

(** The candidate loop over candidates that are all evaluated. *)
Lemma candidate_loop_closed (verbose_debug : bool) (vals : list double)
    (cands : list (Z * Candidate)) :
  (forall kc, In kc cands ->
     evaluate_candidate corners frame (fst kc) = Some (snd kc) /\
     0 <= fst kc < Z.of_nat (length vals)) ->
  forall b lg,
    candidate_loop verbose_debug corners frame vals (map fst cands) (b, lg)
    = Some (select b cands,
            lg ++ if verbose_debug then log_lines vals cands else []).
Proof.
  induction cands as [|[k c] cands IH]; intros Hall b lg.
  - simpl. destruct verbose_debug; now rewrite app_nil_r.
  - destruct (Hall (k, c) (or_introl eq_refl)) as [Hev Hk].
    cbn [map fst candidate_loop]. simpl fst in Hev. rewrite Hev.
    destruct (vec_at_some vals k Hk) as [v Hv].
    unfold select. cbn [fold_left fst snd].
    destruct verbose_debug.
    + rewrite Hv. rewrite IH by (intros kc Hin; apply Hall; now right).
      unfold log_lines. cbn [flat_map]. unfold log_line at 2.
      cbn [fst snd]. rewrite Hv. now rewrite <- app_assoc.
    + rewrite IH by (intros kc Hin; apply Hall; now right). reflexivity.
Qed.

(** [find_best_pose] always returns, and what it returns is the
    selection over the four rotation indices in the order 0, 1, 2, 3;
    the image [gray] reaches [outer_vals] and the log only. *)
Lemma find_best_pose_closed :
  exists c0 c1 c2 c3,
    let cands := [(0, c0); (1, c1); (2, c2); (3, c3)] in
    (forall kc, In kc cands ->
       evaluate_candidate corners frame (fst kc) = Some (snd kc) /\
       candidate_of corners frame (fst kc) (snd kc) /\
       length (cand_corners (snd kc)) = 49%nat /\
       cand_z_ok (snd kc)
       = cand_pnp_ok (snd kc) && F64.ltb F64.zero (cand_R22 (snd kc))
         && negb (F64.ltb d_15 (cand_reproj_err (snd kc)))) /\
    forall verbose_debug gray,
      exists vals,
        find_best_pose verbose_debug corners frame gray
        = Some (mkPoseSearch vals (select no_best cands)
                  (if verbose_debug then log_lines vals cands else []))
        /\ length vals = 4%nat.
Proof.
  destruct (evaluate_candidate_spec corners frame contract full_grid 0)
    as (c0 & H0).
  destruct (evaluate_candidate_spec corners frame contract full_grid 1)
    as (c1 & H1).
  destruct (evaluate_candidate_spec corners frame contract full_grid 2)
    as (c2 & H2).
  destruct (evaluate_candidate_spec corners frame contract full_grid 3)
    as (c3 & H3).
  exists c0, c1, c2, c3. cbv zeta.
  assert (Hall : forall kc, In kc [(0, c0); (1, c1); (2, c2); (3, c3)] ->
       evaluate_candidate corners frame (fst kc) = Some (snd kc) /\
       candidate_of corners frame (fst kc) (snd kc) /\
       length (cand_corners (snd kc)) = 49%nat /\
       cand_z_ok (snd kc)
       = cand_pnp_ok (snd kc) && F64.ltb F64.zero (cand_R22 (snd kc))
         && negb (F64.ltb d_15 (cand_reproj_err (snd kc)))).
  { intros kc [<-|[<-|[<-|[<-|[]]]]]; assumption. }
  split; [exact Hall|].
  intros verbose_debug gray. unfold find_best_pose.
  destruct outer_square_centers_detected as (p0 & p1 & p2 & p3 & ->).
  destruct (outer_vals_sampled gray p0 p1 p2 p3) as (v0 & v1 & v2 & v3 & ->).
  exists [v0; v1; v2; v3].
  change [0; 1; 2; 3] with (map fst [(0, c0); (1, c1); (2, c2); (3, c3)]).
  rewrite candidate_loop_closed.
  - split; reflexivity.
  - intros kc Hin. split; [now apply Hall|].
    destruct Hin as [<-|[<-|[<-|[<-|[]]]]]; simpl; lia.
Qed.

End Search.

(** ** Gates and selection of [find_best_pose] *)

(** A candidate within the gates carries the flag and beats the initial
    best error 1e9. *)
Lemma gates_give_flag (c : Candidate) :
  cand_z_ok c
  = cand_pnp_ok c && F64.ltb F64.zero (cand_R22 c)
    && negb (F64.ltb d_15 (cand_reproj_err c)) ->
  passes_gates c = true ->
  cand_z_ok c = true /\ F64.ltb (cand_reproj_err c) d_1e9 = true.
Proof.
  unfold passes_gates. intros -> Hg.
  apply andb_true_iff in Hg. destruct Hg as [Hg Hle]. rewrite Hg.
  split.
  - now rewrite (leb_not_ltb _ _ Hle).
  - exact (leb_ltb_trans _ _ _ Hle d_15_below_1e9).
Qed.

(** A flagged candidate that was strictly better than some best error is
    within the gates. *)
Lemma flag_gives_gates (c : Candidate) (b : double) :
  cand_z_ok c
  = cand_pnp_ok c && F64.ltb F64.zero (cand_R22 c)
    && negb (F64.ltb d_15 (cand_reproj_err c)) ->
  cand_z_ok c = true -> F64.ltb (cand_reproj_err c) b = true ->
  cand_pnp_ok c = true /\ F64.ltb F64.zero (cand_R22 c) = true /\
  F64.leb (cand_reproj_err c) d_15 = true.
Proof.
  intros Hflag Hz Hlt. rewrite Hflag in Hz.
  apply andb_true_iff in Hz. destruct Hz as [Hz Hnot].
  apply andb_true_iff in Hz. destruct Hz as [Hpnp HR].
  apply negb_true_iff in Hnot.
  repeat split; try assumption.
  exact (not_ltb_leb _ _ _ _ Hlt d_15_leb_refl Hnot).
Qed.

Lemma four_candidates_split (c0 c1 c2 c3 c : Candidate) (k : Z)
    (pre post : list (Z * Candidate)) :
  [(0, c0); (1, c1); (2, c2); (3, c3)] = pre ++ (k, c) :: post ->
  In k [0; 1; 2; 3] /\
  forall kc, In kc [(0, c0); (1, c1); (2, c2); (3, c3)] ->
    In kc pre \/ k <= fst kc.
Proof.
  destruct pre as [|x0 [|x1 [|x2 [|x3 pre]]]]; simpl; intro H;
    injection H; intros; subst.
  5: { exfalso. eapply app_cons_not_nil. eassumption. }
  all: split; [simpl; tauto|].
  all: intros kc [<-|[<-|[<-|[<-|[]]]]]; simpl; solve [right; lia | left; tauto].
Qed.

(** C1, as the code has it. [find_best_pose] returns for every frame with
    a full grid of corners.  For every rotation index the validity flag of
    the candidate is the conjunction of the three tests of the source: the
    pose solve converged, the entry (2,2) of the rotation matrix is
    positive, and the mean reprojection error is not greater than 15.0.
    The result is no rotation (index -1) or a rotation index in 0..3 whose
    candidate passed all three gates, with a mean error over all 49 points
    of at most 15.0.  A candidate failing one of them is never the
    result. *)
Theorem find_best_pose_result_passed_gates {cv : OpenCV}
    (verbose_debug : bool) (corners : list Point2f) (frame gray : Mat) :
  opencv_contract cv ->
  Z.of_nat (length corners) = CORNERS_Y * CORNERS_X ->
  exists found,
    find_best_pose verbose_debug corners frame gray = Some found /\
    (forall k, In k [0; 1; 2; 3] ->
       exists c,
         evaluate_candidate corners frame k = Some c /\
         candidate_of corners frame k c /\
         cand_z_ok c
         = cand_pnp_ok c && F64.ltb F64.zero (cand_R22 c)
           && negb (F64.ltb d_15 (cand_reproj_err c))) /\
    (best_a1 (best found) = -1 \/
     exists c,
       In (best_a1 (best found)) [0; 1; 2; 3] /\
       evaluate_candidate corners frame (best_a1 (best found)) = Some c /\
       candidate_of corners frame (best_a1 (best found)) c /\
       best found = best_of (best_a1 (best found)) c /\
       cand_pnp_ok c = true /\
       F64.ltb F64.zero (cand_R22 c) = true /\
       F64.leb (cand_reproj_err c) d_15 = true /\
       let proj_pts :=
         projectPoints (ChessboardImpl.generate_object_points detector)
           (cand_rvec c) (cand_tvec c) (provisional_K frame) (Mat_zeros 5 1) in
       cand_reproj_err c = mean_reproj_error proj_pts (cand_corners c) /\
       Z.of_nat (length proj_pts) = CORNERS_Y * CORNERS_X /\
       Z.of_nat (length (cand_corners c)) = CORNERS_Y * CORNERS_X).
Proof.
  intros Hcontract Hlen.
  destruct (find_best_pose_closed corners frame Hcontract Hlen)
    as (c0 & c1 & c2 & c3 & Hall & Hrun).
  cbv zeta in Hall, Hrun.
  destruct (Hrun verbose_debug gray) as (vals & -> & _).
  eexists. split; [reflexivity|]. cbn [best].
  split.
  { assert (Hpick : forall kc, In kc [(0, c0); (1, c1); (2, c2); (3, c3)] ->
              evaluate_candidate corners frame (fst kc) = Some (snd kc) /\
              candidate_of corners frame (fst kc) (snd kc) /\
              cand_z_ok (snd kc)
              = cand_pnp_ok (snd kc) && F64.ltb F64.zero (cand_R22 (snd kc))
                && negb (F64.ltb d_15 (cand_reproj_err (snd kc)))).
    { intros kc Hin. destruct (Hall kc Hin) as (Hev & Hof & _ & Hflag).
      split; [exact Hev | split; [exact Hof | exact Hflag]]. }
    intros k [<-|[<-|[<-|[<-|[]]]]].
    - exists c0. apply (Hpick (0, c0)). simpl. tauto.
    - exists c1. apply (Hpick (1, c1)). simpl. tauto.
    - exists c2. apply (Hpick (2, c2)). simpl. tauto.
    - exists c3. apply (Hpick (3, c3)). simpl. tauto. }
  destruct (select_facts no_best [(0, c0); (1, c1); (2, c2); (3, c3)])
    as (_ & _ & [Hsame | (pre & k & c & post & Hsplit & Hsel & Hz & Hlt & _)]).
  - left. now rewrite Hsame.
  - right. rewrite Hsel. cbn [best_of best_a1]. exists c.
    destruct (four_candidates_split _ _ _ _ _ _ _ _ Hsplit) as [Hk _].
    assert (Hin : In (k, c) [(0, c0); (1, c1); (2, c2); (3, c3)])
      by (rewrite Hsplit; apply in_elt).
    destruct (Hall _ Hin) as (Hev & Hof & Hcorners & Hflag). cbn [fst snd] in *.
    destruct (flag_gives_gates c _ Hflag Hz Hlt) as (Hpnp & HR & Hle).
    split; [exact Hk|]. split; [exact Hev|]. split; [exact Hof|].
    split; [reflexivity|].
    split; [exact Hpnp|]. split; [exact HR|]. split; [exact Hle|].
    cbv zeta. split; [|split].
    + destruct Hof as (_ & _ & _ & _ & _ & Herr). apply Herr.
      now rewrite Hpnp, HR.
    + destruct Hcontract as [_ Hp]. rewrite Hp. reflexivity.
    + rewrite Hcorners. reflexivity.
Qed.

Lemma cv_project_onto_contract (onto : list Point2f) :
  opencv_contract (Examples.cv_project_onto onto).
Proof.
  split.
  - intro rvec. repeat split.
  - intros obj rvec tvec K dist.
    change (length (firstn (length obj)
                      (onto ++ map (fun _ => Examples.pt2 0 0) obj))
            = length obj).
    rewrite length_firstn, length_app, length_map. lia.
Qed.

Lemma cv_project_grid_contract : opencv_contract Examples.cv_project_grid.
Proof. apply cv_project_onto_contract. Qed.

Lemma find_best_pose_result_passed_gates_witness :
  (opencv_contract Examples.cv_project_grid /\
   Z.of_nat (length (Examples.grid 7 7 100 100 50 50)) = CORNERS_Y * CORNERS_X) /\
  exists found,
    find_best_pose (H := Examples.cv_project_grid) true
      (Examples.grid 7 7 100 100 50 50)
      Examples.image_640x480 Examples.image_640x480 = Some found /\
    (forall k, In k [0; 1; 2; 3] ->
       exists c,
         evaluate_candidate (H := Examples.cv_project_grid)
           (Examples.grid 7 7 100 100 50 50) Examples.image_640x480 k
         = Some c /\
         candidate_of (H := Examples.cv_project_grid)
           (Examples.grid 7 7 100 100 50 50) Examples.image_640x480 k c /\
         cand_z_ok c
         = cand_pnp_ok c && F64.ltb F64.zero (cand_R22 c)
           && negb (F64.ltb d_15 (cand_reproj_err c))) /\
    (best_a1 (best found) = -1 \/
     exists c,
       In (best_a1 (best found)) [0; 1; 2; 3] /\
       evaluate_candidate (H := Examples.cv_project_grid)
         (Examples.grid 7 7 100 100 50 50) Examples.image_640x480
         (best_a1 (best found)) = Some c /\
       candidate_of (H := Examples.cv_project_grid)
         (Examples.grid 7 7 100 100 50 50) Examples.image_640x480
         (best_a1 (best found)) c /\
       best found = best_of (best_a1 (best found)) c /\
       cand_pnp_ok c = true /\
       F64.ltb F64.zero (cand_R22 c) = true /\
       F64.leb (cand_reproj_err c) d_15 = true /\
       let proj_pts :=
         projectPoints (OpenCV := Examples.cv_project_grid)
           (ChessboardImpl.generate_object_points detector)
           (cand_rvec c) (cand_tvec c) (provisional_K Examples.image_640x480)
           (Mat_zeros 5 1) in
       cand_reproj_err c = mean_reproj_error proj_pts (cand_corners c) /\
       Z.of_nat (length proj_pts) = CORNERS_Y * CORNERS_X /\
       Z.of_nat (length (cand_corners c)) = CORNERS_Y * CORNERS_X).
Proof.
  split.
  - split; [exact cv_project_grid_contract | reflexivity].
  - apply (find_best_pose_result_passed_gates (cv := Examples.cv_project_grid)
             true (Examples.grid 7 7 100 100 50 50)
             Examples.image_640x480 Examples.image_640x480).
    + exact cv_project_grid_contract.
    + reflexivity.
Defined.

(** C1, counterexample. The corners are a 7x7 grid and every projected
    point lies exactly 15 pixels to the right of its corner, so the mean
    error of rotation 0 is exactly 15.0; it is not below 15.0, and rotation
    0 is selected with that error. *)
Lemma find_best_pose_selects_error_15 :
  exists found,
    find_best_pose (H := Examples.cv_project_shifted) false
      (Examples.grid 7 7 100 100 50 50)
      Examples.image_640x480 Examples.image_640x480
    = Some found /\
    best_a1 (best found) = 0 /\
    best_reproj_err (best found) = d_15 /\
    F64.ltb (best_reproj_err (best found)) d_15 = false.
Proof.
  eexists. split; [vm_compute; reflexivity|].
  repeat split.
Qed.

(** With four sampled values, the verbose log has one line per rotation
    index, in the order of the loop. *)
Lemma log_lines_indices (vals : list double) (c0 c1 c2 c3 : Candidate) :
  length vals = 4%nat ->
  map log_a1_index (log_lines vals [(0, c0); (1, c1); (2, c2); (3, c3)])
  = [0; 1; 2; 3].
Proof.
  destruct vals as [|v0 [|v1 [|v2 [|v3 [|v4 vals]]]]]; try discriminate.
  reflexivity.
Qed.

(** C2. [find_best_pose] runs the four rotation indices in the order
    0, 1, 2, 3 whatever the brightness of the outer squares is (the image
    [gray] reaches only [outer_vals] and the log).  The gates are those
    the code enforces: the solve converged, the rotation entry (2,2) is
    positive, and the mean error is at most 15.0.  It reports -1 exactly
    when no candidate passes the gates, and then the frame adds nothing to
    the calibrator; otherwise it reports a candidate that passes the
    gates, whose error is at most that of every candidate passing them,
    and no candidate of lower index passing them has an equal error. *)
Theorem find_best_pose_selects_minimum {cv : OpenCV}
    (verbose_debug : bool) (corners : list Point2f) (frame gray : Mat) :
  opencv_contract cv ->
  Z.of_nat (length corners) = CORNERS_Y * CORNERS_X ->
  exists found c0 c1 c2 c3,
    let cands := [(0, c0); (1, c1); (2, c2); (3, c3)] in
    find_best_pose verbose_debug corners frame gray = Some found /\
    (forall kc, In kc cands ->
       evaluate_candidate corners frame (fst kc) = Some (snd kc) /\
       candidate_of corners frame (fst kc) (snd kc)) /\
    map log_a1_index (verbose_log found)
    = (if verbose_debug then [0; 1; 2; 3] else []) /\
    (forall verbose_debug' gray', exists found',
       find_best_pose verbose_debug' corners frame gray' = Some found' /\
       best found' = best found) /\
    (best_a1 (best found) = -1 <->
     forall kc, In kc cands -> passes_gates (snd kc) = false) /\
    (best_a1 (best found) = -1 ->
     forall s, use_detected_corners verbose_debug s corners frame gray
               = Some (s, false)) /\
    (best_a1 (best found) <> -1 ->
     exists c,
       In (best_a1 (best found), c) cands /\
       passes_gates c = true /\
       best found = best_of (best_a1 (best found)) c /\
       forall kc, In kc cands -> passes_gates (snd kc) = true ->
         F64.leb (cand_reproj_err c) (cand_reproj_err (snd kc)) = true /\
         (F64.eqb (cand_reproj_err (snd kc)) (cand_reproj_err c) = true ->
          best_a1 (best found) <= fst kc)).
Proof.
  intros Hcontract Hlen.
  destruct (find_best_pose_closed corners frame Hcontract Hlen)
    as (c0 & c1 & c2 & c3 & Hall & Hrun).
  cbv zeta in Hall, Hrun.
  destruct (Hrun verbose_debug gray) as (vals & Hfound & Hvals).
  eexists. exists c0, c1, c2, c3. cbv zeta.
  split; [exact Hfound|].
  set (cands := [(0, c0); (1, c1); (2, c2); (3, c3)]) in *.
  cbn [best verbose_log].
  assert (Hflag : forall kc, In kc cands ->
            cand_z_ok (snd kc)
            = cand_pnp_ok (snd kc) && F64.ltb F64.zero (cand_R22 (snd kc))
              && negb (F64.ltb d_15 (cand_reproj_err (snd kc))))
    by (intros kc Hin; apply (Hall kc Hin)).
  destruct (select_facts no_best cands) as (Hmin & _ & Hwho).
  (* the result is -1 exactly when nothing passes the gates *)
  assert (Hnone : best_a1 (select no_best cands) = -1 <->
                  forall kc, In kc cands -> passes_gates (snd kc) = false).
  { split.
    - intros Hm1 kc Hin.
      destruct (passes_gates (snd kc)) eqn:Hg; [|reflexivity].
      destruct (gates_give_flag _ (Hflag kc Hin) Hg) as [Hz Hlt].
      destruct Hwho as [Hsame | (pre & k & c & post & Hsplit & Hsel & _)].
      + rewrite <- (Hmin kc Hin Hz), Hsame. symmetry. exact Hlt.
      + destruct (four_candidates_split _ _ _ _ _ _ _ _ Hsplit) as [Hk _].
        rewrite Hsel in Hm1. cbn [best_of best_a1] in Hm1. subst k.
        simpl in Hk. lia.
    - intro Hno.
      destruct Hwho as [-> | (pre & k & c & post & Hsplit & _ & Hz & Hlt & _)];
        [reflexivity|].
      assert (Hin : In (k, c) cands) by (rewrite Hsplit; apply in_elt).
      destruct (flag_gives_gates c _ (Hflag _ Hin) Hz Hlt) as (Hp & HR & Hle).
      specialize (Hno _ Hin). unfold passes_gates in Hno. cbn [snd] in Hno.
      rewrite Hp, HR, Hle in Hno. discriminate. }
  split; [intros kc Hin; split; apply (Hall kc Hin)|].
  split; [destruct verbose_debug; [now apply log_lines_indices | reflexivity]|].
  split.
  { intros verbose_debug' gray'.
    destruct (Hrun verbose_debug' gray') as (vals' & -> & _).
    eexists. split; reflexivity. }
  split; [exact Hnone|].
  split.
  { intros Hm1 s. unfold use_detected_corners. rewrite Hfound. cbn [best].
    now rewrite Hm1. }
  intro Hsome.
  destruct Hwho as [Hsame | (pre & k & c & post & Hsplit & Hsel & Hz & Hlt & Htie)];
    [now rewrite Hsame in Hsome|].
  assert (Hin : In (k, c) cands) by (rewrite Hsplit; apply in_elt).
  destruct (flag_gives_gates c _ (Hflag _ Hin) Hz Hlt) as (Hp & HR & Hle).
  rewrite Hsel. cbn [best_of best_a1]. exists c.
  split; [exact Hin|].
  split; [unfold passes_gates; now rewrite Hp, HR, Hle|].
  split; [reflexivity|].
  intros kc Hkc Hg.
  destruct (gates_give_flag _ (Hflag kc Hkc) Hg) as [Hz' _].
  assert (Hle' : F64.leb (cand_reproj_err (snd kc)) d_15 = true).
  { unfold passes_gates in Hg. now apply andb_true_iff in Hg. }
  split.
  - apply (not_ltb_leb _ _ _ _ Hlt Hle').
    rewrite <- (Hmin kc Hkc Hz'), Hsel. reflexivity.
  - intro Heq.
    destruct (four_candidates_split _ _ _ _ _ _ _ _ Hsplit) as [_ Hord].
    destruct (Hord kc Hkc) as [Hpre | Hge]; [|exact Hge].
    rewrite (Htie kc Hpre Hz') in Heq. discriminate.
Qed.

Lemma find_best_pose_selects_minimum_witness :
  (opencv_contract Examples.cv_project_grid /\
   Z.of_nat (length (Examples.grid 7 7 100 100 50 50)) = CORNERS_Y * CORNERS_X) /\
  exists found c0 c1 c2 c3,
    let cands := [(0, c0); (1, c1); (2, c2); (3, c3)] in
    find_best_pose (H := Examples.cv_project_grid) true
      (Examples.grid 7 7 100 100 50 50)
      Examples.image_640x480 Examples.image_640x480 = Some found /\
    (forall kc, In kc cands ->
       evaluate_candidate (H := Examples.cv_project_grid)
         (Examples.grid 7 7 100 100 50 50) Examples.image_640x480 (fst kc)
       = Some (snd kc) /\
       candidate_of (H := Examples.cv_project_grid)
         (Examples.grid 7 7 100 100 50 50) Examples.image_640x480
         (fst kc) (snd kc)) /\
    map log_a1_index (verbose_log found) = [0; 1; 2; 3] /\
    (forall verbose_debug' gray', exists found',
       find_best_pose (H := Examples.cv_project_grid) verbose_debug'
         (Examples.grid 7 7 100 100 50 50) Examples.image_640x480 gray'
       = Some found' /\
       best found' = best found) /\
    (best_a1 (best found) = -1 <->
     forall kc, In kc cands -> passes_gates (snd kc) = false) /\
    (best_a1 (best found) = -1 ->
     forall s, use_detected_corners (H := Examples.cv_project_grid) true s
                 (Examples.grid 7 7 100 100 50 50)
                 Examples.image_640x480 Examples.image_640x480
               = Some (s, false)) /\
    (best_a1 (best found) <> -1 ->
     exists c,
       In (best_a1 (best found), c) cands /\
       passes_gates c = true /\
       best found = best_of (best_a1 (best found)) c /\
       forall kc, In kc cands -> passes_gates (snd kc) = true ->
         F64.leb (cand_reproj_err c) (cand_reproj_err (snd kc)) = true /\
         (F64.eqb (cand_reproj_err (snd kc)) (cand_reproj_err c) = true ->
          best_a1 (best found) <= fst kc)).
Proof.
  split.
  - split; [exact cv_project_grid_contract | reflexivity].
  - apply (find_best_pose_selects_minimum (cv := Examples.cv_project_grid)
             true (Examples.grid 7 7 100 100 50 50)
             Examples.image_640x480 Examples.image_640x480).
    + exact cv_project_grid_contract.
    + reflexivity.
Defined.

(** C2, counterexample. With every projected point exactly 15 pixels
    from its corner, no rotation gives a candidate whose mean error is
    below 15.0 together with a converged solve and a positive rotation
    entry, so none is valid with the strict bound; yet rotation 0 is
    reported and the frame adds a sample to the calibrator. *)
Lemma find_best_pose_reports_without_strictly_valid :
  Forall (fun k =>
            exists c,
              evaluate_candidate (H := Examples.cv_project_shifted)
                (Examples.grid 7 7 100 100 50 50) Examples.image_640x480 k
              = Some c /\
              cand_pnp_ok c && F64.ltb F64.zero (cand_R22 c)
              && F64.ltb (cand_reproj_err c) d_15 = false)
         [0; 1; 2; 3] /\
  exists found s',
    find_best_pose (H := Examples.cv_project_shifted) false
      (Examples.grid 7 7 100 100 50 50)
      Examples.image_640x480 Examples.image_640x480
    = Some found /\
    best_a1 (best found) = 0 /\
    use_detected_corners (H := Examples.cv_project_shifted) false
      (mkSession CalibratorImpl.new [] (-1))
      (Examples.grid 7 7 100 100 50 50)
      Examples.image_640x480 Examples.image_640x480
    = Some (s', true) /\
    length (image_points_ (calibrator s')) = 1%nat.
Proof.
  split.
  - repeat (constructor;
            [eexists; split; [vm_compute; reflexivity | vm_compute; reflexivity]|]).
    constructor.
  - do 2 eexists. split; [vm_compute; reflexivity|].
    split; [reflexivity|]. split; [vm_compute; reflexivity | reflexivity].
Qed.

(** Two runs of the search on the example collaborators: only rotation 0
    matches the projected grid; and among four candidates of equal error
    the lowest index is kept. *)
Example find_best_pose_on_grid :
  option_map (fun found => (best_a1 (best found), best_reproj_err (best found)))
    (find_best_pose (H := Examples.cv_project_grid) false
       (Examples.grid 7 7 100 100 50 50)
       Examples.image_640x480 Examples.image_640x480)
  = Some (0, S754_zero false).
Proof. vm_compute. reflexivity. Qed.

Example find_best_pose_tie :
  option_map (fun found => best_a1 (best found))
    (find_best_pose
       (H := Examples.cv_project_onto (repeat (Examples.pt2 110 100) 49)) false
       Examples.corners_one_pixel Examples.image_640x480 Examples.image_640x480)
  = Some 0.
Proof. vm_compute. reflexivity. Qed.

(** ** [find_a1_candidates] *)

Lemma sentinel_within_tolerance : F64.ltb d_1e6 (F64.add d_1e6 d_10) = true.
Proof. reflexivity. Qed.

(** When no outer square can be sampled, every entry of [vals] and
    [min_val] are still the sentinel 1e6, which is below 1e6 + 10:
    [find_a1_candidates] returns all four indices, where [find_a1_index]
    on the same image returns -1. *)
Lemma find_a1_candidates_all_outside {cv : OpenCV} (cb : Chessboard)
    (gray : Mat) (corners : list Point2f) (p0 p1 p2 p3 : Point2f) :
  outer_square_centers (corners_y_ cb) (corners_x_ cb) corners
  = Some [p0; p1; p2; p3] ->
  forallb (outside_image gray) [p0; p1; p2; p3] = true ->
  ChessboardImpl.find_a1_candidates cb gray corners = Some [0; 1; 2; 3] /\
  ChessboardImpl.find_a1_index cb gray corners = Some (-1).
Proof.
  intros Houter Hout. cbn [forallb] in Hout.
  apply andb_true_iff in Hout. destruct Hout as [H0 Hout].
  apply andb_true_iff in Hout. destruct Hout as [H1 Hout].
  apply andb_true_iff in Hout. destruct Hout as [H2 Hout].
  apply andb_true_iff in Hout. destruct Hout as [H3 _].
  unfold ChessboardImpl.find_a1_candidates, ChessboardImpl.find_a1_index.
  rewrite Houter, !for_lt_4. cbv beta.
  change (vec_at [p0; p1; p2; p3] 0) with (Some p0).
  change (vec_at [p0; p1; p2; p3] 1) with (Some p1).
  change (vec_at [p0; p1; p2; p3] 2) with (Some p2).
  change (vec_at [p0; p1; p2; p3] 3) with (Some p3).
  cbv beta iota. rewrite H0. cbv beta iota. rewrite H1. cbv beta iota.
  rewrite H2. cbv beta iota. rewrite H3.
  split; [|reflexivity].
  rewrite for_lt_4.
  change (repeat d_1e6 4) with [d_1e6; d_1e6; d_1e6; d_1e6].
  change (vec_at [d_1e6; d_1e6; d_1e6; d_1e6] 0) with (Some d_1e6).
  change (vec_at [d_1e6; d_1e6; d_1e6; d_1e6] 1) with (Some d_1e6).
  change (vec_at [d_1e6; d_1e6; d_1e6; d_1e6] 2) with (Some d_1e6).
  change (vec_at [d_1e6; d_1e6; d_1e6; d_1e6] 3) with (Some d_1e6).
  cbv beta iota. rewrite sentinel_within_tolerance. reflexivity.
Qed.

(** C4, the failing input. A 7x7 board fills a 640x480 frame, so that
    the four outer square centres all fall outside the image.  The
    specification asks for the empty set here, and [find_a1_index] reports
    -1; [find_a1_candidates] returns all four indices, and this with every
    region-mean collaborator, since no square is sampled. *)
Theorem find_a1_candidates_nothing_sampled {cv : OpenCV} :
  exists p0 p1 p2 p3,
    outer_square_centers CORNERS_Y CORNERS_X Examples.corners_filling_frame
    = Some [p0; p1; p2; p3] /\
    forallb (outside_image Examples.image_640x480) [p0; p1; p2; p3] = true /\
    ChessboardImpl.find_a1_candidates detector Examples.image_640x480
      Examples.corners_filling_frame = Some [0; 1; 2; 3] /\
    ChessboardImpl.find_a1_index detector Examples.image_640x480
      Examples.corners_filling_frame = Some (-1).
Proof.
  assert (Houter : exists p0 p1 p2 p3,
    outer_square_centers CORNERS_Y CORNERS_X Examples.corners_filling_frame
    = Some [p0; p1; p2; p3] /\
    forallb (outside_image Examples.image_640x480) [p0; p1; p2; p3] = true).
  { eexists _, _, _, _. split; [vm_compute; reflexivity|]. vm_compute. reflexivity. }
  destruct Houter as (p0 & p1 & p2 & p3 & Houter & Hout).
  exists p0, p1, p2, p3. split; [exact Houter|]. split; [exact Hout|].
  exact (find_a1_candidates_all_outside detector Examples.image_640x480
           Examples.corners_filling_frame p0 p1 p2 p3 Houter Hout).
Qed.

(** With one dark square at the top left and one at the bottom left of a
    board inside the frame, both are candidates and the first is the
    darkest index. *)
Example find_a1_candidates_two_dark :
  ChessboardImpl.find_a1_candidates (H := Examples.cv_project_grid) detector
    Examples.image_640x480 (Examples.grid 7 7 100 100 50 50) = Some [0; 2] /\
  ChessboardImpl.find_a1_index (H := Examples.cv_project_grid) detector
    Examples.image_640x480 (Examples.grid 7 7 100 100 50 50) = Some 0.
Proof. split; vm_compute; reflexivity. Qed.

(** What [find_a1_candidates] returns in general: the indices whose entry
    of [vals] is below [min_val + 10.0]. *)
Lemma find_a1_candidates_closed {cv : OpenCV} (cb : Chessboard)
    (gray : Mat) (corners : list Point2f) (p0 p1 p2 p3 : Point2f) :
  outer_square_centers (corners_y_ cb) (corners_x_ cb) corners
  = Some [p0; p1; p2; p3] ->
  ChessboardImpl.find_a1_candidates cb gray corners
  = Some (map fst
            (filter (fun ip =>
                       F64.ltb (sampled_or_sentinel gray (snd ip))
                         (F64.add (darkest_sampled gray [p0; p1; p2; p3]) d_10))
                    [(0, p0); (1, p1); (2, p2); (3, p3)])).
Proof.
  intro Houter.
  unfold ChessboardImpl.find_a1_candidates, darkest_sampled, sampled_or_sentinel.
  rewrite Houter, for_lt_4. cbv beta.
  change (vec_at [p0; p1; p2; p3] 0) with (Some p0).
  change (vec_at [p0; p1; p2; p3] 1) with (Some p1).
  change (vec_at [p0; p1; p2; p3] 2) with (Some p2).
  change (vec_at [p0; p1; p2; p3] 3) with (Some p3).
  change (repeat d_1e6 4) with [d_1e6; d_1e6; d_1e6; d_1e6].
  cbn [fold_left filter map fst snd]. cbv beta iota.
  destruct (outside_image gray p0), (outside_image gray p1),
           (outside_image gray p2), (outside_image gray p3);
    rewrite ?vec_set_0; cbv iota; rewrite ?vec_set_1; cbv iota;
    rewrite ?vec_set_2; cbv iota; rewrite ?vec_set_3; cbv iota;
    rewrite for_lt_4; cbv beta;
    match goal with
    | |- context [vec_at [?a; ?b; ?c; ?d] 0] =>
        change (vec_at [a; b; c; d] 0) with (Some a);
        change (vec_at [a; b; c; d] 1) with (Some b);
        change (vec_at [a; b; c; d] 2) with (Some c);
        change (vec_at [a; b; c; d] 3) with (Some d)
    end;
    cbv beta iota;
    repeat match goal with
           | |- context [F64.ltb ?a (F64.add ?m d_10)] =>
               destruct (F64.ltb a (F64.add m d_10))
           end;
    reflexivity.
Qed.

(** Away from the sentinel, that is whenever 1e6 is not below
    [min_val + 10.0] (as with 8-bit brightness, where [min_val] is at most
    255 once a square is sampled), the result is exactly the sampled
    squares whose brightness is below [min_val + 10.0]. *)
Lemma find_a1_candidates_sampled {cv : OpenCV} (cb : Chessboard)
    (gray : Mat) (corners : list Point2f) (p0 p1 p2 p3 : Point2f) :
  outer_square_centers (corners_y_ cb) (corners_x_ cb) corners
  = Some [p0; p1; p2; p3] ->
  F64.ltb d_1e6 (F64.add (darkest_sampled gray [p0; p1; p2; p3]) d_10) = false ->
  ChessboardImpl.find_a1_candidates cb gray corners
  = Some (map fst
            (filter (fun ip =>
                       negb (outside_image gray (snd ip))
                       && F64.ltb (outer_square_brightness gray (snd ip))
                            (F64.add (darkest_sampled gray [p0; p1; p2; p3]) d_10))
                    [(0, p0); (1, p1); (2, p2); (3, p3)])).
Proof.
  intros Houter Hsentinel.
  rewrite (find_a1_candidates_closed cb gray corners p0 p1 p2 p3 Houter).
  f_equal. f_equal. apply filter_ext. intros [i p]. cbn [snd].
  unfold sampled_or_sentinel.
  destruct (outside_image gray p); [exact Hsentinel | reflexivity].
Qed.


(** * Further properties of the code *)

(** ** [reorder_corners] on lists of any length *)

(** The index expression of the loop body; the vector plays no part in it. *)
Lemma reorder_position_any (rows cols a1_index : Z) (y x : nat) :
  0 <= rows -> 0 <= cols -> rows * cols <= Int.INT_MAX ->
  (y < Z.to_nat rows)%nat -> (x < Z.to_nat cols)%nat ->
  Int.add
    (Int.mul
       (Int.add
          (if (if forwards_y a1_index then 1 else -1) =? 1
           then 0 else Int.sub rows 1)
          (Int.mul (Z.of_nat y) (if forwards_y a1_index then 1 else -1)))
       cols)
    (Int.add
       (if (if forwards_x a1_index then 1 else -1) =? 1
        then 0 else Int.sub cols 1)
       (Int.mul (Z.of_nat x) (if forwards_x a1_index then 1 else -1)))
  = Z.of_nat (flip (forwards_y a1_index) (Z.to_nat rows) y * Z.to_nat cols
              + flip (forwards_x a1_index) (Z.to_nat cols) x).
Proof.
  intros Hr Hc Hfit Hy Hx.
  assert (HR : rows = Z.of_nat (Z.to_nat rows)) by lia.
  assert (HC : cols = Z.of_nat (Z.to_nat cols)) by lia.
  revert Hy Hx Hfit HR HC.
  generalize (Z.to_nat rows) (Z.to_nat cols). intros R C Hy Hx Hfit -> ->.
  assert (Hyx : Z.of_nat y * Z.of_nat C + Z.of_nat x < Z.of_nat R * Z.of_nat C)
    by nia.
  unfold Int.INT_MAX in Hfit.
  unfold flip, Int.add, Int.sub, Int.mul.
  destruct (forwards_y a1_index), (forwards_x a1_index); simpl Z.eqb; cbv iota;
    unwrap_ints; nia.
Qed.

(** A loop fails as soon as one of its turns fails whatever the state. *)
Lemma for_from_fails {St : Type} (body : Z -> St -> option St) :
  forall (n a k : nat) (s : St),
    (a <= k < a + n)%nat ->
    (forall st, body (Z.of_nat k) st = None) ->
    for_from (Z.of_nat a) n body s = None.
Proof.
  induction n as [|n IH]; intros a k s Hk Hfail; [lia|].
  simpl. destruct (body (Z.of_nat a) s) as [s'|] eqn:Hb; [|reflexivity].
  destruct (Nat.eq_dec k a) as [->|Hne].
  - rewrite Hfail in Hb. discriminate.
  - replace (Z.of_nat a + 1) with (Z.of_nat (S a)) by lia.
    apply (IH (S a) k); [lia | exact Hfail].
Qed.

Lemma for_lt_fails {St : Type} (body : Z -> St -> option St) (n : Z)
    (k : nat) (s : St) :
  (k < Z.to_nat n)%nat ->
  (forall st, body (Z.of_nat k) st = None) ->
  for_lt n body s = None.
Proof.
  intros Hk Hfail. unfold for_lt.
  apply (for_from_fails body (Z.to_nat n) 0 k); [lia | exact Hfail].
Qed.

Section ReorderAnyLength.

Variable cb : Chessboard.
Variable corners : list Point2f.

Let rows := corners_y_ cb.
Let cols := corners_x_ cb.

Hypothesis rows_nonneg : 0 <= rows.
Hypothesis cols_nonneg : 0 <= cols.
Hypothesis fits_int : rows * cols <= Int.INT_MAX.

(** With at least [rows*cols] corners, the output is read off the first
    [rows*cols] of them. *)
Lemma reorder_corners_closed_prefix (a1_index : Z) (d : Point2f) :
  rows * cols <= Z.of_nat (length corners) ->
  ChessboardImpl.reorder_corners cb corners a1_index
  = Some (map (fun i => nth (reorder_index (Z.to_nat rows) (Z.to_nat cols)
                               a1_index i) corners d)
              (seq 0 (Z.to_nat rows * Z.to_nat cols))).
Proof.
  intro Hlong.
  unfold ChessboardImpl.reorder_corners, reorder_index.
  fold rows cols. fold (forwards_x a1_index) (forwards_y a1_index).
  set (R := Z.to_nat rows). set (C := Z.to_nat cols).
  rewrite <- flat_map_grid
    with (h := fun y x => nth (flip (forwards_y a1_index) R y * C
                               + flip (forwards_x a1_index) C x) corners d).
  rewrite (for_lt_push
             (fun y => map (fun x => nth (flip (forwards_y a1_index) R (Z.to_nat y) * C
                               + flip (forwards_x a1_index) C x) corners d)
                           (seq 0 C))).
  - simpl app. fold R. f_equal. apply flat_map_ext. intro y.
    now rewrite Nat2Z.id.
  - fold R. intros y st Hy.
    rewrite (for_lt_push
               (fun x => [nth (flip (forwards_y a1_index) R y * C
                               + flip (forwards_x a1_index) C (Z.to_nat x))
                              corners d])).
    + fold C. rewrite Nat2Z.id. f_equal. f_equal.
      rewrite <- flat_map_singleton. apply flat_map_ext. intro x.
      now rewrite Nat2Z.id.
    + fold C. intros x st' Hx.
      rewrite (reorder_position_any rows cols a1_index y x)
        by (try assumption; fold R C; lia).
      fold R C.
      assert (Hlt : (flip (forwards_y a1_index) R y * C
                     + flip (forwards_x a1_index) C x < length corners)%nat).
      { pose proof (flip_lt (forwards_y a1_index) R y ltac:(lia)).
        pose proof (flip_lt (forwards_x a1_index) C x ltac:(lia)).
        assert (R * C <= length corners)%nat by (subst R C; nia).
        nia. }
      unfold vec_at.
      destruct (Z.ltb_spec (Z.of_nat (flip (forwards_y a1_index) R y * C
                     + flip (forwards_x a1_index) C x)) 0); [lia|].
      rewrite !Nat2Z.id.
      now rewrite (nth_error_nth' corners d Hlt).
Qed.

(** With fewer, some turn of the loops reads behind the end of the
    vector. *)
Lemma reorder_corners_short (a1_index : Z) :
  Z.of_nat (length corners) < rows * cols ->
  ChessboardImpl.reorder_corners cb corners a1_index = None.
Proof.
  intro Hshort.
  unfold ChessboardImpl.reorder_corners.
  fold rows cols. fold (forwards_x a1_index) (forwards_y a1_index).
  set (R := Z.to_nat rows). set (C := Z.to_nat cols).
  assert (HR : (0 < R)%nat) by (subst R; nia).
  assert (HC : (0 < C)%nat) by (subst C; nia).
  (* the turn that reads the last position of the grid *)
  set (y := flip (forwards_y a1_index) R (R - 1)).
  set (x := flip (forwards_x a1_index) C (C - 1)).
  assert (Hy : (y < R)%nat) by (apply flip_lt; lia).
  assert (Hx : (x < C)%nat) by (apply flip_lt; lia).
  apply (for_lt_fails _ rows y); [exact Hy|]. intro st.
  apply (for_lt_fails _ cols x); [exact Hx|]. intro st'.
  rewrite (reorder_position_any rows cols a1_index y x)
    by (try assumption; fold R C; lia).
  fold R C. subst y x. rewrite !flip_flip by lia.
  unfold vec_at.
  destruct (Z.ltb_spec (Z.of_nat ((R - 1) * C + (C - 1))) 0); [reflexivity|].
  rewrite Nat2Z.id.
  destruct (nth_error corners ((R - 1) * C + (C - 1))) eqn:Hn; [|reflexivity].
  exfalso. assert (Hsome : nth_error corners ((R - 1) * C + (C - 1)) <> None)
    by congruence.
  apply nth_error_Some in Hsome. subst R C. nia.
Qed.

End ReorderAnyLength.

Lemma flip_compose (b1 b2 : bool) (n i : nat) :
  (i < n)%nat -> flip b1 n (flip b2 n i) = flip (Bool.eqb b1 b2) n i.
Proof. unfold flip. destruct b1, b2; simpl; lia. Qed.

Lemma reorder_index_compose (R C : nat) (k j : Z) (i : nat) :
  (i < R * C)%nat -> 0 <= k <= 3 -> 0 <= j <= 3 ->
  reorder_index R C k (reorder_index R C j i)
  = reorder_index R C (Z.lxor k j) i.
Proof.
  intros Hi Hk Hj. unfold reorder_index.
  assert (HC : (0 < C)%nat) by nia.
  assert (Hy : (i / C < R)%nat) by (apply Nat.Div0.div_lt_upper_bound; lia).
  assert (Hx : (i mod C < C)%nat) by (apply Nat.mod_upper_bound; lia).
  pose proof (flip_lt (forwards_x j) C _ Hx) as Hfx.
  destruct (div_mod_grid C (flip (forwards_y j) R (i / C)) _ Hfx) as [-> ->].
  rewrite !flip_compose by assumption.
  assert (Hfw : forwards_x (Z.lxor k j) = Bool.eqb (forwards_x k) (forwards_x j)
                /\ forwards_y (Z.lxor k j)
                   = Bool.eqb (forwards_y k) (forwards_y j)).
  { assert (Hk' : k = 0 \/ k = 1 \/ k = 2 \/ k = 3) by lia.
    assert (Hj' : j = 0 \/ j = 1 \/ j = 2 \/ j = 3) by lia.
    destruct Hk' as [->|[->|[->| ->]]], Hj' as [->|[->|[->| ->]]];
      split; reflexivity. }
  destruct Hfw as [-> ->]. reflexivity.
Qed.

(** X1. With index 0 the corner list comes back unchanged. *)
Theorem reorder_corners_index_0 (cb : Chessboard) (corners : list Point2f) :
  0 <= corners_y_ cb -> 0 <= corners_x_ cb ->
  corners_y_ cb * corners_x_ cb <= Int.INT_MAX ->
  Z.of_nat (length corners) = corners_y_ cb * corners_x_ cb ->
  ChessboardImpl.reorder_corners cb corners 0 = Some corners.
Proof.
  intros Hr Hc Hfit Hlen.
  set (d := mkPoint2f F32.zero F32.zero).
  rewrite (reorder_corners_closed cb corners Hr Hc Hfit Hlen 0 d).
  f_equal.
  assert (HN : length corners
               = (Z.to_nat (corners_y_ cb) * Z.to_nat (corners_x_ cb))%nat) by nia.
  transitivity (map (fun i => nth i corners d) (seq 0 (length corners)));
    [| apply map_nth_seq].
  rewrite HN. apply map_ext_in. intros i Hi. apply in_seq in Hi.
  f_equal. unfold reorder_index, forwards_x, forwards_y, flip. simpl.
  pose proof (Nat.div_mod_eq i (Z.to_nat (corners_x_ cb))). lia.
Qed.

Lemma reorder_corners_index_0_witness :
  (0 <= 2 /\ 0 <= 3 /\ 2 * 3 <= Int.INT_MAX /\
   Z.of_nat (length (Examples.grid 2 3 10 10 5 5)) = 2 * 3) /\
  ChessboardImpl.reorder_corners (mkChessboard 3 2 SQUARE_SIZE)
    (Examples.grid 2 3 10 10 5 5) 0 = Some (Examples.grid 2 3 10 10 5 5).
Proof.
  split.
  - unfold Int.INT_MAX. simpl. lia.
  - apply (reorder_corners_index_0 (mkChessboard 3 2 SQUARE_SIZE)
             (Examples.grid 2 3 10 10 5 5));
      unfold Int.INT_MAX; simpl; lia.
Defined.

(** X2. With index 3, and with every index other than 0, 1 and 2 (both
    directions then run backwards), the corner list comes back
    reversed. *)
Theorem reorder_corners_reverses
    (cb : Chessboard) (corners : list Point2f) (k : Z) :
  0 <= corners_y_ cb -> 0 <= corners_x_ cb ->
  corners_y_ cb * corners_x_ cb <= Int.INT_MAX ->
  Z.of_nat (length corners) = corners_y_ cb * corners_x_ cb ->
  k <> 0 -> k <> 1 -> k <> 2 ->
  ChessboardImpl.reorder_corners cb corners k = Some (rev corners).
Proof.
  intros Hr Hc Hfit Hlen H0 H1 H2.
  set (d := mkPoint2f F32.zero F32.zero).
  rewrite (reorder_corners_closed cb corners Hr Hc Hfit Hlen k d).
  f_equal.
  assert (HN : length corners
               = (Z.to_nat (corners_y_ cb) * Z.to_nat (corners_x_ cb))%nat) by nia.
  transitivity (map (fun i => nth i (rev corners) d)
                    (seq 0 (length (rev corners))));
    [| apply map_nth_seq].
  rewrite length_rev, HN. apply map_ext_in. intros i Hi. apply in_seq in Hi.
  rewrite rev_nth by lia. f_equal. rewrite HN.
  unfold reorder_index, forwards_x, forwards_y, flip.
  destruct (Z.eqb_spec k 0); [contradiction|].
  destruct (Z.eqb_spec k 1); [contradiction|].
  destruct (Z.eqb_spec k 2); [contradiction|]. simpl.
  set (C := Z.to_nat (corners_x_ cb)) in *.
  set (R := Z.to_nat (corners_y_ cb)) in *.
  assert (HC : (0 < C)%nat) by nia.
  assert (Hy : (i / C < R)%nat) by (apply Nat.Div0.div_lt_upper_bound; lia).
  assert (Hx : (i mod C < C)%nat) by (apply Nat.mod_upper_bound; lia).
  pose proof (Nat.div_mod_eq i C). nia.
Qed.

Lemma reorder_corners_reverses_witness :
  (0 <= 2 /\ 0 <= 3 /\ 2 * 3 <= Int.INT_MAX /\
   Z.of_nat (length (Examples.grid 2 3 10 10 5 5)) = 2 * 3 /\
   3 <> 0 /\ 3 <> 1 /\ 3 <> 2) /\
  ChessboardImpl.reorder_corners (mkChessboard 3 2 SQUARE_SIZE)
    (Examples.grid 2 3 10 10 5 5) 3 = Some (rev (Examples.grid 2 3 10 10 5 5)).
Proof.
  split.
  - unfold Int.INT_MAX. simpl. lia.
  - apply (reorder_corners_reverses (mkChessboard 3 2 SQUARE_SIZE)
             (Examples.grid 2 3 10 10 5 5) 3);
      unfold Int.INT_MAX; simpl; lia.
Defined.

(** X3. Index 1 mirrors every row (the corner of row [y], column [x] comes
    from column [cols-1-x] of the same row) and index 2 mirrors the order
    of the rows (it comes from row [rows-1-y], same column). *)
Theorem reorder_corners_mirrors
    (cb : Chessboard) (corners : list Point2f) :
  0 <= corners_y_ cb -> 0 <= corners_x_ cb ->
  corners_y_ cb * corners_x_ cb <= Int.INT_MAX ->
  Z.of_nat (length corners) = corners_y_ cb * corners_x_ cb ->
  exists by_1 by_2,
    ChessboardImpl.reorder_corners cb corners 1 = Some by_1 /\
    ChessboardImpl.reorder_corners cb corners 2 = Some by_2 /\
    forall y x, 0 <= y < corners_y_ cb -> 0 <= x < corners_x_ cb ->
      vec_at by_1 (y * corners_x_ cb + x)
      = vec_at corners (y * corners_x_ cb + (corners_x_ cb - 1 - x)) /\
      vec_at by_2 (y * corners_x_ cb + x)
      = vec_at corners ((corners_y_ cb - 1 - y) * corners_x_ cb + x).
Proof.
  intros Hr Hc Hfit Hlen.
  set (d := mkPoint2f F32.zero F32.zero).
  rewrite (reorder_corners_closed cb corners Hr Hc Hfit Hlen 1 d).
  rewrite (reorder_corners_closed cb corners Hr Hc Hfit Hlen 2 d).
  eexists _, _. split; [reflexivity|]. split; [reflexivity|].
  intros y x Hy Hx.
  set (C := Z.to_nat (corners_x_ cb)). set (R := Z.to_nat (corners_y_ cb)).
  assert (HlenN : length corners = (R * C)%nat) by (subst R C; nia).
  assert (Hpos : y * corners_x_ cb + x = Z.of_nat (Z.to_nat y * C + Z.to_nat x))
    by (subst C; nia).
  assert (Hy' : (Z.to_nat y < R)%nat) by (subst R; lia).
  assert (Hx' : (Z.to_nat x < C)%nat) by (subst C; lia).
  assert (Hin : (Z.to_nat y * C + Z.to_nat x < R * C)%nat) by nia.
  unfold vec_at. rewrite Hpos.
  destruct (Z.ltb_spec (Z.of_nat (Z.to_nat y * C + Z.to_nat x)) 0); [lia|].
  rewrite Nat2Z.id, !nth_error_map_seq by exact Hin.
  unfold reorder_index.
  destruct (div_mod_grid C (Z.to_nat y) (Z.to_nat x) Hx') as [-> ->].
  change (forwards_x 1) with false. change (forwards_y 1) with true.
  change (forwards_x 2) with true. change (forwards_y 2) with false.
  unfold flip.
  split.
  - destruct (Z.ltb_spec (y * corners_x_ cb + (corners_x_ cb - 1 - x)) 0); [nia|].
    replace (Z.to_nat (y * corners_x_ cb + (corners_x_ cb - 1 - x)))
      with (Z.to_nat y * C + (C - 1 - Z.to_nat x))%nat by (subst C; nia).
    symmetry. apply nth_error_nth'. nia.
  - destruct (Z.ltb_spec ((corners_y_ cb - 1 - y) * corners_x_ cb + x) 0); [nia|].
    replace (Z.to_nat ((corners_y_ cb - 1 - y) * corners_x_ cb + x))
      with ((R - 1 - Z.to_nat y) * C + Z.to_nat x)%nat by (subst R C; nia).
    symmetry. apply nth_error_nth'. nia.
Qed.

Lemma reorder_corners_mirrors_witness :
  (0 <= 2 /\ 0 <= 3 /\ 2 * 3 <= Int.INT_MAX /\
   Z.of_nat (length (Examples.grid 2 3 10 10 5 5)) = 2 * 3) /\
  exists by_1 by_2,
    ChessboardImpl.reorder_corners (mkChessboard 3 2 SQUARE_SIZE)
      (Examples.grid 2 3 10 10 5 5) 1 = Some by_1 /\
    ChessboardImpl.reorder_corners (mkChessboard 3 2 SQUARE_SIZE)
      (Examples.grid 2 3 10 10 5 5) 2 = Some by_2 /\
    forall y x, 0 <= y < 2 -> 0 <= x < 3 ->
      vec_at by_1 (y * 3 + x)
      = vec_at (Examples.grid 2 3 10 10 5 5) (y * 3 + (3 - 1 - x)) /\
      vec_at by_2 (y * 3 + x)
      = vec_at (Examples.grid 2 3 10 10 5 5) ((2 - 1 - y) * 3 + x).
Proof.
  split.
  - unfold Int.INT_MAX. simpl. lia.
  - apply (reorder_corners_mirrors (mkChessboard 3 2 SQUARE_SIZE)
             (Examples.grid 2 3 10 10 5 5));
      unfold Int.INT_MAX; simpl; lia.
Defined.

(** X4. The four reorderings compose by exclusive or of their indices:
    reordering by [k] and then by [j] is reordering by [k xor j].  So they
    commute, each undoes itself, and 1 then 2 is 3. *)
Theorem reorder_corners_compose
    (cb : Chessboard) (corners : list Point2f) (k j : Z) :
  0 <= corners_y_ cb -> 0 <= corners_x_ cb ->
  corners_y_ cb * corners_x_ cb <= Int.INT_MAX ->
  Z.of_nat (length corners) = corners_y_ cb * corners_x_ cb ->
  0 <= k <= 3 -> 0 <= j <= 3 ->
  exists by_k,
    ChessboardImpl.reorder_corners cb corners k = Some by_k /\
    ChessboardImpl.reorder_corners cb by_k j
    = ChessboardImpl.reorder_corners cb corners (Z.lxor k j).
Proof.
  intros Hr Hc Hfit Hlen Hk Hj.
  set (d := mkPoint2f F32.zero F32.zero).
  rewrite (reorder_corners_closed cb corners Hr Hc Hfit Hlen k d).
  rewrite (reorder_corners_closed cb corners Hr Hc Hfit Hlen (Z.lxor k j) d).
  eexists. split; [reflexivity|].
  rewrite (reorder_corners_closed cb _ Hr Hc Hfit) with (d := d)
    by (rewrite length_map, length_seq; nia).
  f_equal. apply map_ext_in. intros i Hi. apply in_seq in Hi.
  rewrite nth_map_seq by (apply reorder_index_lt; lia).
  now rewrite reorder_index_compose by lia.
Qed.

Lemma reorder_corners_compose_witness :
  (0 <= 2 /\ 0 <= 3 /\ 2 * 3 <= Int.INT_MAX /\
   Z.of_nat (length (Examples.grid 2 3 10 10 5 5)) = 2 * 3 /\
   0 <= 1 <= 3 /\ 0 <= 2 <= 3) /\
  exists by_k,
    ChessboardImpl.reorder_corners (mkChessboard 3 2 SQUARE_SIZE)
      (Examples.grid 2 3 10 10 5 5) 1 = Some by_k /\
    ChessboardImpl.reorder_corners (mkChessboard 3 2 SQUARE_SIZE) by_k 2
    = ChessboardImpl.reorder_corners (mkChessboard 3 2 SQUARE_SIZE)
        (Examples.grid 2 3 10 10 5 5) (Z.lxor 1 2).
Proof.
  split.
  - unfold Int.INT_MAX. simpl. lia.
  - apply (reorder_corners_compose (mkChessboard 3 2 SQUARE_SIZE)
             (Examples.grid 2 3 10 10 5 5) 1 2);
      unfold Int.INT_MAX; simpl; lia.
Defined.

(** X5. A corner list shorter than [rows*cols] makes [reorder_corners]
    read behind the end of the vector, whatever the index: the call has
    no defined result. *)
Theorem reorder_corners_too_short
    (cb : Chessboard) (corners : list Point2f) (k : Z) :
  0 <= corners_y_ cb -> 0 <= corners_x_ cb ->
  corners_y_ cb * corners_x_ cb <= Int.INT_MAX ->
  Z.of_nat (length corners) < corners_y_ cb * corners_x_ cb ->
  ChessboardImpl.reorder_corners cb corners k = None.
Proof.
  intros Hr Hc Hfit Hshort.
  exact (reorder_corners_short cb corners Hr Hc Hfit k Hshort).
Qed.

Lemma reorder_corners_too_short_witness :
  (0 <= 2 /\ 0 <= 3 /\ 2 * 3 <= Int.INT_MAX /\
   Z.of_nat (length (Examples.grid 1 3 10 10 5 5)) < 2 * 3) /\
  ChessboardImpl.reorder_corners (mkChessboard 3 2 SQUARE_SIZE)
    (Examples.grid 1 3 10 10 5 5) 0 = None.
Proof.
  split.
  - unfold Int.INT_MAX. simpl. lia.
  - apply (reorder_corners_too_short (mkChessboard 3 2 SQUARE_SIZE)
             (Examples.grid 1 3 10 10 5 5) 0);
      unfold Int.INT_MAX; simpl; lia.
Defined.

(** X6. Of a corner list longer than [rows*cols] only the first
    [rows*cols] entries are used: the result has [rows*cols] entries and
    is the reordering of that prefix; the surplus is dropped. *)
Theorem reorder_corners_drops_surplus
    (cb : Chessboard) (corners : list Point2f) (k : Z) :
  0 <= corners_y_ cb -> 0 <= corners_x_ cb ->
  corners_y_ cb * corners_x_ cb <= Int.INT_MAX ->
  corners_y_ cb * corners_x_ cb <= Z.of_nat (length corners) ->
  exists reordered,
    ChessboardImpl.reorder_corners cb corners k = Some reordered /\
    Z.of_nat (length reordered) = corners_y_ cb * corners_x_ cb /\
    ChessboardImpl.reorder_corners cb
      (firstn (Z.to_nat (corners_y_ cb * corners_x_ cb)) corners) k
    = Some reordered.
Proof.
  intros Hr Hc Hfit Hlong.
  set (d := mkPoint2f F32.zero F32.zero).
  set (N := (Z.to_nat (corners_y_ cb) * Z.to_nat (corners_x_ cb))%nat).
  assert (HN : Z.to_nat (corners_y_ cb * corners_x_ cb) = N) by (subst N; nia).
  rewrite (reorder_corners_closed_prefix cb corners Hr Hc Hfit k d Hlong).
  eexists. split; [reflexivity|]. split.
  - rewrite length_map, length_seq. nia.
  - rewrite (reorder_corners_closed_prefix cb _ Hr Hc Hfit k d)
      by (rewrite length_firstn; lia).
    f_equal. apply map_ext_in. intros i Hi. apply in_seq in Hi.
    rewrite HN.
    assert (Hlt : (reorder_index (Z.to_nat (corners_y_ cb))
                     (Z.to_nat (corners_x_ cb)) k i < N)%nat)
      by (apply reorder_index_lt; lia).
    rewrite <- (firstn_skipn N corners) at 2.
    rewrite app_nth1 by (rewrite length_firstn; lia). reflexivity.
Qed.

Lemma reorder_corners_drops_surplus_witness :
  (0 <= 2 /\ 0 <= 3 /\ 2 * 3 <= Int.INT_MAX /\
   2 * 3 <= Z.of_nat (length (Examples.grid 3 3 10 10 5 5))) /\
  exists reordered,
    ChessboardImpl.reorder_corners (mkChessboard 3 2 SQUARE_SIZE)
      (Examples.grid 3 3 10 10 5 5) 1 = Some reordered /\
    Z.of_nat (length reordered) = 2 * 3 /\
    ChessboardImpl.reorder_corners (mkChessboard 3 2 SQUARE_SIZE)
      (firstn (Z.to_nat (2 * 3)) (Examples.grid 3 3 10 10 5 5)) 1
    = Some reordered.
Proof.
  split.
  - unfold Int.INT_MAX. simpl. lia.
  - apply (reorder_corners_drops_surplus (mkChessboard 3 2 SQUARE_SIZE)
             (Examples.grid 3 3 10 10 5 5) 1);
      unfold Int.INT_MAX; simpl; lia.
Defined.

(** ** [find_a1_index] and [find_a1_candidates] *)

(** On a board with at least one row and one column and a full grid of
    corners, the four extreme corners exist. *)
Lemma outer_square_centers_full_grid (rows cols : Z) (corners : list Point2f) :
  1 <= rows -> 1 <= cols -> rows * cols <= Int.INT_MAX ->
  Z.of_nat (length corners) = rows * cols ->
  exists p0 p1 p2 p3,
    outer_square_centers rows cols corners = Some [p0; p1; p2; p3].
Proof.
  intros Hr Hc Hfit Hlen. unfold outer_square_centers.
  unfold Int.INT_MAX in Hfit.
  unfold Int.sub, Int.mul. unwrap_ints.
  destruct (vec_at_some corners 0) as [tl ->]; [nia|].
  destruct (vec_at_some corners (cols - 1)) as [tr ->]; [nia|].
  destruct (vec_at_some corners ((rows - 1) * cols)) as [bl ->]; [nia|].
  destruct (vec_at_some corners (rows * cols - 1)) as [br ->]; [nia|].
  now eexists _, _, _, _.
Qed.

Section DarkestScan.

Context {cv : OpenCV}.
Variable gray : Mat.

(** The scan keeps the first sampled square that no sampled square is
    strictly darker than. *)
Lemma darkest_scan_facts (st : Z * double) (ips : list (Z * Point2f)) :
  (forall ip, In ip ips -> outside_image gray (snd ip) = false ->
     F64.ltb (outer_square_brightness gray (snd ip))
             (snd (darkest_scan gray st ips)) = false) /\
  (forall x, F64.ltb x (snd (darkest_scan gray st ips)) = true ->
     F64.ltb x (snd st) = true) /\
  (darkest_scan gray st ips = st \/
   exists pre i p post,
     ips = pre ++ (i, p) :: post /\
     darkest_scan gray st ips = (i, outer_square_brightness gray p) /\
     outside_image gray p = false /\
     F64.ltb (outer_square_brightness gray p) (snd st) = true /\
     forall ip, In ip pre -> outside_image gray (snd ip) = false ->
       F64.eqb (outer_square_brightness gray (snd ip))
               (outer_square_brightness gray p) = false).
Proof.
  induction ips as [|[i p] ips IH] using rev_ind.
  - split; [|split].
    + intros ip [].
    + trivial.
    + now left.
  - destruct IH as (Hmin & Hdown & Hwho).
    unfold darkest_scan in *. rewrite fold_left_app. cbn [fold_left fst snd].
    set (st1 := fold_left _ ips st) in *.
    destruct (outside_image gray p) eqn:Hout;
      [|destruct (F64.ltb (outer_square_brightness gray p) (snd st1)) eqn:Hlt].
    + (* not sampled *)
      split; [|split].
      * intros ip Hin Hins. apply in_app_or in Hin. destruct Hin as [Hin|[<-|[]]].
        -- now apply Hmin.
        -- simpl in Hins. congruence.
      * exact Hdown.
      * destruct Hwho as [Hsame | (pre & i' & p' & post & -> & Hb & Hrest)].
        -- now left.
        -- right. exists pre, i', p', (post ++ [(i, p)]).
           rewrite <- app_assoc. simpl. now split.
    + (* strictly darker: taken *)
      cbn [snd].
      split; [|split].
      * intros ip Hin Hins. apply in_app_or in Hin. destruct Hin as [Hin|[<-|[]]].
        -- destruct (F64.ltb (outer_square_brightness gray (snd ip))
                             (outer_square_brightness gray p)) eqn:Hc;
             [|reflexivity].
           rewrite <- (Hmin ip Hin Hins). symmetry.
           now apply (ltb_trans _ (outer_square_brightness gray p)).
        -- apply ltb_irrefl.
      * intros x Hx. apply Hdown.
        now apply (ltb_trans _ (outer_square_brightness gray p)).
      * right. exists ips, i, p, []. repeat split; try assumption.
        -- now apply Hdown.
        -- intros ip Hin Hins.
           destruct (F64.eqb (outer_square_brightness gray (snd ip))
                             (outer_square_brightness gray p)) eqn:Heq;
             [|reflexivity].
           rewrite <- (Hmin ip Hin Hins). symmetry.
           now apply (eqb_ltb _ (outer_square_brightness gray p)).
    + (* sampled, not strictly darker *)
      split; [|split].
      * intros ip Hin Hins. apply in_app_or in Hin. destruct Hin as [Hin|[<-|[]]].
        -- now apply Hmin.
        -- exact Hlt.
      * exact Hdown.
      * destruct Hwho as [Hsame | (pre & i' & p' & post & -> & Hb & Hrest)].
        -- now left.
        -- right. exists pre, i', p', (post ++ [(i, p)]).
           rewrite <- app_assoc. simpl. now split.
Qed.

(** [min_val] is the same in [find_a1_index] and [find_a1_candidates]. *)
Lemma darkest_scan_min (ips : list (Z * Point2f)) :
  forall st,
    snd (darkest_scan gray st ips)
    = fold_left (fun min_val pt =>
                   if outside_image gray pt then min_val
                   else if F64.ltb (outer_square_brightness gray pt) min_val
                        then outer_square_brightness gray pt else min_val)
                (map snd ips) (snd st).
Proof.
  induction ips as [|[i p] ips IH]; intro st; [reflexivity|].
  unfold darkest_scan in *. cbn [fold_left map fst snd]. rewrite IH.
  destruct (outside_image gray p); [reflexivity|].
  now destruct (F64.ltb (outer_square_brightness gray p) (snd st)).
Qed.

(** What [find_a1_index] returns in general. *)
Lemma find_a1_index_closed (cb : Chessboard) (corners : list Point2f)
    (p0 p1 p2 p3 : Point2f) :
  outer_square_centers (corners_y_ cb) (corners_x_ cb) corners
  = Some [p0; p1; p2; p3] ->
  ChessboardImpl.find_a1_index cb gray corners
  = Some (fst (darkest_scan gray (-1, d_1e6)
                 [(0, p0); (1, p1); (2, p2); (3, p3)])).
Proof.
  intro Houter. unfold ChessboardImpl.find_a1_index, darkest_scan.
  rewrite Houter, for_lt_4. cbv beta.
  change (vec_at [p0; p1; p2; p3] 0) with (Some p0).
  change (vec_at [p0; p1; p2; p3] 1) with (Some p1).
  change (vec_at [p0; p1; p2; p3] 2) with (Some p2).
  change (vec_at [p0; p1; p2; p3] 3) with (Some p3).
  cbn [fold_left fst snd]. cbv beta iota.
  destruct (outside_image gray p0);
    [|destruct (F64.ltb (outer_square_brightness gray p0) d_1e6)];
    cbv beta iota; cbn [fst snd];
    (destruct (outside_image gray p1);
     [|match goal with
       | |- context [F64.ltb (outer_square_brightness gray p1) ?m] =>
           destruct (F64.ltb (outer_square_brightness gray p1) m)
       end]);
    cbv beta iota; cbn [fst snd];
    (destruct (outside_image gray p2);
     [|match goal with
       | |- context [F64.ltb (outer_square_brightness gray p2) ?m] =>
           destruct (F64.ltb (outer_square_brightness gray p2) m)
       end]);
    cbv beta iota; cbn [fst snd];
    (destruct (outside_image gray p3);
     [|match goal with
       | |- context [F64.ltb (outer_square_brightness gray p3) ?m] =>
           destruct (F64.ltb (outer_square_brightness gray p3) m)
       end]);
    reflexivity.
Qed.

End DarkestScan.

Lemma four_squares_split (p0 p1 p2 p3 p : Point2f) (i : Z)
    (pre post : list (Z * Point2f)) :
  [(0, p0); (1, p1); (2, p2); (3, p3)] = pre ++ (i, p) :: post ->
  In i [0; 1; 2; 3] /\
  forall jq, In jq [(0, p0); (1, p1); (2, p2); (3, p3)] ->
    In jq pre \/ i <= fst jq.
Proof.
  destruct pre as [|x0 [|x1 [|x2 [|x3 pre]]]]; simpl; intro H;
    injection H; intros; subst.
  5: { exfalso. eapply app_cons_not_nil. eassumption. }
  all: split; [simpl; tauto|].
  all: intros jq [<-|[<-|[<-|[<-|[]]]]]; simpl; solve [right; lia | left; tauto].
Qed.

(** X7. On a full grid, [find_a1_index] returns -1 exactly when no outer
    square inside the image has a brightness below 1e6; otherwise it
    returns the index of a square inside the image such that no square
    inside the image is strictly darker, and among equally dark ones the
    lowest index. *)
Theorem find_a1_index_darkest {cv : OpenCV}
    (cb : Chessboard) (gray : Mat) (corners : list Point2f) :
  1 <= corners_y_ cb -> 1 <= corners_x_ cb ->
  corners_y_ cb * corners_x_ cb <= Int.INT_MAX ->
  Z.of_nat (length corners) = corners_y_ cb * corners_x_ cb ->
  exists p0 p1 p2 p3 r,
    let squares := [(0, p0); (1, p1); (2, p2); (3, p3)] in
    outer_square_centers (corners_y_ cb) (corners_x_ cb) corners
    = Some [p0; p1; p2; p3] /\
    ChessboardImpl.find_a1_index cb gray corners = Some r /\
    (r = -1 <->
     forall jq, In jq squares -> outside_image gray (snd jq) = false ->
       F64.ltb (outer_square_brightness gray (snd jq)) d_1e6 = false) /\
    (r <> -1 ->
     exists p,
       In (r, p) squares /\
       outside_image gray p = false /\
       forall jq, In jq squares -> outside_image gray (snd jq) = false ->
         F64.ltb (outer_square_brightness gray (snd jq))
                 (outer_square_brightness gray p) = false /\
         (F64.eqb (outer_square_brightness gray (snd jq))
                  (outer_square_brightness gray p) = true -> r <= fst jq)).
Proof.
  intros Hr Hc Hfit Hlen.
  destruct (outer_square_centers_full_grid _ _ corners Hr Hc Hfit Hlen)
    as (p0 & p1 & p2 & p3 & Houter).
  exists p0, p1, p2, p3. eexists. cbv zeta.
  split; [exact Houter|].
  split; [exact (find_a1_index_closed gray cb corners p0 p1 p2 p3 Houter)|].
  set (squares := [(0, p0); (1, p1); (2, p2); (3, p3)]).
  destruct (darkest_scan_facts gray (-1, d_1e6) squares) as (Hmin & _ & Hwho).
  cbn [snd] in Hwho.
  split; [split|].
  - intros Hm1 jq Hin Hins.
    destruct Hwho as [Hsame | (pre & i & p & post & Hsplit & Hsel & _)].
    + rewrite <- (Hmin jq Hin Hins), Hsame. reflexivity.
    + destruct (four_squares_split _ _ _ _ _ _ _ _ Hsplit) as [Hi _].
      rewrite Hsel in Hm1. cbn [fst] in Hm1. subst i. simpl in Hi. lia.
  - intro Hno.
    destruct Hwho as [-> | (pre & i & p & post & Hsplit & _ & Hins & Hlt & _)];
      [reflexivity|].
    assert (Hin : In (i, p) squares) by (rewrite Hsplit; apply in_elt).
    specialize (Hno (i, p) Hin Hins). cbn [snd] in Hno.
    rewrite Hno in Hlt. discriminate.
  - intro Hsome.
    destruct Hwho as [Hsame | (pre & i & p & post & Hsplit & Hsel & Hins & Hlt & Htie)];
      [now rewrite Hsame in Hsome|].
    assert (Hin : In (i, p) squares) by (rewrite Hsplit; apply in_elt).
    rewrite Hsel. cbn [fst]. exists p.
    split; [exact Hin|]. split; [exact Hins|].
    intros jq Hjq Hjins. split.
    + rewrite <- (Hmin jq Hjq Hjins), Hsel. reflexivity.
    + intro Heq.
      destruct (four_squares_split _ _ _ _ _ _ _ _ Hsplit) as [_ Hord].
      destruct (Hord jq Hjq) as [Hpre | Hge]; [|exact Hge].
      rewrite (Htie jq Hpre Hjins) in Heq. discriminate.
Qed.

Lemma find_a1_index_darkest_witness :
  (1 <= 7 /\ 1 <= 7 /\ 7 * 7 <= Int.INT_MAX /\
   Z.of_nat (length (Examples.grid 7 7 100 100 50 50)) = 7 * 7) /\
  exists p0 p1 p2 p3 r,
    let squares := [(0, p0); (1, p1); (2, p2); (3, p3)] in
    outer_square_centers 7 7 (Examples.grid 7 7 100 100 50 50)
    = Some [p0; p1; p2; p3] /\
    ChessboardImpl.find_a1_index (H := Examples.cv_project_grid) detector
      Examples.image_640x480 (Examples.grid 7 7 100 100 50 50) = Some r /\
    (r = -1 <->
     forall jq, In jq squares ->
       outside_image Examples.image_640x480 (snd jq) = false ->
       F64.ltb (outer_square_brightness (H := Examples.cv_project_grid)
                  Examples.image_640x480 (snd jq)) d_1e6 = false) /\
    (r <> -1 ->
     exists p,
       In (r, p) squares /\
       outside_image Examples.image_640x480 p = false /\
       forall jq, In jq squares ->
         outside_image Examples.image_640x480 (snd jq) = false ->
         F64.ltb (outer_square_brightness (H := Examples.cv_project_grid)
                    Examples.image_640x480 (snd jq))
                 (outer_square_brightness (H := Examples.cv_project_grid)
                    Examples.image_640x480 p) = false /\
         (F64.eqb (outer_square_brightness (H := Examples.cv_project_grid)
                     Examples.image_640x480 (snd jq))
                  (outer_square_brightness (H := Examples.cv_project_grid)
                     Examples.image_640x480 p) = true -> r <= fst jq)).
Proof.
  split.
  - unfold Int.INT_MAX. simpl. lia.
  - apply (find_a1_index_darkest (cv := Examples.cv_project_grid) detector
             Examples.image_640x480 (Examples.grid 7 7 100 100 50 50));
      first [reflexivity | cbv; discriminate].
Defined.

(** X8. On a full grid, [find_a1_candidates] returns indices between 0
    and 3 in strictly increasing order, so none twice. *)
Theorem find_a1_candidates_increasing {cv : OpenCV}
    (cb : Chessboard) (gray : Mat) (corners : list Point2f) :
  1 <= corners_y_ cb -> 1 <= corners_x_ cb ->
  corners_y_ cb * corners_x_ cb <= Int.INT_MAX ->
  Z.of_nat (length corners) = corners_y_ cb * corners_x_ cb ->
  exists candidates,
    ChessboardImpl.find_a1_candidates cb gray corners = Some candidates /\
    StronglySorted Z.lt candidates /\
    forall i, In i candidates -> 0 <= i <= 3.
Proof.
  intros Hr Hc Hfit Hlen.
  destruct (outer_square_centers_full_grid _ _ corners Hr Hc Hfit Hlen)
    as (p0 & p1 & p2 & p3 & Houter).
  rewrite (find_a1_candidates_closed cb gray corners p0 p1 p2 p3 Houter).
  eexists. split; [reflexivity|].
  cbn [filter snd].
  repeat match goal with
         | |- context [F64.ltb ?a (F64.add ?m d_10)] =>
             destruct (F64.ltb a (F64.add m d_10))
         end;
    cbn [map fst]; (split; [repeat constructor; lia | simpl; intros i Hi; lia]).
Qed.

Lemma find_a1_candidates_increasing_witness :
  (1 <= 7 /\ 1 <= 7 /\ 7 * 7 <= Int.INT_MAX /\
   Z.of_nat (length (Examples.grid 7 7 100 100 50 50)) = 7 * 7) /\
  exists candidates,
    ChessboardImpl.find_a1_candidates (H := Examples.cv_project_grid) detector
      Examples.image_640x480 (Examples.grid 7 7 100 100 50 50)
    = Some candidates /\
    StronglySorted Z.lt candidates /\
    forall i, In i candidates -> 0 <= i <= 3.
Proof.
  split.
  - unfold Int.INT_MAX. simpl. lia.
  - apply (find_a1_candidates_increasing (cv := Examples.cv_project_grid)
             detector Examples.image_640x480 (Examples.grid 7 7 100 100 50 50));
      first [reflexivity | cbv; discriminate].
Defined.

(** X9. When every region mean [m] satisfies [m < m + 10.0] in [double]
    (as every finite mean of ordinary size does, an 8-bit one in
    particular), the index that [find_a1_index] returns, unless it is -1,
    is among the candidates of [find_a1_candidates]. *)
Theorem find_a1_index_is_candidate {cv : OpenCV}
    (cb : Chessboard) (gray : Mat) (corners : list Point2f) :
  1 <= corners_y_ cb -> 1 <= corners_x_ cb ->
  corners_y_ cb * corners_x_ cb <= Int.INT_MAX ->
  Z.of_nat (length corners) = corners_y_ cb * corners_x_ cb ->
  (forall g org, F64.ltb (roi_mean g org) (F64.add (roi_mean g org) d_10) = true) ->
  exists candidates r,
    ChessboardImpl.find_a1_candidates cb gray corners = Some candidates /\
    ChessboardImpl.find_a1_index cb gray corners = Some r /\
    (r <> -1 -> In r candidates).
Proof.
  intros Hr Hc Hfit Hlen Hmean.
  destruct (outer_square_centers_full_grid _ _ corners Hr Hc Hfit Hlen)
    as (p0 & p1 & p2 & p3 & Houter).
  rewrite (find_a1_candidates_closed cb gray corners p0 p1 p2 p3 Houter).
  rewrite (find_a1_index_closed gray cb corners p0 p1 p2 p3 Houter).
  eexists _, _. split; [reflexivity|]. split; [reflexivity|].
  set (squares := [(0, p0); (1, p1); (2, p2); (3, p3)]).
  intro Hsome.
  destruct (darkest_scan_facts gray (-1, d_1e6) squares)
    as (_ & _ & [Hsame | (pre & i & p & post & Hsplit & Hsel & Hins & _)]);
    [now rewrite Hsame in Hsome|].
  rewrite Hsel. cbn [fst].
  change i with (fst (i, p)). apply in_map. apply filter_In. split.
  - rewrite Hsplit. apply in_elt.
  - cbn [snd]. unfold sampled_or_sentinel. rewrite Hins.
    unfold darkest_sampled.
    change [p0; p1; p2; p3] with (map snd squares).
    change d_1e6 with (snd (-1, d_1e6)) at 1.
    rewrite <- (darkest_scan_min gray squares (-1, d_1e6)), Hsel. cbn [snd].
    apply Hmean.
Qed.

Lemma find_a1_index_is_candidate_witness :
  (1 <= 7 /\ 1 <= 7 /\ 7 * 7 <= Int.INT_MAX /\
   Z.of_nat (length (Examples.grid 7 7 100 100 50 50)) = 7 * 7 /\
   (forall g org,
      F64.ltb (roi_mean (OpenCV := Examples.cv_project_grid) g org)
              (F64.add (roi_mean (OpenCV := Examples.cv_project_grid) g org)
                       d_10) = true)) /\
  exists candidates r,
    ChessboardImpl.find_a1_candidates (H := Examples.cv_project_grid) detector
      Examples.image_640x480 (Examples.grid 7 7 100 100 50 50)
    = Some candidates /\
    ChessboardImpl.find_a1_index (H := Examples.cv_project_grid) detector
      Examples.image_640x480 (Examples.grid 7 7 100 100 50 50) = Some r /\
    (r <> -1 -> In r candidates).
Proof.
  assert (Hmean : forall g org,
      F64.ltb (roi_mean (OpenCV := Examples.cv_project_grid) g org)
              (F64.add (roi_mean (OpenCV := Examples.cv_project_grid) g org)
                       d_10) = true).
  { intros g org. cbn [roi_mean Examples.cv_project_grid Examples.cv_project_onto].
    destruct (F32.ltb (p2x org) (F32.of_int 320)); reflexivity. }
  split.
  - repeat split; try exact Hmean; unfold Int.INT_MAX; simpl; lia.
  - apply (find_a1_index_is_candidate (cv := Examples.cv_project_grid)
             detector Examples.image_640x480 (Examples.grid 7 7 100 100 50 50));
      first [exact Hmean | reflexivity | cbv; discriminate].
Defined.

(** ** An accepted frame *)

Lemma reorder_index_backwards (R C : nat) (k : Z) (i : nat) :
  k <> 0 -> k <> 1 -> k <> 2 -> (i < R * C)%nat ->
  reorder_index R C k i = (R * C - 1 - i)%nat.
Proof.
  intros H0 H1 H2 Hi.
  unfold reorder_index, forwards_x, forwards_y, flip.
  destruct (Z.eqb_spec k 0); [contradiction|].
  destruct (Z.eqb_spec k 1); [contradiction|].
  destruct (Z.eqb_spec k 2); [contradiction|]. simpl.
  assert (HC : (0 < C)%nat) by nia.
  assert (Hy : (i / C < R)%nat) by (apply Nat.Div0.div_lt_upper_bound; lia).
  assert (Hx : (i mod C < C)%nat) by (apply Nat.mod_upper_bound; lia).
  pose proof (Nat.div_mod_eq i C). nia.
Qed.

(** Reordering by [k] and then by [3 - k] reverses the list; the first
    step permutes it. *)
Lemma reorder_then_complement (cb : Chessboard) (corners : list Point2f) (k : Z) :
  0 <= corners_y_ cb -> 0 <= corners_x_ cb ->
  corners_y_ cb * corners_x_ cb <= Int.INT_MAX ->
  Z.of_nat (length corners) = corners_y_ cb * corners_x_ cb ->
  0 <= k <= 3 ->
  exists by_k,
    ChessboardImpl.reorder_corners cb corners k = Some by_k /\
    Permutation corners by_k /\
    ChessboardImpl.reorder_corners cb by_k (Int.sub 3 k) = Some (rev corners).
Proof.
  intros Hr Hc Hfit Hlen Hk.
  set (d := mkPoint2f F32.zero F32.zero).
  set (R := Z.to_nat (corners_y_ cb)). set (C := Z.to_nat (corners_x_ cb)).
  assert (HN : length corners = (R * C)%nat) by (subst R C; nia).
  rewrite (reorder_corners_closed cb corners Hr Hc Hfit Hlen k d).
  fold R C. eexists. split; [reflexivity|]. split.
  - rewrite <- (map_nth_seq corners d) at 1.
    rewrite <- (map_map (reorder_index R C k) (fun j => nth j corners d)).
    apply Permutation_map. symmetry. rewrite HN.
    apply reorder_index_permutes.
  - assert (Hsub : Int.sub 3 k = 3 - k).
    { unfold Int.sub. apply wrap_in_range.
      unfold Int.in_range, Int.INT_MIN, Int.INT_MAX. lia. }
    rewrite Hsub.
    rewrite (reorder_corners_closed cb _ Hr Hc Hfit) with (d := d)
      by (rewrite length_map, length_seq; nia).
    fold R C. f_equal.
    transitivity (map (fun i => nth i (rev corners) d)
                      (seq 0 (length (rev corners))));
      [| apply map_nth_seq].
    rewrite length_rev, HN. apply map_ext_in. intros i Hi. apply in_seq in Hi.
    rewrite nth_map_seq by (apply reorder_index_lt; lia).
    rewrite reorder_index_compose by lia.
    rewrite rev_nth by lia. f_equal. rewrite HN.
    rewrite reorder_index_backwards; try lia.
    all: assert (Hk' : k = 0 \/ k = 1 \/ k = 2 \/ k = 3) by lia;
      destruct Hk' as [->|[->|[->| ->]]]; cbv; discriminate.
Qed.

Lemma outer_vals_closed {cv : OpenCV} (gray : Mat) (p0 p1 p2 p3 : Point2f) :
  for_lt 4 (fun i vals =>
      match vec_at [p0; p1; p2; p3] i with
      | None => None
      | Some pt =>
          if outside_image gray pt then Some vals
          else vec_set vals i (outer_square_brightness gray pt)
      end) (repeat d_1e6 4)
  = Some (map (sampled_or_sentinel gray) [p0; p1; p2; p3]).
Proof.
  rewrite for_lt_4. cbv beta. unfold sampled_or_sentinel. cbn [map].
  change (vec_at [p0; p1; p2; p3] 0) with (Some p0).
  change (vec_at [p0; p1; p2; p3] 1) with (Some p1).
  change (vec_at [p0; p1; p2; p3] 2) with (Some p2).
  change (vec_at [p0; p1; p2; p3] 3) with (Some p3).
  change (repeat d_1e6 4) with [d_1e6; d_1e6; d_1e6; d_1e6].
  cbv beta iota.
  destruct (outside_image gray p0), (outside_image gray p1),
           (outside_image gray p2), (outside_image gray p3);
    rewrite ?vec_set_0; cbv iota; rewrite ?vec_set_1; cbv iota;
    rewrite ?vec_set_2; cbv iota; rewrite ?vec_set_3; reflexivity.
Qed.

(** X10. [find_best_pose] hands back four brightness values: for each
    outer square its region mean when the square lies inside the image,
    and 1e6 otherwise, the same values [find_a1_candidates] compares. *)
Theorem find_best_pose_outer_vals {cv : OpenCV}
    (verbose_debug : bool) (corners : list Point2f) (frame gray : Mat) :
  opencv_contract cv ->
  Z.of_nat (length corners) = CORNERS_Y * CORNERS_X ->
  exists found p0 p1 p2 p3,
    find_best_pose verbose_debug corners frame gray = Some found /\
    outer_square_centers CORNERS_Y CORNERS_X corners = Some [p0; p1; p2; p3] /\
    outer_vals found = map (sampled_or_sentinel gray) [p0; p1; p2; p3].
Proof.
  intros Hcontract Hlen.
  destruct (find_best_pose_closed corners frame Hcontract Hlen)
    as (c0 & c1 & c2 & c3 & _ & Hrun).
  destruct (Hrun verbose_debug gray) as (vals & Hfound & _).
  destruct (outer_square_centers_detected corners Hlen)
    as (p0 & p1 & p2 & p3 & Houter).
  eexists. exists p0, p1, p2, p3.
  split; [exact Hfound|]. split; [exact Houter|].
  revert Hfound. unfold find_best_pose.
  rewrite Houter, outer_vals_closed.
  destruct (candidate_loop _ _ _ _ _ _) as [[b lg]|]; [|discriminate].
  intro H. injection H as <- _ _. reflexivity.
Qed.

Lemma find_best_pose_outer_vals_witness :
  (opencv_contract Examples.cv_project_grid /\
   Z.of_nat (length (Examples.grid 7 7 100 100 50 50)) = CORNERS_Y * CORNERS_X) /\
  exists found p0 p1 p2 p3,
    find_best_pose (H := Examples.cv_project_grid) false
      (Examples.grid 7 7 100 100 50 50)
      Examples.image_640x480 Examples.image_640x480 = Some found /\
    outer_square_centers CORNERS_Y CORNERS_X (Examples.grid 7 7 100 100 50 50)
    = Some [p0; p1; p2; p3] /\
    outer_vals found
    = map (sampled_or_sentinel (H := Examples.cv_project_grid)
             Examples.image_640x480) [p0; p1; p2; p3].
Proof.
  split.
  - split; [exact cv_project_grid_contract | reflexivity].
  - apply (find_best_pose_outer_vals (cv := Examples.cv_project_grid) false
             (Examples.grid 7 7 100 100 50 50)
             Examples.image_640x480 Examples.image_640x480).
    + exact cv_project_grid_contract.
    + reflexivity.
Defined.

(** X11. When [find_best_pose] selects a rotation, the frame is accepted:
    the calibrator receives exactly one sample, made of the detected
    corners reordered by the selected rotation (a permutation of the
    detected corners) and of the 49 model points; and the stored H8 order
    is the detected corner list reversed, whichever rotation was
    selected. *)
Theorem use_detected_corners_accepts {cv : OpenCV}
    (verbose_debug : bool) (s : Session) (corners : list Point2f)
    (frame gray : Mat) :
  opencv_contract cv ->
  Z.of_nat (length corners) = CORNERS_Y * CORNERS_X ->
  exists found,
    find_best_pose verbose_debug corners frame gray = Some found /\
    (best_a1 (best found) <> -1 ->
     ChessboardImpl.reorder_corners detector corners (best_a1 (best found))
     = Some (best_corners (best found)) /\
     Permutation corners (best_corners (best found)) /\
     use_detected_corners verbose_debug s corners frame gray
     = Some (mkSession
               (CalibratorImpl.add_sample (calibrator s)
                  (best_corners (best found))
                  (ChessboardImpl.generate_object_points detector))
               (all_frame_corners s
                ++ [mkFrameCorners (best_corners (best found)) (rev corners)])
               (Int.sub (Int.wrap (Z.of_nat (length (all_frame_corners s) + 1))) 1),
             true)).
Proof.
  intros Hcontract Hlen.
  destruct (find_best_pose_closed corners frame Hcontract Hlen)
    as (c0 & c1 & c2 & c3 & Hall & Hrun).
  cbv zeta in Hall, Hrun.
  destruct (Hrun verbose_debug gray) as (vals & Hfound & _).
  eexists. split; [exact Hfound|]. cbn [best].
  intro Hsome.
  destruct (select_facts no_best [(0, c0); (1, c1); (2, c2); (3, c3)])
    as (_ & _ & [Hsame | (pre & k & c & post & Hsplit & Hsel & _)]);
    [now rewrite Hsame in Hsome|].
  destruct (four_candidates_split _ _ _ _ _ _ _ _ Hsplit) as [Hk _].
  assert (Hin : In (k, c) [(0, c0); (1, c1); (2, c2); (3, c3)])
    by (rewrite Hsplit; apply in_elt).
  destruct (Hall _ Hin) as (_ & Hof & _). cbn [fst snd] in Hof.
  destruct Hof as (Hreorder & _).
  assert (Hk' : 0 <= k <= 3) by (simpl in Hk; lia).
  assert (Hrows : 0 <= corners_y_ detector) by (cbv; discriminate).
  assert (Hcols : 0 <= corners_x_ detector) by (cbv; discriminate).
  assert (Hfit : corners_y_ detector * corners_x_ detector <= Int.INT_MAX)
    by (cbv; discriminate).
  destruct (reorder_then_complement detector corners k Hrows Hcols Hfit Hlen Hk')
    as (by_k & Hby & Hperm & Hh8).
  rewrite Hreorder in Hby. injection Hby as <-.
  unfold use_detected_corners. rewrite Hfound. cbn [best].
  rewrite Hsel in Hsome |- *. cbn [best_of best_a1 best_corners] in Hsome |- *.
  destruct (Z.eqb_spec k (-1)); [contradiction|].
  rewrite Hh8, length_app. cbn [length].
  split; [exact Hreorder|]. split; [exact Hperm|]. reflexivity.
Qed.

Lemma use_detected_corners_accepts_witness :
  (opencv_contract Examples.cv_project_grid /\
   Z.of_nat (length (Examples.grid 7 7 100 100 50 50)) = CORNERS_Y * CORNERS_X) /\
  exists found,
    find_best_pose (H := Examples.cv_project_grid) false
      (Examples.grid 7 7 100 100 50 50)
      Examples.image_640x480 Examples.image_640x480 = Some found /\
    (best_a1 (best found) <> -1 ->
     ChessboardImpl.reorder_corners detector (Examples.grid 7 7 100 100 50 50)
       (best_a1 (best found))
     = Some (best_corners (best found)) /\
     Permutation (Examples.grid 7 7 100 100 50 50) (best_corners (best found)) /\
     use_detected_corners (H := Examples.cv_project_grid) false
       (mkSession CalibratorImpl.new [] (-1))
       (Examples.grid 7 7 100 100 50 50)
       Examples.image_640x480 Examples.image_640x480
     = Some (mkSession
               (CalibratorImpl.add_sample CalibratorImpl.new
                  (best_corners (best found))
                  (ChessboardImpl.generate_object_points detector))
               ([] ++ [mkFrameCorners (best_corners (best found))
                         (rev (Examples.grid 7 7 100 100 50 50))])
               (Int.sub (Int.wrap (Z.of_nat (length (@nil FrameCorners) + 1))) 1),
             true)).
Proof.
  split.
  - split; [exact cv_project_grid_contract | reflexivity].
  - apply (use_detected_corners_accepts (cv := Examples.cv_project_grid) false
             (mkSession CalibratorImpl.new [] (-1))
             (Examples.grid 7 7 100 100 50 50)
             Examples.image_640x480 Examples.image_640x480).
    + exact cv_project_grid_contract.
    + reflexivity.
Defined.

(** ** [Utils::is_blurred] *)

Lemma camera_threshold_below : F64.ltb BLUR_THRESHOLD_CAMERA BLUR_THRESHOLD = true.
Proof. reflexivity. Qed.

(** X12. The camera threshold is the more lenient one: a frame judged
    blurred for camera input is judged blurred for still input too (and
    so a frame sharp enough for still input is sharp enough for the
    camera). *)
Theorem is_blurred_camera_lenient {ip : Imgproc} (gray : Mat) :
  Utils.is_blurred gray true = true -> Utils.is_blurred gray false = true.
Proof.
  unfold Utils.is_blurred. intro Hcam.
  exact (ltb_trans _ _ _ Hcam camera_threshold_below).
Qed.

Lemma is_blurred_camera_lenient_witness :
  Utils.is_blurred (H := MoreExamples.img_with_stddev 5)
    Examples.image_640x480 true = true /\
  Utils.is_blurred (H := MoreExamples.img_with_stddev 5)
    Examples.image_640x480 false = true.
Proof.
  split; [reflexivity|].
  apply (is_blurred_camera_lenient (ip := MoreExamples.img_with_stddev 5)
           Examples.image_640x480).
  reflexivity.
Defined.

(** A variance of 81 is blurred for still input only. *)
Example is_blurred_between_thresholds :
  Utils.is_blurred (H := MoreExamples.img_with_stddev 9)
    Examples.image_640x480 false = true /\
  Utils.is_blurred (H := MoreExamples.img_with_stddev 9)
    Examples.image_640x480 true = false.
Proof. split; reflexivity. Qed.

(** ** [ImageSequenceLoader] *)

Lemma skipn_at {A : Type} (l : list A) :
  forall (i : nat) (a : A),
    nth_error l i = Some a -> skipn i l = a :: skipn (S i) l.
Proof.
  induction l as [|h t IH]; intros [|i] a H; simpl in *; try discriminate.
  - now injection H as ->.
  - now apply IH.
Qed.

Section SequenceLoader.

Context {fs : FileSystem}.

Lemma next_frames_from (n : nat) :
  forall (l : ImageSequenceLoader) (frame : Mat),
    (current_idx_ l <= length (filenames_ l))%nat ->
    fst (ImageSequenceLoaderImpl.next_frames n l frame)
    = map decodes (firstn n (skipn (current_idx_ l) (filenames_ l)))
      ++ repeat false (n - (length (filenames_ l) - current_idx_ l)) /\
    snd (ImageSequenceLoaderImpl.next_frames n l frame)
    = mkImageSequenceLoader (filenames_ l)
        (Nat.min (current_idx_ l + n) (length (filenames_ l))) (frame_size_ l).
Proof.
  induction n as [|n IH]; intros l frame Hidx.
  - simpl. rewrite Nat.add_0_r, Nat.min_l by exact Hidx. now destruct l.
  - cbn [ImageSequenceLoaderImpl.next_frames].
    unfold ImageSequenceLoaderImpl.next_frame.
    destruct (nth_error (filenames_ l) (current_idx_ l)) as [f|] eqn:Hf.
    + assert (Hlt : (current_idx_ l < length (filenames_ l))%nat)
        by (apply nth_error_Some; congruence).
      specialize (IH (mkImageSequenceLoader (filenames_ l) (S (current_idx_ l))
                        (frame_size_ l)) (imread f)).
      cbn [filenames_ current_idx_ frame_size_] in IH.
      destruct (ImageSequenceLoaderImpl.next_frames n _ _) as [oks l'].
      cbn [fst snd] in *. destruct (IH ltac:(lia)) as [-> ->].
      split.
      * rewrite (skipn_at _ _ _ Hf). cbn [firstn map app]. unfold decodes at 2.
        replace (S n - (length (filenames_ l) - current_idx_ l))%nat
          with (n - (length (filenames_ l) - S (current_idx_ l)))%nat by lia.
        reflexivity.
      * f_equal. lia.
    + assert (Hge : (length (filenames_ l) <= current_idx_ l)%nat)
        by (apply nth_error_None; exact Hf).
      specialize (IH l frame Hidx).
      destruct (ImageSequenceLoaderImpl.next_frames n l frame) as [oks l'].
      cbn [fst snd] in *. destruct IH as [-> ->].
      rewrite skipn_all2 by exact Hge. rewrite !firstn_nil. cbn [map app].
      split.
      * replace (length (filenames_ l) - current_idx_ l)%nat with 0%nat by lia.
        rewrite !Nat.sub_0_r. reflexivity.
      * f_equal. lia.
Qed.

(** X13. Every file of the sorted sequence is read at most once and in
    order: [n] calls of [next_frame] on a new loader read the first [n]
    files (a call returns [true] exactly when its file decodes), calls
    after the last file return [false] and change nothing, and the
    position never passes the number of files. *)
Theorem next_frames_of_new_loader
    (directory : String.string) (n : nat) (frame : Mat) :
  let l := ImageSequenceLoaderImpl.new directory in
  let '(oks, l') := ImageSequenceLoaderImpl.next_frames n l frame in
  oks = map decodes (firstn n (filenames_ l))
        ++ repeat false (n - length (filenames_ l)) /\
  filenames_ l' = filenames_ l /\
  current_idx_ l' = Nat.min n (length (filenames_ l)) /\
  frame_size_ l' = frame_size_ l.
Proof.
  intro l.
  destruct (next_frames_from n l frame) as [Hoks Hl'];
    [simpl; lia|].
  destruct (ImageSequenceLoaderImpl.next_frames n l frame) as [oks l'].
  cbn [fst snd] in *. subst oks l'.
  change (current_idx_ l) with 0%nat. cbn [skipn Nat.add].
  rewrite Nat.sub_0_r. cbn [filenames_ current_idx_ frame_size_].
  repeat split.
Qed.

End SequenceLoader.

(** *** The order of the file names *)

Lemma ascii_compare_trans (a b c : ascii) (r : comparison) :
  Ascii.compare a b = r -> Ascii.compare b c = r -> Ascii.compare a c = r.
Proof.
  unfold Ascii.compare. intros <- H.
  destruct (N.compare_spec (N_of_ascii a) (N_of_ascii b)) as [Hab|Hab|Hab];
    destruct (N.compare_spec (N_of_ascii b) (N_of_ascii c)) as [Hbc|Hbc|Hbc];
    try discriminate;
    destruct (N.compare_spec (N_of_ascii a) (N_of_ascii c)); try reflexivity;
    lia.
Qed.

Lemma string_compare_lt_trans (s1 : String.string) :
  forall s2 s3,
    String.compare s1 s2 = Lt -> String.compare s2 s3 = Lt ->
    String.compare s1 s3 = Lt.
Proof.
  induction s1 as [|a s1 IH]; intros [|b s2] [|c s3]; simpl;
    try discriminate; try reflexivity.
  intros H12 H23.
  destruct (Ascii.compare a b) eqn:Hab; try discriminate;
    destruct (Ascii.compare b c) eqn:Hbc; try discriminate.
  - apply Ascii.compare_eq_iff in Hab, Hbc. subst.
    assert (Hcc : Ascii.compare c c = Eq)
      by (unfold Ascii.compare; apply N.compare_refl).
    rewrite Hcc. now apply (IH s2).
  - apply Ascii.compare_eq_iff in Hab. subst. now rewrite Hbc.
  - apply Ascii.compare_eq_iff in Hbc. subst. now rewrite Hab.
  - now rewrite (ascii_compare_trans a b c Lt Hab Hbc).
Qed.

Lemma string_leb_trans (s1 s2 s3 : String.string) :
  String.leb s1 s2 = true -> String.leb s2 s3 = true -> String.leb s1 s3 = true.
Proof.
  unfold String.leb. intros H12 H23.
  destruct (String.compare s1 s2) eqn:C12; try discriminate;
    destruct (String.compare s2 s3) eqn:C23; try discriminate.
  - apply String.compare_eq_iff in C12, C23. subst.
    pose proof (String.compare_antisym s3 s3) as Hrefl.
    destruct (String.compare s3 s3); try reflexivity. discriminate.
  - apply String.compare_eq_iff in C12. subst. now rewrite C23.
  - apply String.compare_eq_iff in C23. subst. now rewrite C12.
  - now rewrite (string_compare_lt_trans s1 s2 s3 C12 C23).
Qed.

(** A list has one ascending arrangement. *)
Lemma sorted_permutation_unique (l : list String.string) :
  forall l',
    StronglySorted (fun a b => is_true (String.leb a b)) l ->
    StronglySorted (fun a b => is_true (String.leb a b)) l' ->
    Permutation l l' -> l = l'.
Proof.
  induction l as [|a l IH]; intros l' Hs Hs' Hp.
  - apply Permutation_nil in Hp. now subst.
  - destruct l' as [|b l']; [apply Permutation_sym, Permutation_nil in Hp; discriminate|].
    inversion Hs as [|? ? Hsl Hal]; subst.
    inversion Hs' as [|? ? Hsl' Hbl']; subst.
    assert (Hab : a = b).
    { assert (Hb : In b (a :: l))
        by (apply (Permutation_in _ (Permutation_sym Hp)); now left).
      assert (Ha : In a (b :: l')) by (apply (Permutation_in _ Hp); now left).
      destruct Hb as [->|Hb]; [reflexivity|].
      destruct Ha as [->|Ha]; [reflexivity|].
      apply String.leb_antisym.
      - exact (proj1 (Forall_forall _ _) Hal b Hb).
      - exact (proj1 (Forall_forall _ _) Hbl' a Ha). }
    subst b. f_equal. apply IH; try assumption.
    now apply Permutation_cons_inv in Hp.
Qed.

Lemma collected_regular_files (entries : list DirEntry) :
  forall acc,
    fold_left (fun filenames entry =>
                 if entry_is_regular_file entry
                 then filenames ++ [entry_path entry] else filenames)
              entries acc
    = acc ++ map entry_path (filter entry_is_regular_file entries).
Proof.
  induction entries as [|e entries IH]; intro acc; simpl.
  - now rewrite app_nil_r.
  - rewrite IH. destruct (entry_is_regular_file e); [|reflexivity].
    now rewrite <- app_assoc.
Qed.

Lemma sort_strongly_sorted (l : list String.string) :
  StronglySorted (fun a b => is_true (String.leb a b)) (StringSort.sort l).
Proof.
  apply StringSort.StronglySorted_sort.
  intros a b c Hab Hbc. exact (string_leb_trans a b c Hab Hbc).
Qed.

(** X14. The loader holds the paths of the regular files of the directory
    in ascending byte order, and so it is the same loader whatever the
    order in which the directory hands out its entries. *)
Theorem of_entries_order_independent
    (read : String.string -> Mat) (entries entries' : list DirEntry) :
  Permutation entries entries' ->
  let l := ImageSequenceLoaderImpl.of_entries read entries in
  StronglySorted (fun a b => is_true (String.leb a b)) (filenames_ l) /\
  Permutation (map entry_path (filter entry_is_regular_file entries))
              (filenames_ l) /\
  ImageSequenceLoaderImpl.of_entries read entries' = l.
Proof.
  intros Hp l. subst l. unfold ImageSequenceLoaderImpl.of_entries.
  rewrite !collected_regular_files. cbn [app filenames_].
  split; [apply sort_strongly_sorted|].
  split; [apply StringSort.Permuted_sort|].
  assert (Hsame : StringSort.sort (map entry_path
                                     (filter entry_is_regular_file entries'))
                  = StringSort.sort (map entry_path
                                       (filter entry_is_regular_file entries))).
  { apply sorted_permutation_unique; try apply sort_strongly_sorted.
    rewrite <- !StringSort.Permuted_sort.
    apply Permutation_map. symmetry.
    clear - Hp. induction Hp; simpl.
    - constructor.
    - destruct (entry_is_regular_file x); [now constructor | assumption].
    - destruct (entry_is_regular_file x), (entry_is_regular_file y);
        try reflexivity. constructor.
    - etransitivity; eassumption. }
  now rewrite Hsame.
Qed.

Lemma of_entries_order_independent_witness :
  Permutation
    [mkDirEntry "b.png" true; mkDirEntry "sub" false; mkDirEntry "a.png" true]
    [mkDirEntry "a.png" true; mkDirEntry "b.png" true; mkDirEntry "sub" false] /\
  let l := ImageSequenceLoaderImpl.of_entries (fun _ => mkMat 480 640 [])
             [mkDirEntry "b.png" true; mkDirEntry "sub" false;
              mkDirEntry "a.png" true] in
  StronglySorted (fun a b => is_true (String.leb a b)) (filenames_ l) /\
  Permutation
    (map entry_path
       (filter entry_is_regular_file
          [mkDirEntry "b.png" true; mkDirEntry "sub" false;
           mkDirEntry "a.png" true]))
    (filenames_ l) /\
  ImageSequenceLoaderImpl.of_entries (fun _ => mkMat 480 640 [])
    [mkDirEntry "a.png" true; mkDirEntry "b.png" true; mkDirEntry "sub" false]
  = l.
Proof.
  assert (Hp : Permutation
    [mkDirEntry "b.png" true; mkDirEntry "sub" false; mkDirEntry "a.png" true]
    [mkDirEntry "a.png" true; mkDirEntry "b.png" true; mkDirEntry "sub" false]).
  { apply Permutation_sym. apply (Permutation_cons_app [_; _] []).
    reflexivity. }
  split; [exact Hp|].
  apply (of_entries_order_independent (fun _ => mkMat 480 640 []) _ _ Hp).
Defined.

(** ** The choice of the input source *)

(** The indices below 10 in their order. *)
Lemma loop_from_collect (opens : Z -> bool) (name : Z -> String.string) :
  forall (n a : nat) (ids : list Z) (names : list String.string),
    loop_from (Z.of_nat a) n
      (fun i '(indices, device_names) =>
         if opens i then (indices ++ [i], device_names ++ [name i])
         else (indices, device_names)) (ids, names)
    = (ids ++ filter opens (map Z.of_nat (seq a n)),
       names ++ map name (filter opens (map Z.of_nat (seq a n)))).
Proof.
  induction n as [|n IH]; intros a ids names; simpl.
  - now rewrite !app_nil_r.
  - replace (Z.of_nat a + 1) with (Z.of_nat (S a)) by lia.
    destruct (opens (Z.of_nat a)); rewrite IH; simpl;
      now rewrite <- ?app_assoc.
Qed.

Lemma enumerate_camera_devices_closed (opens : Z -> bool) :
  Utils.enumerate_camera_devices opens
  = (filter opens (map Z.of_nat (seq 0 10)),
     map (fun i => String.append "Device " (Utils.to_string i))
         (filter opens (map Z.of_nat (seq 0 10)))).
Proof.
  unfold Utils.enumerate_camera_devices, loop_lt.
  change 0 with (Z.of_nat 0).
  exact (loop_from_collect opens _ (Z.to_nat 10) 0 [] []).
Qed.

(** Copying two vectors of one length entry by entry. *)
Lemma for_from_copy_pairs {A B : Type} (xs : list A) (ys : list B) :
  length xs = length ys ->
  forall (n a : nat) (accx : list A) (accy : list B),
    (a + n = length xs)%nat ->
    for_from (Z.of_nat a) n
      (fun i '(vx, vy) =>
         match vec_at xs i, vec_at ys i with
         | Some x, Some y => Some (vx ++ [x], vy ++ [y])
         | _, _ => None
         end) (accx, accy)
    = Some (accx ++ skipn a xs, accy ++ skipn a ys).
Proof.
  intros Hlen. induction n as [|n IH]; intros a accx accy Ha; simpl.
  - rewrite !skipn_all2 by lia. now rewrite !app_nil_r.
  - unfold vec_at.
    destruct (Z.ltb_spec (Z.of_nat a) 0) as [Hneg|_]; [lia|].
    rewrite Nat2Z.id.
    destruct (nth_error xs a) as [x|] eqn:Hx;
      [|apply nth_error_None in Hx; lia].
    destruct (nth_error ys a) as [y|] eqn:Hy;
      [|apply nth_error_None in Hy; lia].
    replace (Z.of_nat a + 1) with (Z.of_nat (S a)) by lia.
    rewrite IH by lia.
    rewrite (skipn_at xs a x Hx), (skipn_at ys a y Hy).
    now rewrite <- !app_assoc.
Qed.

Lemma enumerate_sources_closed (opens : Z -> bool) :
  enumerate_sources opens
  = Some (-1 :: filter opens (map Z.of_nat (seq 0 10)),
          "Still frames from disk"
          :: map (fun i => String.append "Device " (Utils.to_string i))
               (filter opens (map Z.of_nat (seq 0 10)))).
Proof.
  unfold enumerate_sources. rewrite enumerate_camera_devices_closed.
  unfold for_lt. rewrite Nat2Z.id.
  change 0 with (Z.of_nat 0) at 1.
  rewrite (for_from_copy_pairs _ _ (eq_sym (length_map _ _))) by lia.
  reflexivity.
Qed.

Lemma opened_below_10 (opens : Z -> bool) (d : Z) :
  In d (filter opens (map Z.of_nat (seq 0 10))) ->
  0 <= d < 10 /\ opens d = true.
Proof.
  intro Hin. apply filter_In in Hin. destruct Hin as [Hin Hop].
  split; [|exact Hop].
  apply in_map_iff in Hin. destruct Hin as (k & <- & Hk).
  apply in_seq in Hk. lia.
Qed.

(** X15. The input source is always one of the listed ones: whatever the
    devices and whatever the user types, the selection neither reads
    outside [available_devices] nor takes the exit for an empty list. A
    camera is selected only when the user typed the position [k >= 1] of
    a listed camera, and it is then the [k]-th index below 10 that
    opened; an empty, unreadable or zero input selects the still
    frames. *)
Theorem select_source_valid (opens : Z -> bool)
    (stoi : String.string -> option Z) (input : String.string) :
  exists src,
    select_source opens stoi input = Some (Some src) /\
    (forall d, src = Camera d ->
       0 <= d < 10 /\ opens d = true /\
       exists k, input <> "" /\ stoi input = Some k /\ 1 <= k /\
         nth_error (filter opens (map Z.of_nat (seq 0 10))) (Z.to_nat (k - 1))
         = Some d) /\
    (input = "" \/ stoi input = None \/ stoi input = Some 0 ->
     src = StillFrames).
Proof.
  unfold select_source. rewrite enumerate_sources_closed.
  set (cams := filter opens (map Z.of_nat (seq 0 10))).
  cbn [CalibratorImpl.is_empty].
  unfold choose_device.
  destruct (String.eqb_spec input "") as [Hempty | Hinput].
  - exists StillFrames. split; [reflexivity|]. split; [discriminate | auto].
  - destruct (stoi input) as [user_id|] eqn:Hstoi.
    + destruct (Z.leb_spec 0 user_id) as [Hlo|Hlo]; cbn [andb].
      * destruct (Z.ltb_spec user_id
                    (Int.wrap (Z.of_nat (length (-1 :: cams))))) as [Hhi|Hhi].
        -- destruct (Z.eq_dec user_id 0) as [-> | Hnz].
           ++ exists StillFrames. split; [reflexivity|].
              split; [discriminate | auto].
           ++ assert (Hlen : (length cams <= 10)%nat).
              { unfold cams. etransitivity; [apply filter_length_le|].
                now rewrite length_map, length_seq. }
              assert (Hw : Int.wrap (Z.of_nat (length (-1 :: cams)))
                           = Z.of_nat (length cams) + 1).
              { cbn [length]. rewrite wrap_in_range
                  by (unfold Int.in_range, Int.INT_MIN, Int.INT_MAX; lia).
                lia. }
              rewrite Hw in Hhi.
              unfold vec_at.
              destruct (Z.ltb_spec user_id 0) as [Hneg|_]; [lia|].
              replace (Z.to_nat user_id) with (S (Z.to_nat (user_id - 1)))
                by lia.
              cbn [nth_error].
              destruct (nth_error cams (Z.to_nat (user_id - 1))) as [d|] eqn:Hd;
                [|apply nth_error_None in Hd; lia].
              destruct (opened_below_10 opens d (nth_error_In _ _ Hd))
                as [Hrange Hopen].
              destruct (Z.eqb_spec d (-1)) as [Hd1|_]; [lia|].
              exists (Camera d). split; [reflexivity|]. split.
              ** intros d' Hd'. injection Hd' as <-.
                 split; [exact Hrange|]. split; [exact Hopen|].
                 exists user_id. repeat split; [exact Hinput | lia | exact Hd].
              ** intros [Hc | [Hc | Hc]];
                   [contradiction | discriminate | injection Hc as Hc; lia].
        -- exists StillFrames. split; [reflexivity|].
           split; [discriminate | auto].
      * exists StillFrames. split; [reflexivity|].
        split; [discriminate | auto].
    + exists StillFrames. split; [reflexivity|]. split; [discriminate | auto].
Qed.

(** With cameras at the indices 0 and 2, the input "2" selects the camera
    of index 2, and "3" is no listed source. *)
Example select_source_second_camera :
  let opens := fun i => (i =? 0) || (i =? 2) in
  let stoi := fun s => if String.eqb s "2" then Some 2
                       else if String.eqb s "3" then Some 3 else None in
  select_source opens stoi "2" = Some (Some (Camera 2)) /\
  select_source opens stoi "3" = Some (Some StillFrames) /\
  select_source opens stoi "two" = Some (Some StillFrames).
Proof. repeat split. Qed.

(** ** [Renderer] *)

Lemma projected_8 {cv : OpenCV} (K dist rvec tvec : Mat) (base : Point3f) :
  opencv_contract cv ->
  exists p0 p1 p2 p3 p4 p5 p6 p7,
    projectPoints (Renderer.cube_pts base) rvec tvec K dist
    = [p0; p1; p2; p3; p4; p5; p6; p7].
Proof.
  intros [_ Hproj].
  specialize (Hproj (Renderer.cube_pts base) rvec tvec K dist).
  destruct (projectPoints (Renderer.cube_pts base) rvec tvec K dist)
    as [|p0 [|p1 [|p2 [|p3 [|p4 [|p5 [|p6 [|p7 [|p8 l]]]]]]]]];
    try discriminate.
  now exists p0, p1, p2, p3, p4, p5, p6, p7.
Qed.

Lemma draw_cube_closed {cv : OpenCV} (K dist rvec tvec : Mat)
    (base : Point3f) (color : Scalar) :
  opencv_contract cv ->
  Renderer.draw_cube K dist rvec tvec base color
  = Some (map (fun ij =>
                 Line (nth (Z.to_nat (fst ij))
                         (projectPoints (Renderer.cube_pts base) rvec tvec K dist)
                         (mkPoint2f F32.zero F32.zero))
                      (nth (Z.to_nat (snd ij))
                         (projectPoints (Renderer.cube_pts base) rvec tvec K dist)
                         (mkPoint2f F32.zero F32.zero))
                      color 2)
            Renderer.cube_edges).
Proof.
  intro Hcontract. unfold Renderer.draw_cube.
  destruct (projected_8 K dist rvec tvec base Hcontract)
    as (p0 & p1 & p2 & p3 & p4 & p5 & p6 & p7 & ->).
  reflexivity.
Qed.

(** X16. [draw_cube] draws the twelve edges of the cube and nothing else:
    its eight points are [base] displaced along every choice of axes,
    each choice once, and for any two of these corners the number of
    segments drawn between their projections is one when they are
    displaced alike along all axes but one, and none otherwise. *)
Theorem draw_cube_edges {cv : OpenCV} (K dist rvec tvec : Mat)
    (base : Point3f) (color : Scalar) :
  opencv_contract cv ->
  let proj := projectPoints (Renderer.cube_pts base) rvec tvec K dist in
  let point := fun i => nth (Z.to_nat i) proj (mkPoint2f F32.zero F32.zero) in
  let corner := fun i => nth (Z.to_nat i) cube_displacements
                           (false, false, false) in
  Renderer.cube_pts base = map (cube_corner base) cube_displacements /\
  NoDup cube_displacements /\
  (forall o, In o cube_displacements) /\
  length proj = 8%nat /\
  Renderer.draw_cube K dist rvec tvec base color
  = Some (map (fun ij => Line (point (fst ij)) (point (snd ij)) color 2)
            Renderer.cube_edges) /\
  length Renderer.cube_edges = 12%nat /\
  forall a b,
    length (filter (fun ij => joins (corner (fst ij), corner (snd ij)) a b)
              Renderer.cube_edges)
    = if one_axis_apart a b then 1%nat else 0%nat.
Proof.
  intros Hcontract proj point corner.
  split; [reflexivity|].
  split.
  { repeat (constructor; [simpl; intuition discriminate|]). constructor. }
  split.
  { intros [[[|] [|]] [|]]; simpl; tauto. }
  split.
  { unfold proj. destruct Hcontract as [_ Hproj]. now rewrite Hproj. }
  split; [exact (draw_cube_closed K dist rvec tvec base color Hcontract)|].
  split; [reflexivity|].
  intros [[[|] [|]] [|]] [[[|] [|]] [|]]; reflexivity.
Qed.

Lemma draw_cube_edges_witness :
  opencv_contract Examples.cv_project_grid /\
  Renderer.draw_cube (H := Examples.cv_project_grid)
    Examples.identity3 (Mat_zeros 5 1) (Mat_zeros 3 1) (Mat_zeros 3 1)
    (mkPoint3f F32.zero F32.zero F32.zero) (mkScalar 255 255 255)
  = Some (map (fun ij =>
                 Line (nth (Z.to_nat (fst ij))
                         (firstn 8 (Examples.grid 7 7 100 100 50 50))
                         (mkPoint2f F32.zero F32.zero))
                      (nth (Z.to_nat (snd ij))
                         (firstn 8 (Examples.grid 7 7 100 100 50 50))
                         (mkPoint2f F32.zero F32.zero))
                      (mkScalar 255 255 255) 2)
            Renderer.cube_edges).
Proof.
  split; [exact cv_project_grid_contract|].
  apply (draw_cube_edges (cv := Examples.cv_project_grid)
           Examples.identity3 (Mat_zeros 5 1) (Mat_zeros 3 1) (Mat_zeros 3 1)
           (mkPoint3f F32.zero F32.zero F32.zero) (mkScalar 255 255 255)
           cv_project_grid_contract).
Defined.

(** The letters ['A' + y]. *)
Lemma letters_from_A (n : nat) :
  (n <= 26)%nat ->
  map (fun y => String.String (char_of_int (Int.add 65 (Z.of_nat y)))
                  String.EmptyString) (seq 0 n)
  = firstn n capital_letters.
Proof.
  intro Hn.
  do 27 (destruct n as [|n]; [reflexivity|]). lia.
Qed.

Lemma projected_1 {cv : OpenCV} (K dist rvec tvec : Mat) (pt : Point3f) :
  opencv_contract cv ->
  exists p, vec_at (projectPoints [pt] rvec tvec K dist) 0 = Some p.
Proof.
  intros [_ Hproj]. specialize (Hproj [pt] rvec tvec K dist).
  destruct (projectPoints [pt] rvec tvec K dist) as [|p l];
    [discriminate|].
  now exists p.
Qed.

Lemma draw_labels_closed {cv : OpenCV} (rows cols : Z) (square_size : float)
    (K dist rvec tvec : Mat) (offset : Point3f) :
  opencv_contract cv ->
  rows < Int.INT_MAX -> cols < Int.INT_MAX ->
  exists cmds,
    Renderer.draw_labels rows cols square_size K dist rvec tvec offset
    = Some cmds /\
    map text_of cmds
    = map (fun y => String.String (char_of_int (Int.add 65 (Z.of_nat y)))
                      String.EmptyString) (seq 0 (Z.to_nat (rows + 1)))
      ++ map (fun x => Utils.to_string (Z.of_nat x + 1))
             (seq 0 (Z.to_nat (cols + 1))).
Proof.
  intros Hcontract Hrows Hcols. unfold Renderer.draw_labels.
  destruct (Z.eqb_spec rows Int.INT_MAX) as [Hr|_]; [lia|].
  destruct (Z.eqb_spec cols Int.INT_MAX) as [Hc|_]; [lia|].
  cbn [orb].
  set (row_pt := fun y : Z =>
         P3.add offset
           (mkPoint3f (F32.mul (SFopp f_half) square_size)
                      (F32.mul (F32.add (F32.of_int y) f_half) square_size)
                      F32.zero)).
  set (col_pt := fun x : Z =>
         P3.add offset
           (mkPoint3f (F32.mul (F32.add (F32.of_int x) f_half) square_size)
                      (F32.mul (SFopp f_half) square_size)
                      F32.zero)).
  set (row_label := fun y : Z =>
         match vec_at (projectPoints [row_pt y] rvec tvec K dist) 0 with
         | Some p => [PutText (String.String (char_of_int (Int.add 65 y))
                                 String.EmptyString) p d_1 (mkScalar 0 0 0) 2]
         | None => []
         end).
  set (col_label := fun x : Z =>
         match vec_at (projectPoints [col_pt x] rvec tvec K dist) 0 with
         | Some p => [PutText (Utils.to_string (Int.add x 1)) p d_1
                        (mkScalar 0 0 0) 2]
         | None => []
         end).
  rewrite (for_lt_push row_label).
  2:{ intros k st _. unfold row_label. fold (row_pt (Z.of_nat k)).
      destruct (projected_1 K dist rvec tvec (row_pt (Z.of_nat k)) Hcontract)
        as [p ->]. reflexivity. }
  rewrite (for_lt_push col_label).
  2:{ intros k st _. unfold col_label. fold (col_pt (Z.of_nat k)).
      destruct (projected_1 K dist rvec tvec (col_pt (Z.of_nat k)) Hcontract)
        as [p ->]. reflexivity. }
  eexists. split; [reflexivity|].
  cbn [app]. rewrite map_app. f_equal.
  - generalize (seq 0 (Z.to_nat (rows + 1))) as l.
    induction l as [|y l IH]; [reflexivity|].
    cbn [flat_map map]. rewrite map_app, IH. f_equal.
    unfold row_label.
    destruct (projected_1 K dist rvec tvec (row_pt (Z.of_nat y)) Hcontract)
      as [p ->]. reflexivity.
  - assert (Hall : forall x, In x (seq 0 (Z.to_nat (cols + 1))) ->
                             Int.add (Z.of_nat x) 1 = Z.of_nat x + 1).
    { intros x Hx. apply in_seq in Hx. unfold Int.add.
      apply wrap_in_range. unfold Int.in_range, Int.INT_MIN, Int.INT_MAX in *.
      lia. }
    revert Hall. generalize (seq 0 (Z.to_nat (cols + 1))) as l.
    induction l as [|x l IH]; intro Hall; [reflexivity|].
    cbn [flat_map map]. rewrite map_app, IH by (intros; apply Hall; now right).
    f_equal. unfold col_label.
    destruct (projected_1 K dist rvec tvec (col_pt (Z.of_nat x)) Hcontract)
      as [p ->]. cbn [map text_of app]. rewrite Hall by now left. reflexivity.
Qed.

(** X17. [draw_labels] writes one label more than [rows] and one more than
    [cols]: for [rows <= 25] the texts are, in this order, the first
    [rows + 1] capital letters and the numerals 1 to [cols + 1]; a
    negative count gives no label of its kind.  The call of [main], with
    the 7 by 7 inner corners, so labels the 8 by 8 squares A-H and 1-8. *)
Theorem draw_labels_texts {cv : OpenCV} (rows cols : Z) (square_size : float)
    (K dist rvec tvec : Mat) (offset : Point3f) :
  opencv_contract cv ->
  rows <= 25 -> cols < Int.INT_MAX ->
  exists cmds,
    Renderer.draw_labels rows cols square_size K dist rvec tvec offset
    = Some cmds /\
    map text_of cmds
    = firstn (Z.to_nat (rows + 1)) capital_letters
      ++ map (fun x => Utils.to_string (Z.of_nat x + 1))
             (seq 0 (Z.to_nat (cols + 1))).
Proof.
  intros Hcontract Hrows Hcols.
  destruct (draw_labels_closed rows cols square_size K dist rvec tvec offset
              Hcontract) as (cmds & Hcmds & Htexts);
    [unfold Int.INT_MAX; lia | exact Hcols |].
  exists cmds. split; [exact Hcmds|].
  rewrite Htexts, letters_from_A by lia. reflexivity.
Qed.

Lemma draw_labels_texts_witness :
  (opencv_contract Examples.cv_project_grid /\
   CORNERS_Y <= 25 /\ CORNERS_X < Int.INT_MAX) /\
  exists cmds,
    Renderer.draw_labels (H := Examples.cv_project_grid)
      CORNERS_Y CORNERS_X SQUARE_SIZE
      Examples.identity3 (Mat_zeros 5 1) (Mat_zeros 3 1) (Mat_zeros 3 1)
      (mkPoint3f F32.zero F32.zero F32.zero)
    = Some cmds /\
    map text_of cmds
    = firstn (Z.to_nat (CORNERS_Y + 1)) capital_letters
      ++ map (fun x => Utils.to_string (Z.of_nat x + 1))
             (seq 0 (Z.to_nat (CORNERS_X + 1))).
Proof.
  split.
  - split; [exact cv_project_grid_contract|].
    split; [cbv; discriminate | reflexivity].
  - apply (draw_labels_texts (cv := Examples.cv_project_grid)
             CORNERS_Y CORNERS_X SQUARE_SIZE
             Examples.identity3 (Mat_zeros 5 1) (Mat_zeros 3 1) (Mat_zeros 3 1)
             (mkPoint3f F32.zero F32.zero F32.zero)
             cv_project_grid_contract).
    + cbv; discriminate.
    + reflexivity.
Defined.

(** The labels of [main]'s board. *)
Example draw_labels_of_main :
  firstn (Z.to_nat (CORNERS_Y + 1)) capital_letters
  ++ map (fun x => Utils.to_string (Z.of_nat x + 1))
         (seq 0 (Z.to_nat (CORNERS_X + 1)))
  = [ "A"; "B"; "C"; "D"; "E"; "F"; "G"; "H";
      "1"; "2"; "3"; "4"; "5"; "6"; "7"; "8" ].
Proof. reflexivity. Qed.

(** ** The frame loop of [main] *)

Lemma find_corners_full_grid {ip : Imgproc} (frame : Mat)
    (corners : list Point2f) :
  imgproc_contract ip ->
  find_corners detector frame = (true, corners) ->
  Z.of_nat (length corners) = CORNERS_Y * CORNERS_X.
Proof.
  intros [Hfound Hrefine]. unfold find_corners.
  destruct (findChessboardCorners frame
              (mkSize (corners_x_ detector) (corners_y_ detector)))
    as [found cs] eqn:Hcs.
  destruct found; intro Heq; [|discriminate].
  injection Heq as <-. rewrite Hrefine.
  rewrite (Hfound _ _ _ Hcs). reflexivity.
Qed.

(** The two ways [use_detected_corners] ends on a full grid. *)
Lemma use_detected_corners_outcome {cv : OpenCV}
    (verbose_debug : bool) (s : Session) (corners : list Point2f)
    (frame gray : Mat) :
  opencv_contract cv ->
  Z.of_nat (length corners) = CORNERS_Y * CORNERS_X ->
  exists found,
    find_best_pose verbose_debug corners frame gray = Some found /\
    (use_detected_corners verbose_debug s corners frame gray = Some (s, false)
     \/
     (length (best_corners (best found)) = 49%nat /\
      use_detected_corners verbose_debug s corners frame gray
      = Some (mkSession
                (CalibratorImpl.add_sample (calibrator s)
                   (best_corners (best found))
                   (ChessboardImpl.generate_object_points detector))
                (all_frame_corners s
                 ++ [mkFrameCorners (best_corners (best found)) (rev corners)])
                (Int.sub
                   (Int.wrap (Z.of_nat (length (all_frame_corners s) + 1))) 1),
              true))).
Proof.
  intros Hcontract Hlen.
  destruct (find_best_pose_closed corners frame Hcontract Hlen)
    as (c0 & c1 & c2 & c3 & Hall & Hrun).
  cbv zeta in Hall, Hrun.
  destruct (Hrun verbose_debug gray) as (vals & Hfound & _).
  eexists. split; [exact Hfound|]. cbn [best].
  unfold use_detected_corners. rewrite Hfound. cbn [best].
  destruct (select_facts no_best [(0, c0); (1, c1); (2, c2); (3, c3)])
    as (_ & _ & [Hsame | (pre & k & c & post & Hsplit & Hsel & _)]).
  { left. rewrite Hsame. reflexivity. }
  destruct (four_candidates_split _ _ _ _ _ _ _ _ Hsplit) as [Hk _].
  assert (Hin : In (k, c) [(0, c0); (1, c1); (2, c2); (3, c3)])
    by (rewrite Hsplit; apply in_elt).
  destruct (Hall _ Hin) as (_ & Hof & _). cbn [fst snd] in Hof.
  destruct Hof as (Hreorder & _).
  assert (Hk' : 0 <= k <= 3) by (simpl in Hk; lia).
  assert (Hrows : 0 <= corners_y_ detector) by (cbv; discriminate).
  assert (Hcols : 0 <= corners_x_ detector) by (cbv; discriminate).
  assert (Hfit : corners_y_ detector * corners_x_ detector <= Int.INT_MAX)
    by (cbv; discriminate).
  destruct (reorder_then_complement detector corners k Hrows Hcols Hfit Hlen Hk')
    as (by_k & Hby & Hperm & Hh8).
  rewrite Hreorder in Hby. injection Hby as <-.
  right. rewrite Hsel. cbn [best_of best_a1 best_corners].
  destruct (Z.eqb_spec k (-1)); [lia|].
  rewrite Hh8, length_app. cbn [length].
  split; [|reflexivity].
  rewrite <- (Permutation_length Hperm).
  change (CORNERS_Y * CORNERS_X) with 49 in Hlen. lia.
Qed.

Lemma draw_axes_defined {cv : OpenCV} (K dist rvec tvec : Mat)
    (offset : Point3f) :
  opencv_contract cv ->
  exists cmds, Renderer.draw_axes K dist rvec tvec offset = Some cmds /\
               length cmds = 3%nat.
Proof.
  intros [_ Hproj]. unfold Renderer.draw_axes.
  match goal with
  | |- context [projectPoints ?pts rvec tvec K dist] =>
      specialize (Hproj pts rvec tvec K dist);
      destruct (projectPoints pts rvec tvec K dist)
        as [|p0 [|p1 [|p2 [|p3 l]]]]; try discriminate
  end.
  eexists. split; reflexivity.
Qed.

Lemma draw_overlays_defined {cv : OpenCV} (K dist rvec tvec : Mat)
    (square_size : float) :
  opencv_contract cv ->
  exists cmds, draw_overlays K dist rvec tvec square_size = Some cmds /\
               length cmds = 19%nat.
Proof.
  intro Hcontract. unfold draw_overlays.
  destruct (draw_axes_defined K dist rvec tvec
              (mkPoint3f (SFopp square_size) (SFopp square_size) F32.zero)
              Hcontract) as (axes & -> & Haxes).
  destruct (draw_labels_closed CORNERS_Y CORNERS_X square_size K dist rvec tvec
              (mkPoint3f (SFopp square_size) (SFopp square_size) F32.zero)
              Hcontract) as (labels & -> & Hlabels);
    [reflexivity | reflexivity |].
  eexists. split; [reflexivity|].
  rewrite length_app, Haxes.
  rewrite <- (length_map text_of labels), Hlabels.
  reflexivity.
Qed.

Lemma draw_cube_defined {cv : OpenCV} (K dist rvec tvec : Mat)
    (base : Point3f) (color : Scalar) :
  opencv_contract cv ->
  exists cmds, Renderer.draw_cube K dist rvec tvec base color = Some cmds /\
               length cmds = 12%nat.
Proof.
  intro Hcontract. rewrite draw_cube_closed by exact Hcontract.
  eexists. split; [reflexivity|]. now rewrite length_map.
Qed.

Section FrameLoopFacts.

Context {cv : OpenCV} {ip : Imgproc} {hg : Highgui}.
Context {L : Type} {fl : FrameLoader L}.
Variables use_camera verbose_debug : bool.

Hypothesis cv_contract : opencv_contract cv.
Hypothesis ip_contract : imgproc_contract ip.

(** A frame is either turned down, which changes nothing, or accepted,
    which adds one sample of 49 points and one stored pair of orders. *)
Lemma process_frame_outcome (st : MainState L) (captured : Mat) :
  exists session' last_valid_frame' accepted shown,
    process_frame use_camera verbose_debug st captured
    = Some (session', last_valid_frame', accepted, shown) /\
    ((accepted = false /\ session' = session st
      /\ last_valid_frame' = last_valid_frame st)
     \/
     (accepted = true /\ last_valid_frame' = captured /\
      exists a1_corners h8_corners,
        length a1_corners = 49%nat /\
        session'
        = mkSession
            (CalibratorImpl.add_sample (calibrator (session st)) a1_corners
               (ChessboardImpl.generate_object_points detector))
            (all_frame_corners (session st)
             ++ [mkFrameCorners a1_corners h8_corners])
            (Int.sub
               (Int.wrap
                  (Z.of_nat (length (all_frame_corners (session st)) + 1)))
               1))).
Proof.
  unfold process_frame.
  set (shown0 := if use_camera && (frame_count st <? REQUIRED_FRAMES)
                 then _ else captured).
  destruct (Utils.is_blurred (cvtColor_BGR2GRAY shown0) use_camera).
  { do 4 eexists. split; [reflexivity|]. left. auto. }
  destruct (find_corners detector shown0) as [found corners] eqn:Hfind.
  destruct found; cbn [negb].
  2:{ do 4 eexists. split; [reflexivity|]. left. auto. }
  pose proof (find_corners_full_grid _ _ ip_contract Hfind) as Hlen.
  destruct (use_detected_corners_outcome verbose_debug (session st) corners
              shown0 (cvtColor_BGR2GRAY shown0) cv_contract Hlen)
    as (found & -> & [-> | (Hbest & ->)]).
  { do 4 eexists. split; [reflexivity|]. left. auto. }
  match goal with
  | |- context [draw_overlays ?K ?d ?r ?t ?s] =>
      destruct (draw_overlays_defined K d r t s cv_contract)
        as (overlays & -> & _)
  end.
  do 4 eexists. split; [reflexivity|]. right.
  split; [reflexivity|]. split; [reflexivity|].
  do 2 eexists. split; [exact Hbest | reflexivity].
Qed.

Lemma samples_consistent_add (s : Session) (a1_corners h8_corners : list Point2f) :
  samples_consistent s ->
  length a1_corners = 49%nat ->
  Z.of_nat (length (image_points_ (calibrator s))) < Int.INT_MAX ->
  samples_consistent
    (mkSession
       (CalibratorImpl.add_sample (calibrator s) a1_corners
          (ChessboardImpl.generate_object_points detector))
       (all_frame_corners s ++ [mkFrameCorners a1_corners h8_corners])
       (Int.sub (Int.wrap (Z.of_nat (length (all_frame_corners s) + 1))) 1)).
Proof.
  intros (Hmap & Hobj & Himg49 & Hobj49 & Hidx) Hlen Hfit.
  unfold samples_consistent.
  cbn [calibrator all_frame_corners last_valid_corners_idx
       CalibratorImpl.add_sample image_points_ object_points_].
  split; [now rewrite map_app, Hmap|].
  split; [rewrite !length_app; cbn [length]; lia|].
  split; [apply Forall_app; split; [exact Himg49 | now constructor]|].
  split; [apply Forall_app; split;
          [exact Hobj49 | constructor; [exact detector_points_length | constructor]]|].
  assert (Hsame : length (all_frame_corners s)
                  = length (image_points_ (calibrator s)))
    by (rewrite <- Hmap; now rewrite length_map).
  rewrite Hsame, length_app. cbn [length].
  unfold Int.sub.
  unfold Int.INT_MAX in Hfit.
  rewrite (wrap_in_range (Z.of_nat _))
    by (unfold Int.in_range, Int.INT_MIN, Int.INT_MAX; lia).
  rewrite wrap_in_range
    by (unfold Int.in_range, Int.INT_MIN, Int.INT_MAX; lia).
  reflexivity.
Qed.

Hypothesis num_frames_int :
  use_camera = false -> forall l : L, get_num_frames l <= Int.INT_MAX.

(** One step keeps the invariant, and takes at most one sample. *)
Lemma frame_loop_step_invariant (st : MainState L) :
  loop_invariant use_camera 0 st ->
  exists r,
    frame_loop_step use_camera verbose_debug st = Some r /\
    loop_invariant use_camera (slack_of r) (loop_state r) /\
    samples (loop_state r) <= frame_count st + 1.
Proof.
  intros (Hsess & Hcount & Hslack & Hfit & Hcam).
  unfold frame_loop_step.
  set (limit := if use_camera then REQUIRED_FRAMES
                else get_num_frames (loader st)).
  assert (Hlimit : limit <= Int.INT_MAX).
  { unfold limit. destruct use_camera;
      [cbv; discriminate | now apply num_frames_int]. }
  assert (Hlimit_cam : use_camera = true -> limit = 12).
  { intro Huc. unfold limit. now rewrite Huc. }
  clearbody limit.
  unfold samples, REQUIRED_FRAMES in *.
  set (N := Z.of_nat (length (image_points_ (calibrator (session st))))) in *.
  assert (Hkeep : forall slack fc' : Z,
             0 <= slack -> frame_count st <= fc' <= frame_count st + 1 ->
             fc' <= Int.INT_MAX ->
             (use_camera = true -> fc' = frame_count st) ->
             forall (l' : L) (f' lv' : Mat) (k : nat),
               loop_invariant use_camera slack
                 (mkMainState l' f' (session st) lv' fc' k) /\
               samples (mkMainState l' f' (session st) lv' fc' k)
               <= frame_count st + 1).
  { intros slack fc' Hs Hfc Hmax Hsame l' f' lv' k.
    unfold loop_invariant, samples. cbn [session frame_count]. fold N.
    split; [|lia].
    split; [exact Hsess|]. split; [lia|]. split; [lia|]. split; [lia|].
    intro Huc. specialize (Hcam Huc). specialize (Hsame Huc).
    unfold REQUIRED_FRAMES. lia. }
  destruct (Z.ltb_spec (frame_count st) limit) as [Hlt|Hge]; cbn [negb].
  2:{ exists (Exited st). split; [reflexivity|]. cbn [slack_of loop_state].
      destruct st as [l0 f0 s0 lv0 fc0 k0]. apply Hkeep; cbn in *; lia. }
  destruct (next_frame (loader st) (frame st)) as [[ok frame'] loader'].
  destruct ok; cbn [negb].
  2:{ eexists. split; [reflexivity|]. cbn [slack_of loop_state].
      apply Hkeep; lia. }
  destruct (process_frame_outcome st frame')
    as (session' & lv' & accepted & shown & -> & Hout).
  assert (Hadd1 : Int.add (frame_count st) 1 = frame_count st + 1).
  { unfold Int.add. apply wrap_in_range.
    unfold Int.in_range, Int.INT_MIN, Int.INT_MAX in *. lia. }
  destruct Hout as [(-> & -> & ->) | (-> & -> & a1c & h8c & Ha1 & ->)].
  - (* the frame is turned down *)
    destruct (waitKey (waitKey_calls st) =? KEY_ESCAPE).
    { eexists. split; [reflexivity|]. cbn [slack_of loop_state].
      apply Hkeep; lia. }
    destruct use_camera eqn:Huse; cbn [negb orb andb].
    + eexists. split; [reflexivity|]. cbn [slack_of loop_state].
      apply Hkeep; lia.
    + rewrite Hadd1.
      destruct (waitKey (S (waitKey_calls st)) =? KEY_ESCAPE);
        (eexists; split; [reflexivity|]); cbn [slack_of loop_state];
        apply Hkeep; unfold Int.INT_MAX in *; try lia; discriminate.
  - (* the frame is accepted *)
    assert (Hroom : N < Int.INT_MAX) by lia.
    pose proof (samples_consistent_add (session st) a1c h8c Hsess Ha1 Hroom)
      as Hsess'.
    assert (Hcam' : use_camera = true ->
                    frame_count st = N /\ frame_count st < 12).
    { intro Huc. specialize (Hcam Huc). specialize (Hlimit_cam Huc). lia. }
    assert (Hgrow : forall slack fc' : Z,
               0 <= slack ->
               (fc' = frame_count st + 1 \/ (fc' = frame_count st /\ slack = 1)) ->
               forall (l' : L) (f' lv' : Mat) (k : nat),
                 let st' :=
                   mkMainState l' f'
                     (mkSession
                        (CalibratorImpl.add_sample (calibrator (session st)) a1c
                           (ChessboardImpl.generate_object_points detector))
                        (all_frame_corners (session st)
                         ++ [mkFrameCorners a1c h8c])
                        (Int.sub
                           (Int.wrap
                              (Z.of_nat
                                 (length (all_frame_corners (session st)) + 1)))
                           1))
                     lv' fc' k in
                 loop_invariant use_camera slack st' /\
                 samples st' <= frame_count st + 1).
    { intros slack fc' Hs Hfc l' f' lv0 k st'. unfold st'.
      unfold loop_invariant, samples.
      cbn [session frame_count calibrator CalibratorImpl.add_sample
           image_points_].
      rewrite length_app. cbn [length].
      replace (Z.of_nat (length (image_points_ (calibrator (session st))) + 1))
        with (N + 1) by (unfold N; lia).
      unfold Int.INT_MAX in *.
      split; [|lia].
      split; [exact Hsess'|]. split; [lia|]. split; [lia|]. split; [lia|].
      intro Huc. specialize (Hcam' Huc). unfold REQUIRED_FRAMES. lia. }
    destruct (waitKey (waitKey_calls st) =? KEY_ESCAPE).
    { eexists. split; [reflexivity|]. cbn [slack_of loop_state].
      apply Hgrow; [lia | right; split; reflexivity]. }
    replace (negb use_camera || use_camera && true) with true
      by (now destruct use_camera).
    rewrite Hadd1.
    destruct (waitKey (S (waitKey_calls st)) =? KEY_ESCAPE);
      (eexists; split; [reflexivity|]); cbn [slack_of loop_state];
      (apply Hgrow; [lia | left; reflexivity]).
Qed.

(** Any number of turns keeps it. *)
Lemma frame_loop_invariant (turns : nat) :
  forall st : MainState L,
    loop_invariant use_camera 0 st ->
    exists r,
      frame_loop use_camera verbose_debug turns st = Some r /\
      loop_invariant use_camera (slack_of r) (loop_state r).
Proof.
  induction turns as [|turns IH]; intros st Hinv.
  - exists (Running st). split; [reflexivity | exact Hinv].
  - cbn [frame_loop].
    destruct (frame_loop_step_invariant st Hinv) as (r & -> & Hr & _).
    destruct r as [st'|st'].
    + exact (IH st' Hr).
    + exists (Exited st'). split; [reflexivity | exact Hr].
Qed.

Lemma initial_state_invariant (l : L) :
  loop_invariant use_camera 0 (initial_state l).
Proof.
  unfold loop_invariant, samples_consistent, samples, initial_state.
  cbn. repeat split; try (constructor); try lia; try discriminate.
Qed.

End FrameLoopFacts.

Lemma sharp_board_contract : imgproc_contract MainExamples.sharp_board.
Proof.
  split.
  - intros frm [w h] corners. cbn.
    destruct (Z.eqb_spec w 7) as [->|]; [|discriminate].
    destruct (Z.eqb_spec h 7) as [->|]; [|discriminate].
    cbn. intro Heq. injection Heq as <-. reflexivity.
  - reflexivity.
Qed.

(** X18. In camera mode the calibrator never holds more than
    [REQUIRED_FRAMES] samples, whatever the camera delivers and whatever
    keys are pressed: after any number of turns the run is defined, the
    samples and the stored corner orders go together (49 points each, the
    index of the last one in [last_valid_corners_idx]), the number of
    samples equals [frame_count] while the loop runs, and is [frame_count]
    or one more once it has ended (one more when ESC follows an accepted
    frame). *)
Theorem camera_loop_sample_count
    {cv : OpenCV} {ip : Imgproc} {hg : Highgui} {L : Type} {fl : FrameLoader L}
    (verbose_debug : bool) (l : L) (turns : nat) :
  opencv_contract cv ->
  imgproc_contract ip ->
  exists r,
    frame_loop true verbose_debug turns (initial_state l) = Some r /\
    samples_consistent (session (loop_state r)) /\
    samples (loop_state r) <= REQUIRED_FRAMES /\
    match r with
    | Running st => samples st = frame_count st
    | Exited st => frame_count st <= samples st <= frame_count st + 1
    end.
Proof.
  intros Hcv Hip.
  destruct (frame_loop_invariant true verbose_debug Hcv Hip
              (fun H => False_ind _ (diff_true_false H)) turns
              (initial_state l) (initial_state_invariant true l))
    as (r & Hrun & Hsess & Hcount & Hslack & Hfit & Hcam).
  exists r. split; [exact Hrun|]. split; [exact Hsess|].
  destruct (Hcam eq_refl) as [Hlow Hhigh].
  split; [exact Hhigh|].
  destruct r as [st|st]; cbn [slack_of loop_state] in *; lia.
Qed.

Lemma camera_loop_sample_count_witness :
  (opencv_contract Examples.cv_project_grid /\
   imgproc_contract MainExamples.sharp_board) /\
  exists r,
    frame_loop (cv := Examples.cv_project_grid)
      (ip := MainExamples.sharp_board) (hg := MainExamples.silent_display)
      true false 3 (initial_state MainExamples.camera_two_frames) = Some r /\
    samples_consistent (session (loop_state r)) /\
    samples (loop_state r) <= REQUIRED_FRAMES /\
    match r with
    | Running st => samples st = frame_count st
    | Exited st => frame_count st <= samples st <= frame_count st + 1
    end.
Proof.
  split.
  - split; [exact cv_project_grid_contract | exact sharp_board_contract].
  - apply (camera_loop_sample_count (cv := Examples.cv_project_grid)
             (ip := MainExamples.sharp_board)
             (hg := MainExamples.silent_display)
             false MainExamples.camera_two_frames 3
             cv_project_grid_contract sharp_board_contract).
Defined.

Section CameraLoopEnds.

Context {cv : OpenCV} {ip : Imgproc} {hg : Highgui}.
Context {L : Type} {fl : FrameLoader L}.
Variable verbose_debug : bool.

Hypothesis no_escape : forall n, waitKey n <> KEY_ESCAPE.

(** When the call of this turn delivers and ESC is not pressed, only the
    loop condition ends the loop. *)
Lemma camera_step_exit (st st' : MainState L) :
  ((frame_count st <? REQUIRED_FRAMES) = true ->
   fst (fst (next_frame (loader st) (frame st))) = true) ->
  frame_loop_step true verbose_debug st = Some (Exited st') ->
  st' = st /\ REQUIRED_FRAMES <= frame_count st.
Proof.
  intro Hdelivers. unfold frame_loop_step.
  destruct (Z.ltb_spec (frame_count st) REQUIRED_FRAMES) as [Hlt|Hge];
    cbn [negb].
  2:{ intro Heq. injection Heq as <-. split; [reflexivity | exact Hge]. }
  specialize (Hdelivers eq_refl).
  destruct (next_frame (loader st) (frame st)) as [[ok frame'] loader'].
  cbn [fst] in Hdelivers. subst ok. cbn [negb].
  destruct (process_frame true verbose_debug st frame')
    as [[[[session' lv'] accepted] shown]|]; [|discriminate].
  destruct (Z.eqb_spec (waitKey (waitKey_calls st)) KEY_ESCAPE) as [Hkey|_];
    [now apply no_escape in Hkey|].
  cbn [negb orb andb].
  destruct accepted; [|discriminate].
  destruct (Z.eqb_spec (waitKey (S (waitKey_calls st))) KEY_ESCAPE)
    as [Hkey|_]; [now apply no_escape in Hkey | discriminate].
Qed.

(** The first call of a run is the call of its first turn. *)
Lemma first_turn_delivered (turns : nat) (st : MainState L) :
  Forall (fun t => turn_delivered t = true)
         (frame_loop_turns true verbose_debug (S turns) st) ->
  ((frame_count st <? REQUIRED_FRAMES) = true ->
   fst (fst (next_frame (loader st) (frame st))) = true) /\
  forall st1,
    frame_loop_step true verbose_debug st = Some (Running st1) ->
    Forall (fun t => turn_delivered t = true)
           (frame_loop_turns true verbose_debug turns st1).
Proof.
  cbn [frame_loop_turns].
  destruct (frame_count st <? REQUIRED_FRAMES) eqn:Hcond; cbn [negb].
  2:{ intros _. split; [discriminate|].
      intros st1. unfold frame_loop_step. rewrite Hcond. discriminate. }
  destruct (next_frame (loader st) (frame st)) as [[ok frame'] loader'].
  intro Hall. inversion Hall as [|t ts Hhead Htail]; subst.
  cbn [turn_delivered fst] in *.
  split; [intros _; exact Hhead|].
  intros st1 Hstep. rewrite Hstep in Htail. exact Htail.
Qed.

End CameraLoopEnds.

(** X19. In camera mode, along a run in which every call of [next_frame]
    delivered a frame and ESC was not pressed, the loop ends only with
    [REQUIRED_FRAMES] accepted frames: when it has ended, the calibrator
    holds exactly 12 samples and [frame_count] is 12. *)
Theorem camera_loop_ends_with_required
    {cv : OpenCV} {ip : Imgproc} {hg : Highgui} {L : Type} {fl : FrameLoader L}
    (verbose_debug : bool) (l : L) (turns : nat) (st' : MainState L) :
  opencv_contract cv ->
  imgproc_contract ip ->
  (forall n, waitKey n <> KEY_ESCAPE) ->
  Forall (fun t => turn_delivered t = true)
         (frame_loop_turns true verbose_debug turns (initial_state l)) ->
  frame_loop true verbose_debug turns (initial_state l) = Some (Exited st') ->
  samples st' = REQUIRED_FRAMES /\ frame_count st' = REQUIRED_FRAMES.
Proof.
  intros Hcv Hip Hesc.
  generalize (initial_state_invariant true l).
  generalize (initial_state l) as st.
  induction turns as [|turns IH]; intros st Hinv Hall Hrun; [discriminate|].
  cbn [frame_loop] in Hrun.
  destruct (first_turn_delivered verbose_debug turns st Hall)
    as [Hfirst Hrest].
  destruct (frame_loop_step_invariant true verbose_debug Hcv Hip
              (fun H => False_ind _ (diff_true_false H)) st Hinv)
    as (r & Hstep & Hr & _).
  rewrite Hstep in Hrun. destruct r as [st1|st1].
  - exact (IH st1 Hr (Hrest st1 Hstep) Hrun).
  - injection Hrun as <-.
    destruct (camera_step_exit verbose_debug Hesc st st1 Hfirst Hstep)
      as [-> Hge].
    destruct Hinv as (_ & _ & Hslack & _ & Hcamera).
    destruct (Hcamera eq_refl). lia.
Qed.

Lemma camera_loop_ends_with_required_witness :
  (opencv_contract Examples.cv_project_grid /\
   imgproc_contract MainExamples.sharp_board /\
   (forall n, waitKey (Highgui := MainExamples.silent_display) n <> KEY_ESCAPE) /\
   Forall (fun t => turn_delivered t = true)
     (frame_loop_turns (cv := Examples.cv_project_grid)
        (ip := MainExamples.sharp_board) (hg := MainExamples.silent_display)
        true false 13 (initial_state MainExamples.camera_twelve_frames))) /\
  exists st',
    frame_loop (cv := Examples.cv_project_grid)
      (ip := MainExamples.sharp_board) (hg := MainExamples.silent_display)
      true false 13 (initial_state MainExamples.camera_twelve_frames)
    = Some (Exited st') /\
    samples st' = REQUIRED_FRAMES /\ frame_count st' = REQUIRED_FRAMES.
Proof.
  assert (Hdelivered :
            Forall (fun t => turn_delivered t = true)
              (frame_loop_turns (cv := Examples.cv_project_grid)
                 (ip := MainExamples.sharp_board)
                 (hg := MainExamples.silent_display)
                 true false 13
                 (initial_state MainExamples.camera_twelve_frames))).
  { vm_compute. repeat (constructor; [reflexivity|]). constructor. }
  split.
  - split; [exact cv_project_grid_contract|].
    split; [exact sharp_board_contract|].
    split; [intros n; discriminate | exact Hdelivered].
  - assert (Hrun : exists st',
               frame_loop (cv := Examples.cv_project_grid)
                 (ip := MainExamples.sharp_board)
                 (hg := MainExamples.silent_display)
                 true false 13
                 (initial_state MainExamples.camera_twelve_frames)
               = Some (Exited st')).
    { vm_compute. eexists. reflexivity. }
    destruct Hrun as [st' Hrun]. exists st'. split; [exact Hrun|].
    apply (camera_loop_ends_with_required (cv := Examples.cv_project_grid)
             (ip := MainExamples.sharp_board)
             (hg := MainExamples.silent_display)
             false MainExamples.camera_twelve_frames 13 st'
             cv_project_grid_contract sharp_board_contract).
    + intros n; discriminate.
    + exact Hdelivered.
    + exact Hrun.
Defined.

(** *** Still frames *)

Lemma wrap_bounds (z : Z) : Int.INT_MIN <= Int.wrap z <= Int.INT_MAX.
Proof.
  unfold Int.wrap, Int.INT_MIN, Int.INT_MAX.
  pose proof (Z.mod_pos_bound (z + 2147483648) 4294967296 eq_refl). lia.
Qed.

Lemma wrap_le (z : Z) : 0 <= z -> Int.wrap z <= z.
Proof.
  intro Hz. unfold Int.wrap.
  pose proof (Z.mod_le (z + 2147483648) 4294967296). lia.
Qed.

Section StillLoop.

Context {cv : OpenCV} {ip : Imgproc} {hg : Highgui} {fs : FileSystem}.
Variable verbose_debug : bool.

Hypothesis cv_contract : opencv_contract cv.
Hypothesis ip_contract : imgproc_contract ip.

Lemma sequence_num_frames_int :
  false = false ->
  forall l : ImageSequenceLoader, get_num_frames l <= Int.INT_MAX.
Proof. intros _ l. apply wrap_bounds. Qed.

(** One turn on still frames: the loader is asked for a frame only while
    files remain, and moves on by one file. *)
Lemma still_step (st : MainState ImageSequenceLoader) :
  loop_invariant false 0 st ->
  Z.of_nat (current_idx_ (loader st)) = frame_count st ->
  (current_idx_ (loader st) <= length (filenames_ (loader st)))%nat ->
  exists r,
    frame_loop_step false verbose_debug st = Some r /\
    loop_invariant false (slack_of r) (loop_state r) /\
    filenames_ (loader (loop_state r)) = filenames_ (loader st) /\
    (current_idx_ (loader (loop_state r))
     <= length (filenames_ (loader st)))%nat /\
    samples (loop_state r) <= Z.of_nat (current_idx_ (loader (loop_state r))) /\
    match r with
    | Running st' =>
        Z.of_nat (current_idx_ (loader st')) = frame_count st' /\
        frame_count st' = frame_count st + 1
    | Exited st' =>
        frame_count st' <= Z.of_nat (current_idx_ (loader st'))
        <= frame_count st' + 1
    end /\
    (current_idx_ (loader (loop_state r))
     <= S (current_idx_ (loader st)))%nat.
Proof.
  intros Hinv Hidx Hbound.
  destruct (frame_loop_step_invariant false verbose_debug cv_contract
              ip_contract sequence_num_frames_int st Hinv)
    as (r & Hstep & Hinv' & Hone).
  exists r. split; [exact Hstep|]. split; [exact Hinv'|].
  destruct Hinv as (_ & Hcount & Hslack & _).
  clear Hinv'. revert Hstep Hone. unfold frame_loop_step.
  destruct (Z.ltb_spec (frame_count st) (get_num_frames (loader st)))
    as [Hlt|Hge]; cbn [negb].
  2:{ intros Heq _. injection Heq as <-. cbn [loop_state].
      repeat split; try reflexivity; lia. }
  cbn [get_num_frames ImageSequenceLoader_loader] in Hlt.
  unfold ImageSequenceLoaderImpl.get_num_frames in Hlt.
  pose proof (wrap_le (Z.of_nat (length (filenames_ (loader st))))
                (Nat2Z.is_nonneg _)) as Hwrap.
  cbn [next_frame ImageSequenceLoader_loader].
  unfold ImageSequenceLoaderImpl.next_frame.
  destruct (nth_error (filenames_ (loader st)) (current_idx_ (loader st)))
    as [filename|] eqn:Hnth;
    [|apply nth_error_None in Hnth; lia].
  assert (Hin : (current_idx_ (loader st)
                 < length (filenames_ (loader st)))%nat)
    by (apply nth_error_Some; congruence).
  destruct (negb (Mat_is_empty (imread filename))); cbn [negb].
  2:{ intros Heq _. injection Heq as <-.
      unfold samples in *.
      cbn [loop_state loader filenames_ current_idx_ frame_count session] in *.
      repeat split; try reflexivity; lia. }
  destruct (process_frame false verbose_debug st (imread filename))
    as [[[[session' lv'] accepted] shown]|]; [|discriminate].
  destruct (waitKey (waitKey_calls st) =? KEY_ESCAPE).
  { intros Heq Hone. injection Heq as <-.
    cbn [loop_state loader filenames_ current_idx_ frame_count] in *.
    repeat split; try reflexivity; lia. }
  cbn [negb orb].
  assert (Hadd1 : Int.add (frame_count st) 1 = frame_count st + 1).
  { unfold Int.add. apply wrap_in_range.
    pose proof (wrap_bounds (Z.of_nat (length (filenames_ (loader st))))).
    unfold Int.in_range, Int.INT_MIN, Int.INT_MAX in *. lia. }
  rewrite Hadd1.
  destruct (waitKey (S (waitKey_calls st)) =? KEY_ESCAPE);
    intros Heq Hone; injection Heq as <-;
    cbn [loop_state loader filenames_ current_idx_ frame_count] in *;
    repeat split; try reflexivity; lia.
Qed.

(** The loop ends at the latest when the files are used up. *)
Lemma still_loop_from (files : list String.string) :
  forall (k : nat) (st : MainState ImageSequenceLoader),
    loop_invariant false 0 st ->
    filenames_ (loader st) = files ->
    Z.of_nat (current_idx_ (loader st)) = frame_count st ->
    (current_idx_ (loader st) <= length files)%nat ->
    (length files - current_idx_ (loader st) <= k)%nat ->
    exists st',
      frame_loop false verbose_debug (S k) st = Some (Exited st') /\
      loop_invariant false 1 st' /\
      filenames_ (loader st') = files /\
      (current_idx_ (loader st') <= length files)%nat /\
      samples st' <= Z.of_nat (current_idx_ (loader st')) /\
      frame_count st' <= Z.of_nat (current_idx_ (loader st'))
      <= frame_count st' + 1.
Proof.
  induction k as [|k IH]; intros st Hinv Hfiles Hidx Hbound Hleft;
    cbn [frame_loop];
    (destruct (still_step st Hinv Hidx)
       as (r & -> & Hinv' & Hsame & Hb' & Hn & Hr & _);
     [rewrite Hfiles; exact Hbound|]);
    rewrite Hfiles in Hsame, Hb';
    (destruct r as [st1|st1]; cbn [loop_state slack_of] in *;
     [|exists st1; split; [reflexivity|]; split; [exact Hinv'|];
       split; [exact Hsame|]; split; [exact Hb'|];
       split; [exact Hn | exact Hr]]).
  - exfalso. lia.
  - apply IH; [exact Hinv' | exact Hsame | tauto | exact Hb' | lia].
Qed.

End StillLoop.


(** The directory of the example: the two images are read and accepted,
    and the text file, third in the sorted order, ends the loop. *)
Example still_loop_two_images :
  match
    frame_loop (cv := Examples.cv_project_grid)
      (ip := MainExamples.sharp_board) (hg := MainExamples.silent_display)
      (fl := ImageSequenceLoader_loader (fs := MoreExamples.fs_two_images))
      false false 4
      (initial_state
         (ImageSequenceLoaderImpl.new
            (H := MoreExamples.fs_two_images) "res/frames"))
  with
  | Some (Exited st') =>
      samples st' = 2 /\ frame_count st' = 2 /\
      current_idx_ (loader st') = 3%nat
  | _ => False
  end.
Proof. vm_compute. repeat split. Qed.

(** *** After the loop *)

Lemma finish_of_consistent {cv : OpenCV} {hg : Highgui} {L : Type}
    {fl : FrameLoader L} (calibration_time final_frame_time : String.string)
    (st : MainState L) :
  opencv_contract cv ->
  samples_consistent (session st) ->
  samples st <= Int.INT_MAX ->
  exists cal out,
    finish calibration_time final_frame_time st = Some (cal, out) /\
    finish_outcome calibration_time final_frame_time st cal out.
Proof.
  intros Hcv (Hmap & Hobj & _ & _ & Hidx) Hfit.
  unfold finish, finish_outcome, CalibratorImpl.calibrate, samples in *.
  destruct (image_points_ (calibrator (session st))) as [|p ps] eqn:Himg.
  { cbn [CalibratorImpl.is_empty orb].
    do 2 eexists. split; [reflexivity|]. split; reflexivity. }
  destruct (object_points_ (calibrator (session st))) as [|o os] eqn:Hobjs;
    [discriminate|].
  cbn [CalibratorImpl.is_empty orb]. rewrite Hidx.
  destruct (exists_last (l := all_frame_corners (session st))) as (pre & vis & Hafc).
  { intro Hnil. rewrite Hnil in Hmap. discriminate. }
  assert (Hlast : last (p :: ps) [] = a1 vis).
  { rewrite <- Hmap, Hafc, map_app. cbn [map]. apply last_last. }
  assert (Hpos : Z.of_nat (length (p :: ps)) - 1 = Z.of_nat (length pre)).
  { rewrite <- Hmap, Hafc, length_map, length_app. cbn [length]. lia. }
  rewrite Hpos.
  destruct (Z.eqb_spec (Z.of_nat (length pre)) (-1)) as [Hneg|_]; [lia|].
  cbn [negb]. rewrite Hafc, vec_at_middle, Hlast.
  cbn [CalibratorImpl.get_camera_matrix CalibratorImpl.get_dist_coeffs
       camera_matrix_ dist_coeffs_].
  match goal with
  | |- context [pnp_ok ?pnp] => destruct (pnp_ok pnp) eqn:Hpnp
  end.
  2:{ do 2 eexists. split; [reflexivity|].
      split; [reflexivity|]. split; reflexivity. }
  match goal with
  | |- context [draw_overlays ?K ?d ?r ?t ?s] =>
      destruct (draw_overlays_defined K d r t s Hcv) as (overlays & -> & Hov)
  end.
  match goal with
  | |- context [Renderer.draw_cube ?K ?d ?r ?t ?b (mkScalar 255 255 255)] =>
      destruct (draw_cube_defined K d r t b (mkScalar 255 255 255) Hcv)
        as (white_cube & -> & Hwhite)
  end.
  match goal with
  | |- context [Renderer.draw_cube ?K ?d ?r ?t ?b (mkScalar 0 0 0)] =>
      destruct (draw_cube_defined K d r t b (mkScalar 0 0 0) Hcv)
        as (black_cube & -> & Hblack)
  end.
  match goal with
  | |- context [vec_at (projectPoints [?pt] ?r ?t ?K ?d) 0] =>
      destruct (projected_1 K d r t pt Hcv) as (origin2d & ->)
  end.
  do 2 eexists. split; [reflexivity|].
  split; [reflexivity|]. split; [reflexivity|].
  eexists. split; [|reflexivity].
  rewrite !length_app, Hov, Hwhite, Hblack. reflexivity.
Qed.


(** The camera of the example delivers two frames, both accepted; with
    them the run writes the calibration and the final frame. *)
Example finish_two_frames :
  match
    frame_loop (cv := Examples.cv_project_grid)
      (ip := MainExamples.sharp_board) (hg := MainExamples.silent_display)
      true false 3 (initial_state MainExamples.camera_two_frames)
  with
  | Some (Exited st') =>
      samples st' = 2 /\
      match finish (cv := Examples.cv_project_grid)
              (hg := MainExamples.silent_display)
              "20250101_120000" "20250101_120001" st' with
      | Some (cal, out) =>
          calibration_file out
          = Some ("calibration_20250101_120000.yml",
                  [ ("cameraMatrix", Examples.identity3);
                    ("distCoeffs", Mat_zeros 5 1) ]) /\
          final_frame_file out
          = Some ("final_frame_20250101_120001.png", Examples.image_640x480)
      | None => False
      end
  | _ => False
  end.
Proof. vm_compute. repeat split. Qed.

(** *** A file that is no image *)

Section StillLoopStops.

Context {cv : OpenCV} {ip : Imgproc} {hg : Highgui} {fs : FileSystem}.
Variable verbose_debug : bool.

Hypothesis cv_contract : opencv_contract cv.
Hypothesis ip_contract : imgproc_contract ip.

Variable files : list String.string.
Variable k : nat.
Variable filename : String.string.
Hypothesis at_k : nth_error files k = Some filename.
Hypothesis no_image : decodes filename = false.

(** The turn that reaches the file ends the loop and takes no sample. *)
Lemma still_step_at_bad_file (st : MainState ImageSequenceLoader)
    (r : Loop (MainState ImageSequenceLoader)) :
  filenames_ (loader st) = files ->
  current_idx_ (loader st) = k ->
  frame_loop_step false verbose_debug st = Some r ->
  exists st',
    r = Exited st' /\ session st' = session st /\
    (current_idx_ (loader st') <= S k)%nat.
Proof.
  intros Hfiles Hidx. unfold frame_loop_step.
  destruct (frame_count st <? get_num_frames (loader st)); cbn [negb].
  2:{ intro Heq. injection Heq as <-. exists st.
      split; [reflexivity|]. split; [reflexivity | lia]. }
  cbn [next_frame ImageSequenceLoader_loader].
  unfold ImageSequenceLoaderImpl.next_frame.
  rewrite Hfiles, Hidx, at_k.
  unfold decodes in no_image. rewrite no_image. cbn [negb].
  intro Heq. injection Heq as <-. eexists.
  split; [reflexivity|]. split; [reflexivity|]. cbn. lia.
Qed.

Lemma still_loop_stops_at (turns : nat) :
  forall (st : MainState ImageSequenceLoader)
         (r : Loop (MainState ImageSequenceLoader)),
    loop_invariant false 0 st ->
    filenames_ (loader st) = files ->
    Z.of_nat (current_idx_ (loader st)) = frame_count st ->
    (current_idx_ (loader st) <= k)%nat ->
    frame_loop false verbose_debug turns st = Some r ->
    samples (loop_state r) <= Z.of_nat k /\
    (current_idx_ (loader (loop_state r)) <= S k)%nat.
Proof.
  assert (Hk : (k < length files)%nat)
    by (apply nth_error_Some; congruence).
  induction turns as [|turns IH]; intros st r Hinv Hfiles Hidx Hle Hrun.
  - injection Hrun as <-. cbn [loop_state].
    destruct Hinv as (_ & _ & Hslack & _). lia.
  - cbn [frame_loop] in Hrun.
    destruct (still_step verbose_debug cv_contract ip_contract st Hinv Hidx)
      as (r1 & Hstep & Hinv1 & Hsame & Hb1 & Hn1 & Hr1 & Hnext);
      [rewrite Hfiles; lia|].
    rewrite Hstep in Hrun.
    destruct (Nat.eq_dec (current_idx_ (loader st)) k) as [Heq|Hne].
    + destruct (still_step_at_bad_file st r1 Hfiles Heq Hstep)
        as (st' & -> & Hsess & Hidx').
      injection Hrun as <-. cbn [loop_state].
      split; [|exact Hidx'].
      unfold samples. rewrite Hsess.
      destruct Hinv as (_ & _ & Hslack & _). unfold samples in Hslack. lia.
    + destruct r1 as [st1|st1]; cbn [loop_state slack_of] in *.
      * apply (IH st1 r Hinv1); [congruence | tauto | lia | exact Hrun].
      * injection Hrun as <-. cbn [loop_state]. lia.
Qed.

End StillLoopStops.

(** X22. On still frames nothing behind a file that does not decode is
    ever used: when the [k]-th file of the sorted list is no image, the
    loop ends having read at most the files up to it and having taken at
    most [k] samples, whatever the files behind it hold.  With such a
    file sorted first the run takes no sample and writes no file. *)
Theorem still_loop_stops_at_bad_file
    {cv : OpenCV} {ip : Imgproc} {hg : Highgui} {fs : FileSystem}
    (verbose_debug : bool) (directory filename : String.string) (k : nat)
    (calibration_time final_frame_time : String.string) :
  opencv_contract cv ->
  imgproc_contract ip ->
  nth_error (filenames_ (ImageSequenceLoaderImpl.new directory)) k
  = Some filename ->
  decodes filename = false ->
  exists st',
    frame_loop false verbose_debug
      (S (length (filenames_ (ImageSequenceLoaderImpl.new directory))))
      (initial_state (ImageSequenceLoaderImpl.new directory))
    = Some (Exited st') /\
    samples st' <= Z.of_nat k /\
    (current_idx_ (loader st') <= S k)%nat /\
    (k = 0%nat ->
     finish calibration_time final_frame_time st'
     = Some (calibrator (session st'), mkOutputs None None)).
Proof.
  intros Hcv Hip Hat Hbad.
  destruct (still_loop_from verbose_debug Hcv Hip
              (filenames_ (ImageSequenceLoaderImpl.new directory))
              (length (filenames_ (ImageSequenceLoaderImpl.new directory)))
              (initial_state (ImageSequenceLoaderImpl.new directory))
              (initial_state_invariant false _) eq_refl eq_refl
              (Nat.le_0_l _) (Nat.le_sub_l _ _))
    as (st' & Hrun & (Hsess & _) & _).
  destruct (still_loop_stops_at verbose_debug Hcv Hip
              (filenames_ (ImageSequenceLoaderImpl.new directory)) k filename
              Hat Hbad _ (initial_state (ImageSequenceLoaderImpl.new directory))
              (Exited st') (initial_state_invariant false _)
              eq_refl eq_refl (Nat.le_0_l k) Hrun) as [Hn Hidx].
  cbn [loop_state] in Hn, Hidx.
  exists st'. split; [exact Hrun|]. split; [exact Hn|]. split; [exact Hidx|].
  intros ->.
  destruct (finish_of_consistent calibration_time final_frame_time st' Hcv Hsess)
    as (cal & out & -> & Hout).
  { unfold Int.INT_MAX. lia. }
  unfold finish_outcome in Hout. unfold samples in Hn.
  destruct (image_points_ (calibrator (session st'))) as [|p ps];
    [|cbn [length] in Hn; lia].
  destruct Hout as [-> ->]. reflexivity.
Qed.

Lemma still_loop_stops_at_bad_file_witness :
  (opencv_contract Examples.cv_project_grid /\
   imgproc_contract MainExamples.sharp_board /\
   nth_error (filenames_ (ImageSequenceLoaderImpl.new
                            (H := MoreExamples.fs_two_images) "res/frames")) 2
   = Some "res/frames/notes.txt" /\
   decodes (H := MoreExamples.fs_two_images) "res/frames/notes.txt" = false) /\
  exists st',
    frame_loop (cv := Examples.cv_project_grid)
      (ip := MainExamples.sharp_board) (hg := MainExamples.silent_display)
      (fl := ImageSequenceLoader_loader (fs := MoreExamples.fs_two_images))
      false false
      (S (length (filenames_
                    (ImageSequenceLoaderImpl.new
                       (H := MoreExamples.fs_two_images) "res/frames"))))
      (initial_state
         (ImageSequenceLoaderImpl.new
            (H := MoreExamples.fs_two_images) "res/frames"))
    = Some (Exited st') /\
    samples st' <= Z.of_nat 2 /\
    (current_idx_ (loader st') <= 3)%nat /\
    (2%nat = 0%nat ->
     finish (cv := Examples.cv_project_grid) (hg := MainExamples.silent_display)
       (fl := ImageSequenceLoader_loader (fs := MoreExamples.fs_two_images))
       "20250101_120000" "20250101_120001" st'
     = Some (calibrator (session st'), mkOutputs None None)).
Proof.
  split.
  - split; [exact cv_project_grid_contract|].
    split; [exact sharp_board_contract|]. split; reflexivity.
  - apply (still_loop_stops_at_bad_file (cv := Examples.cv_project_grid)
             (ip := MainExamples.sharp_board)
             (hg := MainExamples.silent_display)
             (fs := MoreExamples.fs_two_images)
             false "res/frames" "res/frames/notes.txt" 2
             "20250101_120000" "20250101_120001"
             cv_project_grid_contract sharp_board_contract);
      reflexivity.
Defined.

(** A stray file sorted before the image: the image is never read, no
    sample is taken and nothing is written. *)
Example stray_file_first :
  match
    frame_loop (cv := Examples.cv_project_grid)
      (ip := MainExamples.sharp_board) (hg := MainExamples.silent_display)
      (fl := ImageSequenceLoader_loader (fs := MainExamples.fs_stray_file))
      false false 3
      (initial_state
         (ImageSequenceLoaderImpl.new
            (H := MainExamples.fs_stray_file) "res/frames"))
  with
  | Some (Exited st') =>
      filenames_ (loader st')
      = ["res/frames/.gitkeep"; "res/frames/frame01.png"] /\
      current_idx_ (loader st') = 1%nat /\ samples st' = 0 /\
      finish (cv := Examples.cv_project_grid)
        (hg := MainExamples.silent_display)
        (fl := ImageSequenceLoader_loader (fs := MainExamples.fs_stray_file))
        "20250101_120000" "20250101_120001" st'
      = Some (CalibratorImpl.new, mkOutputs None None)
  | _ => False
  end.
Proof. vm_compute. repeat split. Qed.

(** ** [Utils::enumerate_camera_devices] and [Utils::filename_timestamp] *)

Lemma filter_strongly_sorted {A : Type} (R : A -> A -> Prop)
    (f : A -> bool) (l : list A) :
  StronglySorted R l -> StronglySorted R (filter f l).
Proof.
  induction 1 as [|a l Hsorted IH Hall]; cbn; [constructor|].
  destruct (f a); [|exact IH].
  constructor; [exact IH|].
  rewrite Forall_forall in *. intros x Hx.
  apply filter_In in Hx. now apply Hall.
Qed.

Lemma indices_strongly_sorted (n a : nat) :
  StronglySorted Z.lt (map Z.of_nat (seq a n)).
Proof.
  revert a. induction n as [|n IH]; intro a; cbn; constructor; [apply IH|].
  apply Forall_forall. intros x Hx.
  apply in_map_iff in Hx. destruct Hx as (j & <- & Hj).
  apply in_seq in Hj. lia.
Qed.

(** X23. [enumerate_camera_devices] returns the indices below 10 whose
    device opens, in increasing order and each once, and gives
    [device_names] one name per index, "Device i" for the index [i]. *)
Theorem enumerate_camera_devices_lists (opens : Z -> bool) :
  let '(indices, device_names) := Utils.enumerate_camera_devices opens in
  (forall i, In i indices <-> 0 <= i < 10 /\ opens i = true) /\
  StronglySorted Z.lt indices /\
  device_names
  = map (fun i => String.append "Device " (Utils.to_string i)) indices.
Proof.
  rewrite enumerate_camera_devices_closed.
  split; [|split; [|reflexivity]].
  - intro i. rewrite filter_In, in_map_iff. split.
    + intros [(n & <- & Hn) Hop]. apply in_seq in Hn. split; [lia | exact Hop].
    + intros [Hi Hop]. split; [|exact Hop].
      exists (Z.to_nat i). split; [lia|]. apply in_seq. lia.
  - apply filter_strongly_sorted, indices_strongly_sorted.
Qed.

Lemma append_cancel_r (s t1 t2 : String.string) :
  String.append t1 s = String.append t2 s -> t1 = t2.
Proof.
  assert (Hlen : forall a b, String.length (String.append a b)
                             = (String.length a + String.length b)%nat).
  { induction a as [|c a IH]; intro b; cbn; [reflexivity | now rewrite IH]. }
  revert t2. induction t1 as [|c t1 IH]; intros [|c2 t2] Heq; cbn in Heq.
  - reflexivity.
  - apply (f_equal String.length) in Heq. cbn in Heq. rewrite Hlen in Heq. lia.
  - apply (f_equal String.length) in Heq. cbn in Heq. rewrite Hlen in Heq. lia.
  - injection Heq as -> Heq. f_equal. exact (IH t2 Heq).
Qed.

Lemma append_cancel_l (s t1 t2 : String.string) :
  String.append s t1 = String.append s t2 -> t1 = t2.
Proof.
  induction s as [|c s IH]; cbn; intro Heq; [exact Heq|].
  injection Heq as Heq. exact (IH Heq).
Qed.

Lemma digit_inj (a b : Z) : digit a = digit b -> a mod 10 = b mod 10.
Proof.
  unfold digit. intro Heq. apply (f_equal N_of_ascii) in Heq.
  pose proof (Z.mod_pos_bound a 10 eq_refl).
  pose proof (Z.mod_pos_bound b 10 eq_refl).
  rewrite !N_ascii_embedding in Heq by lia. lia.
Qed.

Lemma two_digits_value (n m : Z) :
  0 <= n <= 99 -> 0 <= m <= 99 ->
  (n / 10) mod 10 = (m / 10) mod 10 -> n mod 10 = m mod 10 -> n = m.
Proof. intros Hn Hm Htens Hones. Z.div_mod_to_equations. lia. Qed.

Lemma four_digits_value (n m : Z) :
  0 <= n <= 9999 -> 0 <= m <= 9999 ->
  (n / 1000) mod 10 = (m / 1000) mod 10 ->
  (n / 100) mod 10 = (m / 100) mod 10 ->
  (n / 10) mod 10 = (m / 10) mod 10 -> n mod 10 = m mod 10 -> n = m.
Proof. intros Hn Hm H3 H2 H1 H0. Z.div_mod_to_equations. lia. Qed.

(** X24. For one prefix and one extension, [filename_timestamp] gives the
    same name exactly when the local wall-clock readings agree to the
    second: the fixed widths of [%Y%m%d_%H%M%S] keep different readings
    apart (the 11th of January from the 1st of November), and two calls
    that read the same local second name the same file. *)
Theorem filename_timestamp_same_name
    (local1 local2 : LocalTime) (prefix ext : String.string) :
  wall_clock local1 ->
  wall_clock local2 ->
  (Utils.filename_timestamp (format_local_time local1) prefix ext
   = Utils.filename_timestamp (format_local_time local2) prefix ext
   <-> local1 = local2).
Proof.
  intros (Hy1 & Hm1 & Hd1 & Hh1 & Hmin1 & Hs1) (Hy2 & Hm2 & Hd2 & Hh2 & Hmin2 & Hs2).
  split; [|now intros ->].
  unfold Utils.filename_timestamp. intro Heq.
  apply append_cancel_l in Heq. apply append_cancel_l in Heq.
  apply append_cancel_r in Heq.
  destruct local1 as [y1 m1 d1 h1 min1 s1], local2 as [y2 m2 d2 h2 min2 s2].
  cbn [lt_year lt_month lt_day lt_hour lt_minute lt_second] in *.
  unfold format_local_time, four_digits, two_digits in Heq.
  cbn [lt_year lt_month lt_day lt_hour lt_minute lt_second String.append]
    in Heq.
  injection Heq as Hy3 Hy2' Hy1' Hy0 Hmo1 Hmo0 Hda1 Hda0 Hho1 Hho0
                   Hmi1 Hmi0 Hse1 Hse0.
  apply digit_inj in Hy3, Hy2', Hy1', Hy0, Hmo1, Hmo0, Hda1, Hda0,
                     Hho1, Hho0, Hmi1, Hmi0, Hse1, Hse0.
  rewrite (four_digits_value y1 y2), (two_digits_value m1 m2),
    (two_digits_value d1 d2), (two_digits_value h1 h2),
    (two_digits_value min1 min2), (two_digits_value s1 s2);
    try assumption; try lia.
  reflexivity.
Qed.

Lemma filename_timestamp_same_name_witness :
  (wall_clock (mkLocalTime 2025 1 11 9 5 0) /\
   wall_clock (mkLocalTime 2025 11 1 9 5 0)) /\
  (Utils.filename_timestamp
     (format_local_time (mkLocalTime 2025 1 11 9 5 0)) "calibration" "yml"
   = Utils.filename_timestamp
       (format_local_time (mkLocalTime 2025 11 1 9 5 0)) "calibration" "yml"
   <-> mkLocalTime 2025 1 11 9 5 0 = mkLocalTime 2025 11 1 9 5 0).
Proof.
  split.
  - split; unfold wall_clock; cbn; lia.
  - apply (filename_timestamp_same_name (mkLocalTime 2025 1 11 9 5 0)
             (mkLocalTime 2025 11 1 9 5 0) "calibration" "yml");
      unfold wall_clock; cbn; lia.
Defined.

Example filename_timestamp_of_reading :
  Utils.filename_timestamp
    (format_local_time (mkLocalTime 2025 1 11 9 5 0)) "calibration" "yml"
  = "calibration_20250111_090500.yml".
Proof. reflexivity. Qed.

(** ** The command line *)

(** X25. The verbose flag and the frames directory are read from the same
    arguments: the directory is the first argument whenever there is one,
    so a run with verbose output never reads the default directory
    "res/frames" unless that is spelled out as the first argument, and a
    run whose first argument is the flag takes the flag for the
    directory. *)
Theorem verbose_shifts_frames_dir (argv : list String.string) :
  (parse_verbose argv = true ->
   exists program arg rest,
     argv = program :: arg :: rest /\ frames_dir_of argv = arg) /\
  (forall program flag rest,
     argv = program :: flag :: rest ->
     flag = "--verbose" \/ flag = "-v" ->
     parse_verbose argv = true /\ frames_dir_of argv = flag).
Proof.
  split.
  - destruct argv as [|program [|arg rest]]; cbn; try discriminate.
    intros _. now exists program, arg, rest.
  - intros program flag rest -> [-> | ->]; split; reflexivity.
Qed.

Example verbose_alone_replaces_directory :
  parse_verbose ["checkmate"; "-v"] = true /\
  frames_dir_of ["checkmate"; "-v"] = "-v" /\
  parse_verbose ["checkmate"; "shots"; "--verbose"] = true /\
  frames_dir_of ["checkmate"; "shots"; "--verbose"] = "shots" /\
  frames_dir_of ["checkmate"] = "res/frames".
Proof. repeat split. Qed.

(** ** The calls of [next_frame] along a run *)

Lemma last_cons {A : Type} (l : list A) :
  forall a d : A, last (a :: l) d = last l a.
Proof.
  induction l as [|b l IH]; intros a d; [reflexivity|].
  change (last (a :: b :: l) d) with (last (b :: l) d).
  now rewrite !IH.
Qed.

Section FrameLoopTurnsFacts.

Context {cv : OpenCV} {ip : Imgproc} {hg : Highgui}.
Context {L : Type} {fl : FrameLoader L}.
Variables use_camera verbose_debug : bool.

Hypothesis cv_contract : opencv_contract cv.
Hypothesis ip_contract : imgproc_contract ip.
Hypothesis num_frames_int :
  use_camera = false -> forall l : L, get_num_frames l <= Int.INT_MAX.

(** What the turn after a call does to [last_valid_frame] and to the
    number of samples. *)
Lemma frame_loop_step_turn (st : MainState L) (r : Loop (MainState L)) :
  frame_loop_step use_camera verbose_debug st = Some r ->
  (frame_count st
   <? (if use_camera then REQUIRED_FRAMES else get_num_frames (loader st)))
  = true ->
  let '(ok, frame', _) := next_frame (loader st) (frame st) in
  let accepted :=
    if ok then
      match process_frame use_camera verbose_debug st frame' with
      | Some (_, _, accepted, _) => accepted
      | None => false
      end
    else false in
  last_valid_frame (loop_state r)
  = (if accepted then frame' else last_valid_frame st) /\
  samples (loop_state r) = samples st + (if accepted then 1 else 0).
Proof.
  unfold frame_loop_step. intros Hstep Hcond. rewrite Hcond in Hstep.
  cbn [negb] in Hstep.
  destruct (next_frame (loader st) (frame st)) as [[ok frame'] loader'].
  destruct ok; cbn [negb] in Hstep.
  2:{ injection Hstep as <-. cbn [loop_state last_valid_frame].
      unfold samples. cbn [session]. split; [reflexivity | lia]. }
  destruct (process_frame_outcome use_camera verbose_debug cv_contract
              ip_contract st frame')
    as (session' & lv' & accepted & shown & Hp & Hout).
  rewrite Hp in Hstep |- *.
  assert (Hfacts : lv' = (if accepted then frame' else last_valid_frame st) /\
                   Z.of_nat (length (image_points_ (calibrator session')))
                   = samples st + (if accepted then 1 else 0)).
  { destruct Hout as [(-> & -> & ->) | (-> & -> & a1c & h8c & _ & ->)].
    - unfold samples. split; [reflexivity | lia].
    - unfold samples.
      cbn [calibrator CalibratorImpl.add_sample image_points_].
      rewrite length_app. cbn [length]. split; [reflexivity | lia]. }
  destruct (waitKey (waitKey_calls st) =? KEY_ESCAPE).
  { injection Hstep as <-. exact Hfacts. }
  destruct (negb use_camera || use_camera && accepted).
  - destruct (waitKey (S (waitKey_calls st)) =? KEY_ESCAPE);
      injection Hstep as <-; exact Hfacts.
  - injection Hstep as <-. exact Hfacts.
Qed.

(** [last_valid_frame] is the frame delivered by the last call whose turn
    accepted it, and every such turn adds one sample. *)
Lemma frame_loop_turns_accepted (turns : nat) :
  forall (st : MainState L) (r : Loop (MainState L)),
    loop_invariant use_camera 0 st ->
    frame_loop use_camera verbose_debug turns st = Some r ->
    last_valid_frame (loop_state r)
    = last (map turn_frame
              (filter turn_accepted
                 (frame_loop_turns use_camera verbose_debug turns st)))
           (last_valid_frame st) /\
    samples (loop_state r)
    = samples st
      + Z.of_nat (length (filter turn_accepted
                            (frame_loop_turns use_camera verbose_debug
                               turns st))).
Proof.
  induction turns as [|turns IH]; intros st r Hinv Hrun.
  - injection Hrun as <-. cbn. split; [reflexivity | lia].
  - cbn [frame_loop frame_loop_turns] in *.
    destruct (frame_loop_step_invariant use_camera verbose_debug cv_contract
                ip_contract num_frames_int st Hinv)
      as (r1 & Hstep & Hinv1 & _).
    rewrite Hstep in Hrun |- *.
    destruct (frame_count st
              <? (if use_camera then REQUIRED_FRAMES
                  else get_num_frames (loader st))) eqn:Hcond; cbn [negb].
    2:{ unfold frame_loop_step in Hstep. rewrite Hcond in Hstep.
        injection Hstep as <-. injection Hrun as <-.
        cbn. split; [reflexivity | lia]. }
    pose proof (frame_loop_step_turn st r1 Hstep Hcond) as Hturn.
    destruct (next_frame (loader st) (frame st)) as [[ok frame'] loader'].
    cbv zeta in Hturn.
    set (accepted := if ok then _ else false) in *.
    destruct Hturn as [Hlv Hn].
    assert (Hrest : forall rest : list (Turn L),
               last (map turn_frame
                       (filter turn_accepted
                          (mkTurn (loader st) ok frame' accepted :: rest)))
                    (last_valid_frame st)
               = last (map turn_frame (filter turn_accepted rest))
                      (last_valid_frame (loop_state r1)) /\
               samples st
               + Z.of_nat (length (filter turn_accepted
                                     (mkTurn (loader st) ok frame' accepted
                                      :: rest)))
               = samples (loop_state r1)
                 + Z.of_nat (length (filter turn_accepted rest))).
    { intro rest. cbn [filter turn_accepted]. rewrite Hlv, Hn.
      destruct accepted; cbn [map length turn_frame].
      - split; [apply last_cons | lia].
      - split; [reflexivity | lia]. }
    destruct r1 as [st1|st1].
    + destruct (IH st1 r Hinv1 Hrun) as [Hlv' Hn'].
      destruct (Hrest (frame_loop_turns use_camera verbose_debug turns st1))
        as [-> ->].
      cbn [loop_state]. split; [exact Hlv' | exact Hn'].
    + injection Hrun as <-.
      destruct (Hrest []) as [-> ->]. cbn. split; [reflexivity | lia].
Qed.

End FrameLoopTurnsFacts.

Section StillLoopCalls.

Context {cv : OpenCV} {ip : Imgproc} {hg : Highgui} {fs : FileSystem}.
Variable verbose_debug : bool.

Hypothesis cv_contract : opencv_contract cv.
Hypothesis ip_contract : imgproc_contract ip.

(** A call made by the loop finds a file and moves the loader on by one. *)
Lemma still_step_advances (st : MainState ImageSequenceLoader)
    (r : Loop (MainState ImageSequenceLoader)) :
  Z.of_nat (current_idx_ (loader st)) = frame_count st ->
  (frame_count st <? get_num_frames (loader st)) = true ->
  frame_loop_step false verbose_debug st = Some r ->
  (current_idx_ (loader st) < length (filenames_ (loader st)))%nat /\
  current_idx_ (loader (loop_state r)) = S (current_idx_ (loader st)).
Proof.
  intros Hidx Hcond. unfold frame_loop_step. rewrite Hcond. cbn [negb].
  apply Z.ltb_lt in Hcond.
  cbn [get_num_frames ImageSequenceLoader_loader] in Hcond.
  unfold ImageSequenceLoaderImpl.get_num_frames in Hcond.
  pose proof (wrap_le (Z.of_nat (length (filenames_ (loader st))))
                (Nat2Z.is_nonneg _)) as Hwrap.
  assert (Hin : (current_idx_ (loader st)
                 < length (filenames_ (loader st)))%nat) by lia.
  cbn [next_frame ImageSequenceLoader_loader].
  unfold ImageSequenceLoaderImpl.next_frame.
  destruct (nth_error (filenames_ (loader st)) (current_idx_ (loader st)))
    as [filename|] eqn:Hnth;
    [|apply nth_error_None in Hnth; lia].
  destruct (negb (Mat_is_empty (imread filename))); cbn [negb].
  2:{ intro Heq. injection Heq as <-. split; [exact Hin | reflexivity]. }
  destruct (process_frame false verbose_debug st (imread filename))
    as [[[[session' lv'] accepted] shown]|]; [|discriminate].
  destruct (waitKey (waitKey_calls st) =? KEY_ESCAPE).
  { intro Heq. injection Heq as <-. split; [exact Hin | reflexivity]. }
  cbn [negb orb].
  destruct (waitKey (S (waitKey_calls st)) =? KEY_ESCAPE);
    intro Heq; injection Heq as <-; (split; [exact Hin | reflexivity]).
Qed.

(** The calls of a run are made at successive positions of the list of
    files, each at a position that holds a file. *)
Lemma still_loop_calls (turns : nat) :
  forall (st : MainState ImageSequenceLoader)
         (r : Loop (MainState ImageSequenceLoader)),
    loop_invariant false 0 st ->
    Z.of_nat (current_idx_ (loader st)) = frame_count st ->
    (current_idx_ (loader st) <= length (filenames_ (loader st)))%nat ->
    frame_loop false verbose_debug turns st = Some r ->
    (current_idx_ (loader st) <= current_idx_ (loader (loop_state r)))%nat /\
    map (fun t => current_idx_ (turn_loader t))
        (frame_loop_turns false verbose_debug turns st)
    = seq (current_idx_ (loader st))
          (current_idx_ (loader (loop_state r)) - current_idx_ (loader st)) /\
    Forall (fun t => (current_idx_ (turn_loader t)
                      < length (filenames_ (turn_loader t)))%nat)
           (frame_loop_turns false verbose_debug turns st).
Proof.
  induction turns as [|turns IH]; intros st r Hinv Hidx Hbound Hrun.
  - injection Hrun as <-. cbn [loop_state frame_loop_turns].
    rewrite Nat.sub_diag. split; [lia|]. split; [reflexivity | constructor].
  - cbn [frame_loop frame_loop_turns] in *.
    destruct (still_step verbose_debug cv_contract ip_contract st Hinv Hidx
                Hbound)
      as (r1 & Hstep & Hinv1 & Hsame & Hb1 & _ & Hr1 & _).
    rewrite Hstep in Hrun |- *.
    destruct (frame_count st <? get_num_frames (loader st)) eqn:Hcond;
      cbn [negb].
    2:{ unfold frame_loop_step in Hstep. rewrite Hcond in Hstep.
        injection Hstep as <-. injection Hrun as <-. cbn [loop_state].
        rewrite Nat.sub_diag. split; [lia|]. split; [reflexivity | constructor]. }
    destruct (still_step_advances st r1 Hidx Hcond Hstep) as [Hin Hnext].
    destruct (next_frame (loader st) (frame st)) as [[ok frame'] loader'].
    cbn [map turn_loader].
    destruct r1 as [st1|st1]; cbn [loop_state] in *.
    + destruct (IH st1 r Hinv1) as (Hmono & Hmap & Hall);
        [tauto | rewrite Hsame; exact Hb1 | exact Hrun |].
      rewrite Hnext in Hmono, Hmap.
      split; [lia|]. split.
      * rewrite Hmap.
        replace (current_idx_ (loader (loop_state r))
                 - current_idx_ (loader st))%nat
          with (S (current_idx_ (loader (loop_state r))
                   - S (current_idx_ (loader st))))%nat by lia.
        reflexivity.
      * constructor; [exact Hin | exact Hall].
    + injection Hrun as <-. cbn [loop_state]. rewrite Hnext.
      split; [lia|]. split.
      * replace (S (current_idx_ (loader st)) - current_idx_ (loader st))%nat
          with 1%nat by lia.
        reflexivity.
      * constructor; [exact Hin | constructor].
Qed.

End StillLoopCalls.

(** X20. On still frames the loop always ends, within one turn more than
    there are files: with the loader of a directory, the run of that many
    turns is defined and has left the loop.  Its calls of [next_frame]
    were made at the positions 0, 1, 2, ... of the sorted list in this
    order, one call per position up to where the loader stands at the
    end, and each at a position that holds a file: the loader is never
    asked for a frame when no file remains, and no file is read twice.
    The files read are [frame_count] or one more (one more when the last
    one read did not decode or was followed by ESC), and no more samples
    were taken than files were read. *)
Theorem still_loop_ends
    {cv : OpenCV} {ip : Imgproc} {hg : Highgui} {fs : FileSystem}
    (verbose_debug : bool) (directory : String.string) :
  opencv_contract cv ->
  imgproc_contract ip ->
  exists st',
    frame_loop false verbose_debug
      (S (length (filenames_ (ImageSequenceLoaderImpl.new directory))))
      (initial_state (ImageSequenceLoaderImpl.new directory))
    = Some (Exited st') /\
    map (fun t => current_idx_ (turn_loader t))
        (frame_loop_turns false verbose_debug
           (S (length (filenames_ (ImageSequenceLoaderImpl.new directory))))
           (initial_state (ImageSequenceLoaderImpl.new directory)))
    = seq 0 (current_idx_ (loader st')) /\
    Forall (fun t => (current_idx_ (turn_loader t)
                      < length (filenames_ (turn_loader t)))%nat)
           (frame_loop_turns false verbose_debug
              (S (length (filenames_ (ImageSequenceLoaderImpl.new directory))))
              (initial_state (ImageSequenceLoaderImpl.new directory))) /\
    filenames_ (loader st')
    = filenames_ (ImageSequenceLoaderImpl.new directory) /\
    (current_idx_ (loader st')
     <= length (filenames_ (ImageSequenceLoaderImpl.new directory)))%nat /\
    frame_count st' <= Z.of_nat (current_idx_ (loader st'))
    <= frame_count st' + 1 /\
    samples st' <= Z.of_nat (current_idx_ (loader st')) /\
    samples_consistent (session st').
Proof.
  intros Hcv Hip.
  destruct (still_loop_from verbose_debug Hcv Hip
              (filenames_ (ImageSequenceLoaderImpl.new directory))
              (length (filenames_ (ImageSequenceLoaderImpl.new directory)))
              (initial_state (ImageSequenceLoaderImpl.new directory))
              (initial_state_invariant false _))
    as (st' & Hrun & Hinv & Hfiles & Hidx & Hn & Hcount);
    try reflexivity.
  - apply Nat.le_0_l.
  - apply Nat.le_sub_l.
  - destruct (still_loop_calls verbose_debug Hcv Hip
                (S (length (filenames_ (ImageSequenceLoaderImpl.new directory))))
                (initial_state (ImageSequenceLoaderImpl.new directory))
                (Exited st')
                (initial_state_invariant false _) eq_refl (Nat.le_0_l _) Hrun)
      as (_ & Hcalls & Hfound).
    cbn [loop_state] in Hcalls.
    change (current_idx_
              (loader (initial_state (ImageSequenceLoaderImpl.new directory))))
      with 0%nat in Hcalls.
    rewrite Nat.sub_0_r in Hcalls.
    exists st'. destruct Hinv as (Hsess & _).
    split; [exact Hrun|]. split; [exact Hcalls|]. split; [exact Hfound|].
    split; [exact Hfiles|]. split; [exact Hidx|].
    split; [exact Hcount|]. split; [exact Hn | exact Hsess].
Qed.

Lemma still_loop_ends_witness :
  (opencv_contract Examples.cv_project_grid /\
   imgproc_contract MainExamples.sharp_board) /\
  exists st',
    frame_loop (cv := Examples.cv_project_grid)
      (ip := MainExamples.sharp_board) (hg := MainExamples.silent_display)
      (fl := ImageSequenceLoader_loader (fs := MoreExamples.fs_two_images))
      false false
      (S (length (filenames_
                    (ImageSequenceLoaderImpl.new
                       (H := MoreExamples.fs_two_images) "res/frames"))))
      (initial_state
         (ImageSequenceLoaderImpl.new
            (H := MoreExamples.fs_two_images) "res/frames"))
    = Some (Exited st') /\
    map (fun t => current_idx_ (turn_loader t))
        (frame_loop_turns (cv := Examples.cv_project_grid)
           (ip := MainExamples.sharp_board) (hg := MainExamples.silent_display)
           (fl := ImageSequenceLoader_loader (fs := MoreExamples.fs_two_images))
           false false
           (S (length (filenames_
                         (ImageSequenceLoaderImpl.new
                            (H := MoreExamples.fs_two_images) "res/frames"))))
           (initial_state
              (ImageSequenceLoaderImpl.new
                 (H := MoreExamples.fs_two_images) "res/frames")))
    = seq 0 (current_idx_ (loader st')) /\
    Forall (fun t => (current_idx_ (turn_loader t)
                      < length (filenames_ (turn_loader t)))%nat)
           (frame_loop_turns (cv := Examples.cv_project_grid)
              (ip := MainExamples.sharp_board)
              (hg := MainExamples.silent_display)
              (fl := ImageSequenceLoader_loader
                       (fs := MoreExamples.fs_two_images))
              false false
              (S (length (filenames_
                            (ImageSequenceLoaderImpl.new
                               (H := MoreExamples.fs_two_images) "res/frames"))))
              (initial_state
                 (ImageSequenceLoaderImpl.new
                    (H := MoreExamples.fs_two_images) "res/frames"))) /\
    filenames_ (loader st')
    = filenames_ (ImageSequenceLoaderImpl.new
                    (H := MoreExamples.fs_two_images) "res/frames") /\
    (current_idx_ (loader st')
     <= length (filenames_
                  (ImageSequenceLoaderImpl.new
                     (H := MoreExamples.fs_two_images) "res/frames")))%nat /\
    frame_count st' <= Z.of_nat (current_idx_ (loader st'))
    <= frame_count st' + 1 /\
    samples st' <= Z.of_nat (current_idx_ (loader st')) /\
    samples_consistent (session st').
Proof.
  split.
  - split; [exact cv_project_grid_contract | exact sharp_board_contract].
  - apply (still_loop_ends (cv := Examples.cv_project_grid)
             (ip := MainExamples.sharp_board)
             (hg := MainExamples.silent_display)
             (fs := MoreExamples.fs_two_images)
             false "res/frames"
             cv_project_grid_contract sharp_board_contract).
Defined.

(** The calls of the run over the directory of the example: three, at
    the positions 0, 1 and 2; the third finds the text file. *)
Example still_loop_two_images_calls :
  map (fun t => (current_idx_ (turn_loader t), turn_delivered t,
                 turn_accepted t))
      (frame_loop_turns (cv := Examples.cv_project_grid)
         (ip := MainExamples.sharp_board) (hg := MainExamples.silent_display)
         (fl := ImageSequenceLoader_loader (fs := MoreExamples.fs_two_images))
         false false 4
         (initial_state
            (ImageSequenceLoaderImpl.new
               (H := MoreExamples.fs_two_images) "res/frames")))
  = [ (0%nat, true, true); (1%nat, true, true); (2%nat, false, false) ].
Proof. vm_compute. reflexivity. Qed.

(** X21. After the loop, in either mode and after any number of turns,
    the last step of [main] is defined -- the stored corner orders are
    read at a position that exists -- and what it writes depends on the
    samples alone: none gives no file at all; otherwise the calibration
    file holds the two matrices [cv::calibrateCamera] returned for the
    samples, and the final frame is written exactly when [cv::solvePnP]
    succeeds on the image points of the last sample, as
    [last_valid_frame] under 45 drawing calls.  The samples are as many
    as the turns that accepted their frame, and [last_valid_frame] is the
    frame as [next_frame] delivered it, before any overlay, to the last
    of these turns.  The test [last_valid_corners_idx != -1] of line 366
    never fails. *)
Theorem finish_after_loop
    {cv : OpenCV} {ip : Imgproc} {hg : Highgui} {L : Type} {fl : FrameLoader L}
    (use_camera verbose_debug : bool) (l : L) (turns : nat)
    (calibration_time final_frame_time : String.string) :
  opencv_contract cv ->
  imgproc_contract ip ->
  (use_camera = false -> forall l : L, get_num_frames l <= Int.INT_MAX) ->
  exists r cal out,
    frame_loop use_camera verbose_debug turns (initial_state l) = Some r /\
    finish calibration_time final_frame_time (loop_state r) = Some (cal, out) /\
    finish_outcome calibration_time final_frame_time (loop_state r) cal out /\
    (last_valid_corners_idx (session (loop_state r)) = -1 <->
     image_points_ (calibrator (session (loop_state r))) = []) /\
    samples (loop_state r)
    = Z.of_nat (length (filter turn_accepted
                          (frame_loop_turns use_camera verbose_debug turns
                             (initial_state l)))) /\
    last_valid_frame (loop_state r)
    = last (map turn_frame
              (filter turn_accepted
                 (frame_loop_turns use_camera verbose_debug turns
                    (initial_state l))))
           Mat_empty.
Proof.
  intros Hcv Hip Hint.
  destruct (frame_loop_invariant use_camera verbose_debug Hcv Hip Hint turns
              (initial_state l) (initial_state_invariant use_camera l))
    as (r & Hrun & Hsess & _ & _ & Hfit & _).
  destruct (finish_of_consistent calibration_time final_frame_time
              (loop_state r) Hcv Hsess Hfit) as (cal & out & Hfinish & Hout).
  destruct (frame_loop_turns_accepted use_camera verbose_debug Hcv Hip Hint
              turns (initial_state l) r
              (initial_state_invariant use_camera l) Hrun) as [Hlv Hn].
  exists r, cal, out.
  split; [exact Hrun|]. split; [exact Hfinish|]. split; [exact Hout|].
  split.
  { destruct Hsess as (_ & _ & _ & _ & ->).
    destruct (image_points_ (calibrator (session (loop_state r))));
      cbn [length]; split; intro H; try reflexivity; try discriminate; lia. }
  split; [rewrite Hn; reflexivity | exact Hlv].
Qed.

Lemma finish_after_loop_witness :
  (opencv_contract Examples.cv_project_grid /\
   imgproc_contract MainExamples.sharp_board /\
   (true = false ->
    forall l : CameraFrameLoader, get_num_frames l <= Int.INT_MAX)) /\
  exists r cal out,
    frame_loop (cv := Examples.cv_project_grid)
      (ip := MainExamples.sharp_board) (hg := MainExamples.silent_display)
      true false 3 (initial_state MainExamples.camera_two_frames) = Some r /\
    finish (cv := Examples.cv_project_grid) (hg := MainExamples.silent_display)
      "20250101_120000" "20250101_120001" (loop_state r) = Some (cal, out) /\
    finish_outcome (cv := Examples.cv_project_grid)
      (hg := MainExamples.silent_display)
      "20250101_120000" "20250101_120001" (loop_state r) cal out /\
    (last_valid_corners_idx (session (loop_state r)) = -1 <->
     image_points_ (calibrator (session (loop_state r))) = []) /\
    samples (loop_state r)
    = Z.of_nat (length (filter turn_accepted
                          (frame_loop_turns (cv := Examples.cv_project_grid)
                             (ip := MainExamples.sharp_board)
                             (hg := MainExamples.silent_display)
                             true false 3
                             (initial_state MainExamples.camera_two_frames)))) /\
    last_valid_frame (loop_state r)
    = last (map turn_frame
              (filter turn_accepted
                 (frame_loop_turns (cv := Examples.cv_project_grid)
                    (ip := MainExamples.sharp_board)
                    (hg := MainExamples.silent_display)
                    true false 3
                    (initial_state MainExamples.camera_two_frames))))
           Mat_empty.
Proof.
  split.
  - split; [exact cv_project_grid_contract|].
    split; [exact sharp_board_contract | discriminate].
  - apply (finish_after_loop (cv := Examples.cv_project_grid)
             (ip := MainExamples.sharp_board)
             (hg := MainExamples.silent_display)
             true false MainExamples.camera_two_frames 3
             "20250101_120000" "20250101_120001"
             cv_project_grid_contract sharp_board_contract).
    discriminate.
Defined.
